(** * StockWatch backend: a shallow embedding of the route handlers

    The development follows the layout of the repository:

    - [Py]        the fragment of Python's dynamic values, exceptions and
                  string methods that the handlers rely on;
    - [Re]        the regular expressions of [validate_email] and
                  [validate_password], with a derivative matcher;
    - [Eff]       external collaborators (database session, payment
                  processor, hashing, randomness, clock) as oracles, and
                  the state-and-exception monad the handlers run in;
    - [Db]        [app/utils/db.py];
    - [Http]      requests, responses and bearer tokens;
    - [Auth], [Password], [Dashboard], [Premium]
                  the handlers of [app/routes/*/route.py];
    - [Boundary]  the [except] clauses that close every handler;
    - [Spec]      the vocabulary of the statements;
    - [Scenario]  concrete collaborators and requests.

    The definitions come first; the lemmas and theorems follow, grouped
    in sections by subject.

    Conventions.  A Python [str] is a Rocq [string] whose characters are the
    code points 0..255.  A [datetime] is represented by the text its
    [isoformat()] returns.  Python floats are IEEE binary64 values, taken
    from [SpecFloat].  A signed token is represented by what it carries.
    The headers of a response are those the view function adds.  Calls to
    [print] and to the loggers are not part of the model: they never reach
    the client. *)

From Stdlib Require Import ZArith String Ascii List Bool Lia.
From Stdlib Require Import Floats.SpecFloat.
From Stdlib Require Import DecimalString DecimalZ DecimalPos.
Import ListNotations.

Open Scope string_scope.
Open Scope Z_scope.

Set Warnings "-register-all".

(* ===================================================================== *)
(** * Python values *)
(* ===================================================================== *)

Module Py.

(** Exception classes that occur in the handlers.  [OtherError] stands for
    any class outside the ones the code names in an [except] clause. *)
Inductive exn_class :=
| IndexError
| TypeError
| ValueError
| AttributeError
| OverflowError
| StripeError
| SignatureVerificationError
| OtherError (name : string).

Record exn := mk_exn { exn_cls : exn_class; exn_text : string }.

Definition class_name (c : exn_class) : string :=
  match c with
  | IndexError => "IndexError"
  | TypeError => "TypeError"
  | ValueError => "ValueError"
  | AttributeError => "AttributeError"
  | OverflowError => "OverflowError"
  | StripeError => "stripe.error.StripeError"
  | SignatureVerificationError => "stripe.error.SignatureVerificationError"
  | OtherError n => n
  end.

(** [str(e)] *)
Definition str_exn (e : exn) : string := exn_text e.

Definition NL : string := String (ascii_of_nat 10) EmptyString.

(** [traceback.format_exc()]: the header and the final line.  The frame
    lines between them depend on the interpreter's stack and are left out. *)
Definition format_exc (e : exn) : string :=
  "Traceback (most recent call last):" ++ NL
  ++ class_name (exn_cls e) ++ ": " ++ exn_text e ++ NL.

(** [except (IndexError, TypeError, ValueError)] *)
Definition is_index_type_value (e : exn) : bool :=
  match exn_cls e with
  | IndexError | TypeError | ValueError => true
  | _ => false
  end.

(** [except (ValueError, TypeError)] *)
Definition is_value_type (e : exn) : bool :=
  match exn_cls e with
  | TypeError | ValueError => true
  | _ => false
  end.

(** [except stripe.error.StripeError]: the signature error is a subclass. *)
Definition is_stripe_error (e : exn) : bool :=
  match exn_cls e with
  | StripeError | SignatureVerificationError => true
  | _ => false
  end.

(** The outcome of evaluating an expression. *)
Inductive result (A : Type) :=
| Ok (a : A)
| Raise (e : exn).
Arguments Ok {A} a.
Arguments Raise {A} e.

Definition rbind {A B} (r : result A) (k : A -> result B) : result B :=
  match r with
  | Ok a => k a
  | Raise e => Raise e
  end.

Declare Scope result_scope.
Delimit Scope result_scope with result.
Notation "x <~ r ;; k" := (rbind r (fun x => k))
  (at level 61, r at next level, right associativity) : result_scope.

(** [try: r  except <classes>: h], for the classes [sel] accepts. *)
Definition rcatch {A} (sel : exn -> bool) (r : result A) (h : result A)
  : result A :=
  match r with
  | Ok a => Ok a
  | Raise e => if sel e then h else Raise e
  end.

(** Values that travel through the handlers: JSON request bodies, result
    rows of stored procedures, JSON response bodies. *)
Inductive value :=
| VNone
| VBool (b : bool)
| VInt (z : Z)
| VFloat (f : spec_float)
| VStr (s : string)
| VDecimal (m e : Z)            (* decimal.Decimal: m * 10^e *)
| VDatetime (iso : string)      (* datetime, by its isoformat() text *)
| VList (l : list value)
| VDict (d : list (string * value))
| VToken (refresh : bool) (identity : value) (claims : list (string * value)).
                                (* a signed token, by what it carries *)

(** A result row is a tuple-like sequence of values. *)
Definition row := list value.

Definition type_name (v : value) : string :=
  match v with
  | VNone => "NoneType"
  | VBool _ => "bool"
  | VInt _ => "int"
  | VFloat _ => "float"
  | VStr _ => "str"
  | VDecimal _ _ => "decimal.Decimal"
  | VDatetime _ => "datetime.datetime"
  | VList _ => "list"
  | VDict _ => "dict"
  | VToken _ _ _ => "str"
  end.

(** Truth value testing: [if v], [not v]. *)
Definition truthy (v : value) : bool :=
  match v with
  | VNone => false
  | VBool b => b
  | VInt z => negb (z =? 0)
  | VFloat (S754_zero _) => false
  | VFloat _ => true
  | VStr s => negb (String.eqb s "")
  | VDecimal m _ => negb (m =? 0)
  | VDatetime _ => true
  | VList l => match l with [] => false | _ => true end
  | VDict d => match d with [] => false | _ => true end
  | VToken _ _ _ => true
  end.

(** [v == 'literal'] for a string literal: only a [str] can be equal. *)
Definition eq_str (v : value) (s : string) : bool :=
  match v with
  | VStr t => String.eqb t s
  | _ => false
  end.

(** [v is None], [v is not None] *)
Definition is_none (v : value) : bool :=
  match v with VNone => true | _ => false end.

(** [bool(v)] *)
Definition py_bool (v : value) : value := VBool (truthy v).

(** [row[i]] on a tuple-like row. *)
Definition index (r : row) (i : nat) : result value :=
  match nth_error r i with
  | Some v => Ok v
  | None => Raise (mk_exn IndexError "tuple index out of range")
  end.

(** [d.get(key, default)] on a dict that was parsed from JSON. *)
Fixpoint assoc {A} (key : string) (d : list (string * A)) : option A :=
  match d with
  | [] => None
  | (k, v) :: rest => if String.eqb k key then Some v else assoc key rest
  end.

Definition no_attribute (v : value) (attr : string) : exn :=
  mk_exn AttributeError
    ("'" ++ type_name v ++ "' object has no attribute '" ++ attr ++ "'").

Definition dict_get (data : value) (key : string) (default : value)
  : result value :=
  match data with
  | VDict d => Ok (match assoc key d with Some v => v | None => default end)
  | _ => Raise (no_attribute data "get")
  end.

(** ** Characters and string methods *)

Definition code (c : ascii) : nat := nat_of_ascii c.

Definition in_range (lo hi : nat) (c : ascii) : bool :=
  (Nat.leb lo (code c) && Nat.leb (code c) hi)%bool.

(** [str.isspace] on the code points below 256; the set used by
    [str.strip()] and by the regular expression class [\s]. *)
Definition is_space (c : ascii) : bool :=
  (in_range 9 13 c || in_range 28 32 c
   || Nat.eqb (code c) 133 || Nat.eqb (code c) 160)%bool.

(** The class [\d] on the code points below 256. *)
Definition is_digit (c : ascii) : bool := in_range 48 57 c.

(** The class [[A-Za-z]]. *)
Definition is_ascii_letter (c : ascii) : bool :=
  (in_range 65 90 c || in_range 97 122 c)%bool.

Definition lower_char (c : ascii) : ascii :=
  if (in_range 65 90 c
      || (in_range 192 222 c && negb (Nat.eqb (code c) 215)))%bool
  then ascii_of_nat (code c + 32)
  else c.

(** The white space [int()] passes over at both ends of its argument. *)
Definition is_int_space (c : ascii) : bool :=
  (in_range 9 13 c || Nat.eqb (code c) 32
   || Nat.eqb (code c) 133 || Nat.eqb (code c) 160)%bool.

Fixpoint lstrip_by (blank : ascii -> bool) (s : list ascii) : list ascii :=
  match s with
  | c :: rest => if blank c then lstrip_by blank rest else s
  | [] => []
  end.

Definition strip_by (blank : ascii -> bool) (s : list ascii) : list ascii :=
  rev (lstrip_by blank (rev (lstrip_by blank s))).

Definition strip_chars (s : list ascii) : list ascii := strip_by is_space s.

Definition chars (s : string) : list ascii := list_ascii_of_string s.
Definition text (l : list ascii) : string := string_of_list_ascii l.

(** [s.strip()] *)
Definition strip (s : string) : string := text (strip_chars (chars s)).

(** [s.lower()] *)
Definition lower (s : string) : string := text (map lower_char (chars s)).

(** [len(s)] *)
Definition len (s : string) : nat := String.length s.

(** [s.startswith(p)] *)
Definition startswith (s p : string) : bool := String.prefix p s.

(** [v.strip()] and [v.lower()] on a dynamic value. *)
Definition v_strip (v : value) : result string :=
  match v with
  | VStr s => Ok (strip s)
  | _ => Raise (no_attribute v "strip")
  end.

(** ** Integers and their decimal text *)

(** [str(n)] for an [int]. *)
Definition str_int (z : Z) : string := NilZero.string_of_int (Z.to_int z).

Definition digit_value (c : ascii) : Z := Z.of_nat (code c) - 48.

Definition is_underscore (c : ascii) : bool := Nat.eqb (code c) 95.

(** Digits of a base-10 literal: single underscores may separate digits.
    [prev] tells whether the previous character was a digit. *)
Fixpoint parse_digits (acc : Z) (prev : bool) (s : list ascii) : option Z :=
  match s with
  | [] => if prev then Some acc else None
  | c :: rest =>
      if is_digit c then parse_digits (10 * acc + digit_value c) true rest
      else if (is_underscore c && prev)%bool then parse_digits acc false rest
      else None
  end.

Definition parse_signed (s : list ascii) : option Z :=
  match s with
  | c :: rest =>
      if Nat.eqb (code c) 45 then option_map Z.opp (parse_digits 0 false rest)
      else if Nat.eqb (code c) 43 then parse_digits 0 false rest
      else parse_digits 0 false s
  | [] => None
  end.

Definition quote (s : string) : string := "'" ++ s ++ "'".

(** [int(s)] for a [str], base 10.  The message quotes the argument as it
    is; Python writes its [repr]. *)
Definition int_of_str (s : string) : result Z :=
  match parse_signed (strip_by is_int_space (chars s)) with
  | Some z => Ok z
  | None =>
      Raise (mk_exn ValueError
               ("invalid literal for int() with base 10: " ++ quote s))
  end.

(** ** Floats: IEEE binary64 *)

Definition prec : Z := 53.
Definition emax : Z := 1024.

Definition float_of_Z (z : Z) : spec_float :=
  binary_normalize prec emax z 0 false.

Definition is_infinite (f : spec_float) : bool :=
  match f with S754_infinity _ => true | _ => false end.

Definition fmul (x y : spec_float) : spec_float := SFmul prec emax x y.

(** [float(Decimal)]: the binary64 value nearest to [m * 10^e]. *)
Definition float_of_decimal (m e : Z) : spec_float :=
  if 0 <=? e then float_of_Z (m * 10 ^ e)
  else
    match m with
    | Z0 => S754_zero false
    | Zpos p =>
        SFdiv prec emax (S754_finite false p 0)
              (S754_finite false (Z.to_pos (10 ^ (- e))) 0)
    | Zneg p =>
        SFdiv prec emax (S754_finite true p 0)
              (S754_finite false (Z.to_pos (10 ^ (- e))) 0)
    end.

(** [int(f)] for a float: truncation towards zero. *)
Definition int_of_float (f : spec_float) : result Z :=
  match f with
  | S754_zero _ => Ok 0
  | S754_finite s m e =>
      let a := if 0 <=? e then Zpos m * 2 ^ e else Zpos m / 2 ^ (- e) in
      Ok (if s then - a else a)
  | S754_infinity _ =>
      Raise (mk_exn OverflowError "cannot convert float infinity to integer")
  | S754_nan =>
      Raise (mk_exn ValueError "cannot convert float NaN to integer")
  end.

(** [x < 1] and [x * 5.00] where [x] came out of a JSON body. *)
Definition one : spec_float := float_of_Z 1.
Definition five : spec_float := float_of_Z 5.
Definition hundred : spec_float := float_of_Z 100.

Definition overflow_int_to_float : exn :=
  mk_exn OverflowError "int too large to convert to float".

(** Conversion of an [int] operand in mixed arithmetic. *)
Definition float_of_int (z : Z) : result spec_float :=
  let f := float_of_Z z in
  if is_infinite f then Raise overflow_int_to_float else Ok f.

(** Library routines whose result is used but whose algorithm is not part
    of the repository: the parser behind [float(str)], the text [str()]
    gives for floats, decimals and containers, [urllib.parse.urlparse]
    (scheme and network location, or the [ValueError] it raises),
    [werkzeug.security.check_password_hash], and the [datetime] arithmetic
    and formatting used for the expiry of a reset token. *)
Class Library := {
  float_of_str : string -> option spec_float;
  str_other : value -> string;
  urlparse : string -> result (string * string);
  check_password_hash : value -> value -> result bool;
  add_hours : string -> Z -> string;
  strftime_seconds : string -> string
}.

Section WithLibrary.

Context {L : Library}.

(** [float(v)] *)
Definition py_float (v : value) : result spec_float :=
  match v with
  | VBool b => Ok (float_of_Z (if b then 1 else 0))
  | VInt z => float_of_int z
  | VFloat f => Ok f
  | VDecimal m e => Ok (float_of_decimal m e)
  | VStr s =>
      match float_of_str s with
      | Some f => Ok f
      | None =>
          Raise (mk_exn ValueError
                   ("could not convert string to float: " ++ quote s))
      end
  | _ =>
      Raise (mk_exn TypeError
               ("float() argument must be a string or a real number, not "
                ++ quote (type_name v)))
  end.

(** [str(v)] *)
Definition py_str (v : value) : string :=
  match v with
  | VNone => "None"
  | VBool true => "True"
  | VBool false => "False"
  | VInt z => str_int z
  | VStr s => s
  | _ => str_other v
  end.

End WithLibrary.

(** [int(v)] *)
Definition py_int (v : value) : result Z :=
  match v with
  | VBool b => Ok (if b then 1 else 0)
  | VInt z => Ok z
  | VFloat f => int_of_float f
  | VStr s => int_of_str s
  | VDecimal m e => Ok (if 0 <=? e then m * 10 ^ e else Z.quot m (10 ^ (- e)))
  | _ =>
      Raise (mk_exn TypeError
               ("int() argument must be a string, a bytes-like object or a "
                ++ "real number, not " ++ quote (type_name v)))
  end.

(** [v.isoformat()] *)
Definition isoformat (v : value) : result value :=
  match v with
  | VDatetime iso => Ok (VStr iso)
  | _ => Raise (no_attribute v "isoformat")
  end.

End Py.

(* ===================================================================== *)
(** * Regular expressions *)
(* ===================================================================== *)

Module Re.

Import Py.

(** The patterns of the repository use character classes, concatenation,
    [+] and the anchors [^] and [$]. *)
Inductive regex :=
| Void
| Eps
| Class (p : ascii -> bool)
| Cat (r1 r2 : regex)
| Alt (r1 r2 : regex)
| Star (r : regex).

Definition Plus (r : regex) : regex := Cat r (Star r).

Fixpoint nullable (r : regex) : bool :=
  match r with
  | Void => false
  | Eps => true
  | Class _ => false
  | Cat r1 r2 => nullable r1 && nullable r2
  | Alt r1 r2 => nullable r1 || nullable r2
  | Star _ => true
  end.

Fixpoint deriv (c : ascii) (r : regex) : regex :=
  match r with
  | Void => Void
  | Eps => Void
  | Class p => if p c then Eps else Void
  | Cat r1 r2 =>
      if nullable r1 then Alt (Cat (deriv c r1) r2) (deriv c r2)
      else Cat (deriv c r1) r2
  | Alt r1 r2 => Alt (deriv c r1) (deriv c r2)
  | Star r1 => Cat (deriv c r1) (Star r1)
  end.

(** The whole of [s] is a word of [r]. *)
Fixpoint fullmatch_chars (r : regex) (s : list ascii) : bool :=
  match s with
  | [] => nullable r
  | c :: rest => fullmatch_chars (deriv c r) rest
  end.

Definition any_char : regex := Class (fun _ => true).
Definition newline : regex := Class (fun c => Nat.eqb (code c) 10).

(** [re.match('^' r '$', s) is not None]: [$] also matches just before a
    newline that ends the string. *)
Definition match_anchored (r : regex) (s : string) : bool :=
  fullmatch_chars (Cat r (Alt Eps newline)) (chars s).

(** [re.search(r, s)]: some substring of [s] is a word of [r]. *)
Definition search (r : regex) (s : string) : bool :=
  fullmatch_chars (Cat (Star any_char) (Cat r (Star any_char))) (chars s).

(** The words of a regular expression. *)
Inductive word : regex -> list ascii -> Prop :=
| w_eps : word Eps []
| w_class p c : p c = true -> word (Class p) [c]
| w_cat r1 r2 s1 s2 : word r1 s1 -> word r2 s2 -> word (Cat r1 r2) (s1 ++ s2)
| w_alt_l r1 r2 s : word r1 s -> word (Alt r1 r2) s
| w_alt_r r1 r2 s : word r2 s -> word (Alt r1 r2) s
| w_star_nil r : word (Star r) []
| w_star_cons r s1 s2 :
    word r s1 -> word (Star r) s2 -> word (Star r) (s1 ++ s2).

End Re.

(* ===================================================================== *)
(** * External collaborators and the handler monad *)
(* ===================================================================== *)

Module Eff.

Import Py.

Definition params := list (string * value).

(** The calls that leave the process, as they are made. *)
Inductive call :=
| Execute (query : string) (ps : params)
| Commit
| Rollback
| Close
| GeneratePasswordHash (password : value)
| SecretsChoice (alphabet : string)
| Now
| CustomerCreate (email : value) (metadata : list (string * string))
| CustomerList (email : value) (limit : Z)
| PriceCreate (unit_amount : Z) (currency interval name description : string)
| SessionCreate (customer : string) (line_items : list (string * Z))
                (success_url cancel_url : string)
                (metadata : list (string * string)).

Definition trace := list call.

(** What the collaborators answer.  Every answer may depend on the calls
    made so far, so a database that changes between two calls is covered. *)
Class World := {
  on_execute : trace -> string -> params -> result (list row);
  on_commit : trace -> result unit;
  on_rollback : trace -> result unit;
  on_close : trace -> result unit;
  on_generate_password_hash : trace -> value -> result string;
  on_secrets_choice : trace -> string -> ascii;
  on_now : trace -> string;
  on_customer_create :
    trace -> value -> list (string * string) -> result string;
  on_customer_list : trace -> value -> Z -> result (list string);
  on_price_create :
    trace -> Z -> string -> string -> string -> string -> result string;
  on_session_create :
    trace -> string -> list (string * Z) -> string -> string ->
    list (string * string) -> result (string * string)
}.

(** A computation reads the trace of earlier calls, extends it, and either
    returns or raises. *)
Definition M (A : Type) : Type := trace -> result A * trace.

Definition ret {A} (a : A) : M A := fun t => (Ok a, t).

Definition raise {A} (e : exn) : M A := fun t => (Raise e, t).

Definition lift {A} (r : result A) : M A := fun t => (r, t).

Definition bind {A B} (m : M A) (k : A -> M B) : M B :=
  fun t =>
    match m t with
    | (Ok a, t') => k a t'
    | (Raise e, t') => (Raise e, t')
    end.

(** [try: m  except Exception as e: h e] *)
Definition try_except {A} (m : M A) (h : exn -> M A) : M A :=
  fun t =>
    match m t with
    | (Ok a, t') => (Ok a, t')
    | (Raise e, t') => h e t'
    end.

(** [try: m  except <classes> as e: h e], for the classes [sel] accepts. *)
Definition try_except_only {A} (sel : exn -> bool) (m : M A) (h : exn -> M A)
  : M A :=
  try_except m (fun e => if sel e then h e else raise e).

(** [try: m  finally: f] *)
Definition try_finally {A} (m : M A) (f : M unit) : M A :=
  fun t =>
    match m t with
    | (r, t') =>
        match f t' with
        | (Ok _, t'') => (r, t'')
        | (Raise e, t'') => (Raise e, t'')
        end
    end.

Declare Scope monad_scope.
Delimit Scope monad_scope with monad.
Notation "x <- m ;; k" := (bind m (fun x => k))
  (at level 61, m at next level, right associativity) : monad_scope.
Notation "m ;; k" := (bind m (fun _ => k))
  (at level 61, right associativity) : monad_scope.

(** The trace after one more call. *)
Definition record (t : trace) (c : call) : trace := (t ++ [c])%list.

Definition run {A} (m : M A) (t : trace) : result A := fst (m t).
Definition calls {A} (m : M A) (t : trace) : trace := snd (m t).

Section WithWorld.

Context {W : World}.

Definition session_execute (query : string) (ps : params) : M (list row) :=
  fun t => (on_execute t query ps, record t (Execute query ps)).

Definition session_commit : M unit :=
  fun t => (on_commit t, record t Commit).

Definition session_rollback : M unit :=
  fun t => (on_rollback t, record t Rollback).

Definition session_close : M unit :=
  fun t => (on_close t, record t Close).

Definition generate_password_hash (password : value) : M string :=
  fun t => (on_generate_password_hash t password,
            record t (GeneratePasswordHash password)).

Definition secrets_choice (alphabet : string) : M ascii :=
  fun t => (Ok (on_secrets_choice t alphabet),
            record t (SecretsChoice alphabet)).

Definition datetime_now : M string :=
  fun t => (Ok (on_now t), record t Now).

Definition customer_create (email : value) (md : list (string * string))
  : M string :=
  fun t => (on_customer_create t email md,
            record t (CustomerCreate email md)).

Definition customer_list (email : value) (limit : Z) : M (list string) :=
  fun t => (on_customer_list t email limit,
            record t (CustomerList email limit)).

Definition price_create (unit_amount : Z)
  (currency interval name description : string) : M string :=
  fun t => (on_price_create t unit_amount currency interval name description,
            record t (PriceCreate unit_amount currency interval name
                                  description)).

Definition session_create (customer : string) (items : list (string * Z))
  (success_url cancel_url : string) (md : list (string * string))
  : M (string * string) :=
  fun t => (on_session_create t customer items success_url cancel_url md,
            record t (SessionCreate customer items success_url cancel_url md)).

End WithWorld.

End Eff.

(* ===================================================================== *)
(** * app/utils/db.py *)
(* ===================================================================== *)

Module Db.

Import Py Eff.
Open Scope monad_scope.

(** [', '.join(parts)] *)
Fixpoint join (sep : string) (parts : list string) : string :=
  match parts with
  | [] => ""
  | [p] => p
  | p :: rest => p ++ sep ++ join sep rest
  end.

(** The text of the statement handed to the session. *)
Definition query_text (proc_name : string) (ps : params) : string :=
  match ps with
  | [] => "CALL " ++ proc_name ++ "()"
  | _ => "CALL " ++ proc_name ++ "("
         ++ join ", " (map (fun kv => ":" ++ fst kv) ps) ++ ")"
  end.

Section WithWorld.

Context {W : World}.

(** [Database.call_procedure] *)
Definition call_procedure (proc_name : string) (ps : params) : M (list row) :=
  try_finally
    (try_except
       (result <- session_execute (query_text proc_name ps) ps ;;
        session_commit ;;
        ret result)
       (fun e => session_rollback ;; raise e))
    session_close.

End WithWorld.

End Db.

(* ===================================================================== *)
(** * Requests, responses, bearer tokens *)
(* ===================================================================== *)

Module Http.

Import Py Eff.
Open Scope monad_scope.

(** What the [Authorization] header of a request amounts to. *)
Inductive credentials :=
| NoToken
| Malformed
| Expired
| Presented (refresh : bool) (identity : value)
            (claims : list (string * value)).

(** The credentials a client holds after it was handed [v] as a token. *)
Definition present (v : value) : credentials :=
  match v with
  | VToken r i c => Presented r i c
  | _ => Malformed
  end.

Record request := mk_request {
  method : string;
  get_json : result value;      (* request.get_json() *)
  auth : credentials;
  host_url : string
}.

Record response := mk_response {
  status : Z;
  body : value;                 (* the argument of jsonify *)
  headers : list (string * string)
}.

(** [create_access_token], [create_refresh_token] *)
Definition create_access_token (identity : string)
  (additional_claims : list (string * value)) : value :=
  VToken false (VStr identity) additional_claims.

Definition create_refresh_token (identity : string) : value :=
  VToken true (VStr identity) [].

(** The loaders registered in [create_app]. *)
Definition expired_token_callback : response :=
  mk_response 401 (VDict [("error", VStr "Token has expired")]) [].

Definition invalid_token_callback : response :=
  mk_response 401 (VDict [("error", VStr "Invalid token")]) [].

Definition missing_token_callback : response :=
  mk_response 401
    (VDict [("error", VStr "Authorization token is required")]) [].

(** [@jwt_required(refresh=...)]: [OPTIONS] requests pass unchecked, and
    the view then finds no identity and no claims; otherwise the view
    receives the identity and the claims of the token. *)
Definition jwt_required (refresh : bool)
  (view : request -> value -> list (string * value) -> M response)
  (req : request) : M response :=
  if String.eqb (method req) "OPTIONS" then view req VNone []
  else
    match auth req with
    | NoToken => ret missing_token_callback
    | Malformed => ret invalid_token_callback
    | Expired => ret expired_token_callback
    | Presented r i c =>
        if Bool.eqb r refresh then view req i c
        else ret invalid_token_callback
    end.

Definition error_body (message : string) : value :=
  VDict [("error", VStr message)].

End Http.

(* ===================================================================== *)
(** * app/routes/auth/route.py *)
(* ===================================================================== *)

Module Auth.

Import Py Re Eff Db Http.
Open Scope monad_scope.

Definition handle_preflight : response :=
  mk_response 200 (VDict [("message", VStr "OK")])
    [("Access-Control-Allow-Origin", "*");
     ("Access-Control-Allow-Headers", "Content-Type,Authorization");
     ("Access-Control-Allow-Methods", "GET,POST,OPTIONS")].

(** [add_cors_headers(jsonify(body)), code] *)
Definition reply (code : Z) (b : value) : response :=
  mk_response code b [("Access-Control-Allow-Origin", "*")].

(** The class [[^\s@]]. *)
Definition not_space_or_at (c : ascii) : bool :=
  negb (is_space c || Nat.eqb (code c) 64).

(** [r'^[^\s@]+@[^\s@]+\.[^\s@]+$'] without its anchors. *)
Definition email_pattern : regex :=
  Cat (Plus (Class not_space_or_at))
    (Cat (Class (fun c => Nat.eqb (code c) 64))
       (Cat (Plus (Class not_space_or_at))
          (Cat (Class (fun c => Nat.eqb (code c) 46))
             (Plus (Class not_space_or_at))))).

Definition validate_email (email : string) : bool :=
  match_anchored email_pattern email.

(** [len(v)] *)
Definition py_len (v : value) : result nat :=
  match v with
  | VStr s => Ok (len s)
  | VList l => Ok (List.length l)
  | VDict d => Ok (List.length d)
  | _ => Raise (mk_exn TypeError
                  ("object of type " ++ quote (type_name v)
                   ++ " has no len()"))
  end.

(** [re.search(pattern, v)] on a dynamic value. *)
Definition v_search (r : regex) (v : value) : result bool :=
  match v with
  | VStr s => Ok (search r s)
  | _ => Raise (mk_exn TypeError
                  ("expected string or bytes-like object, got "
                   ++ quote (type_name v)))
  end.

Definition validate_password (password : value) : result (bool * string) :=
  rbind (py_len password) (fun n =>
  if Nat.ltb n 8 then
    Ok (false, "Password must be at least 8 characters long")
  else
    rbind (v_search (Class is_ascii_letter) password) (fun has_letter =>
    if negb has_letter then
      Ok (false, "Password must contain at least one letter")
    else
      rbind (v_search (Class is_digit) password) (fun has_digit =>
      if negb has_digit then
        Ok (false, "Password must contain at least one number")
      else Ok (true, "Password is valid")))).

Section WithWorld.

Context {L : Library} {W : World}.

(** [data.get(key, '').strip()] *)
Definition get_stripped (data : value) (key : string) : result string :=
  rbind (dict_get data key (VStr "")) v_strip.

(** The [try] block of [register]. *)
Definition register_body (req : request) : M response :=
  data <- lift (get_json req) ;;
  if negb (truthy data) then ret (reply 400 (error_body "No data provided"))
  else
    full_name <- lift (get_stripped data "fullName") ;;
    email0 <- lift (get_stripped data "email") ;;
    let email := lower email0 in
    password <- lift (dict_get data "password" (VStr "")) ;;
    newsletter <- lift (dict_get data "newsletter" (VBool false)) ;;
    if (String.eqb full_name "" || Nat.ltb (len full_name) 2)%bool then
      ret (reply 400 (error_body
             "Full name is required and must be at least 2 characters"))
    else if (String.eqb email "" || negb (validate_email email))%bool then
      ret (reply 400 (error_body "Valid email address is required"))
    else
      pv <- lift (validate_password password) ;;
      let '(password_valid, password_message) := pv in
      if negb password_valid then
        ret (reply 400 (error_body password_message))
      else
        password_hash <- generate_password_hash password ;;
        result <- call_procedure "create_user_account"
                    [("p_full_name", VStr full_name);
                     ("p_email", VStr email);
                     ("p_password_hash", VStr password_hash);
                     ("p_newsletter_opt_in", newsletter)] ;;
        match result with
        | [] => ret (reply 500 (error_body
                       "Registration failed - no response from database"))
        | row :: _ =>
            status <- lift (index row 0) ;;
            message <- lift (index row 1) ;;
            if negb (eq_str status "success") then
              ret (reply 400 (VDict [("error", message)]))
            else
              ret (reply 201
                     (VDict [("message", VStr "Account created successfully");
                             ("user", VDict [("email", VStr email);
                                             ("full_name", VStr full_name)])]))
        end.

Definition register (req : request) : M response :=
  if String.eqb (method req) "OPTIONS" then ret handle_preflight
  else
    try_except (register_body req)
      (fun e => ret (reply 500 (error_body
                       "Internal server error during registration"))).

(** The part of the [try] block of [login] that follows the call of
    [verify_user_login]. *)
Definition login_verdict (email : string) (password : value)
  (result : list row) : M response :=
  match result with
  | [] => ret (reply 401 (error_body "Invalid email or password"))
  | row :: _ =>
      status <- lift (index row 0) ;;
      message <- lift (index row 1) ;;
      if negb (eq_str status "success") then
        ret (reply 401 (error_body "Invalid email or password"))
      else
        user_id <- lift (index row 2) ;;
        stored_password_hash <- lift (index row 3) ;;
        full_name <- lift (index row 4) ;;
        email_verified <- lift (index row 5) ;;
        is_active <- lift (index row 6) ;;
        matches <- lift (check_password_hash stored_password_hash
                                             password) ;;
        if negb matches then
          ret (reply 401 (error_body "Invalid email or password"))
        else if negb (truthy is_active) then
          ret (reply 401 (error_body
                 "Account is deactivated. Please contact support."))
        else
          let user_id_str := py_str user_id in
          let additional_claims :=
            [("email", VStr email);
             ("full_name", full_name);
             ("email_verified", py_bool email_verified)] in
          let access_token :=
            create_access_token user_id_str additional_claims in
          let refresh_token := create_refresh_token user_id_str in
          call_procedure "update_user_last_login"
            [("p_user_id", user_id)] ;;
          ret (reply 200
                 (VDict [("message", VStr "Login successful");
                         ("access_token", access_token);
                         ("refresh_token", refresh_token);
                         ("user",
                          VDict [("id", user_id);
                                 ("email", VStr email);
                                 ("full_name", full_name);
                                 ("email_verified",
                                  py_bool email_verified)])]))
  end.

(** The [try] block of [login]. *)
Definition login_body (req : request) : M response :=
  data <- lift (get_json req) ;;
  if negb (truthy data) then ret (reply 400 (error_body "No data provided"))
  else
    email0 <- lift (get_stripped data "email") ;;
    let email := lower email0 in
    password <- lift (dict_get data "password" (VStr "")) ;;
    remember <- lift (dict_get data "remember" (VBool false)) ;;
    if (String.eqb email "" || negb (truthy password))%bool then
      ret (reply 400 (error_body "Email and password are required"))
    else
      result <- call_procedure "verify_user_login"
                  [("p_email", VStr email)] ;;
      login_verdict email password result.

Definition login (req : request) : M response :=
  if String.eqb (method req) "OPTIONS" then ret handle_preflight
  else
    try_except (login_body req)
      (fun e => ret (reply 500 (error_body
                       "Internal server error during login"))).

(** [int(current_user_id_str)] guarded by
    [except (ValueError, TypeError)]: the identity as a number, or [None]
    when the guard is taken. *)
Definition identity_as_int (identity : value) : M (option Z) :=
  try_except_only is_value_type
    (z <- lift (py_int identity) ;; ret (Some z))
    (fun _ => ret None).

(** The [try] block of [verify_token]. *)
Definition verify_token_body (identity : value) : M response :=
  if is_none identity then
    ret (reply 401 (error_body "Invalid token identity"))
  else
    parsed <- identity_as_int identity ;;
    match parsed with
    | None => ret (reply 401 (error_body "Invalid user ID format"))
    | Some current_user_id =>
        result <- call_procedure "get_user_by_id"
                    [("p_user_id", VInt current_user_id)] ;;
        match result with
        | [] => ret (reply 404 (error_body "User not found"))
        | row :: _ =>
            status <- lift (index row 0) ;;
            if negb (eq_str status "success") then
              ret (reply 404 (error_body "User not found"))
            else
              email <- lift (index row 2) ;;
              full_name <- lift (index row 3) ;;
              email_verified <- lift (index row 4) ;;
              ret (reply 200
                     (VDict [("valid", VBool true);
                             ("user",
                              VDict [("id", VInt current_user_id);
                                     ("email", email);
                                     ("full_name", full_name);
                                     ("email_verified",
                                      py_bool email_verified);
                                     ("name", full_name)])]))
        end
    end.

Definition verify_token_view (req : request) (identity : value)
  (claims : list (string * value)) : M response :=
  if String.eqb (method req) "OPTIONS" then ret handle_preflight
  else
    try_except (verify_token_body identity)
      (fun e => ret (reply 500 (error_body "Token verification failed"))).

Definition verify_token : request -> M response :=
  jwt_required false verify_token_view.

(** The [try] block of [refresh].  The new access token keeps the identity
    of the refresh token as it is; its claims come from the row. *)
Definition refresh_body (identity : value) : M response :=
  parsed <- identity_as_int identity ;;
  match parsed with
  | None => ret (reply 401 (error_body "Invalid user ID"))
  | Some current_user_id =>
      result <- call_procedure "get_user_by_id"
                  [("p_user_id", VInt current_user_id)] ;;
      match result with
      | [] => ret (reply 404 (error_body "User not found"))
      | row :: _ =>
          status <- lift (index row 0) ;;
          if negb (eq_str status "success") then
            ret (reply 404 (error_body "User not found"))
          else
            email <- lift (index row 2) ;;
            full_name <- lift (index row 3) ;;
            email_verified <- lift (index row 4) ;;
            let additional_claims :=
              [("email", email);
               ("full_name", full_name);
               ("email_verified", py_bool email_verified)] in
            let new_access_token :=
              VToken false identity additional_claims in
            ret (reply 200 (VDict [("access_token", new_access_token)]))
      end
  end.

Definition refresh_view (req : request) (identity : value)
  (claims : list (string * value)) : M response :=
  if String.eqb (method req) "OPTIONS" then ret handle_preflight
  else
    try_except (refresh_body identity)
      (fun e => ret (reply 500 (error_body "Token refresh failed"))).

Definition refresh : request -> M response :=
  jwt_required true refresh_view.

(** The name and the address [logout] reads for its log line: those of
    the row when it reports success, ["Unknown"] otherwise. *)
Definition logged_user (rows : list row) : result (value * value) :=
  match rows with
  | [] => Ok (VStr "Unknown", VStr "Unknown")
  | row :: _ =>
      rbind (index row 0) (fun status =>
      if eq_str status "success" then
        rbind (index row 2) (fun user_email =>
        rbind (index row 3) (fun user_name =>
        Ok (user_email, user_name)))
      else Ok (VStr "Unknown", VStr "Unknown"))
  end.

(** The [try] block of [logout]. *)
Definition logout_body (identity : value) : M response :=
  current_user_id <- lift (py_int identity) ;;
  result <- call_procedure "get_user_by_id"
              [("p_user_id", VInt current_user_id)] ;;
  user <- lift (logged_user result) ;;
  call_procedure "update_user_activity"
    [("p_user_id", VInt current_user_id);
     ("p_activity_type", VStr "logout")] ;;
  ret (reply 200 (VDict [("message", VStr "Logout successful")])).

Definition logout_view (req : request) (identity : value)
  (claims : list (string * value)) : M response :=
  if String.eqb (method req) "OPTIONS" then ret handle_preflight
  else
    try_except (logout_body identity)
      (fun e => ret (reply 500 (error_body "Logout failed"))).

Definition logout : request -> M response :=
  jwt_required false logout_view.

(** [[f'Index {i}: {row[i]}' for i in range(len(row))]] *)
Definition structure_of (r : row) : list value :=
  map (fun iv => VStr ("Index " ++ str_int (Z.of_nat (fst iv)) ++ ": "
                       ++ py_str (snd iv)))
      (combine (seq 0 (List.length r)) r).

(** [debug_procedures]: the route carries no [jwt_required], and both of
    its answers go out with the default status. *)
Definition debug_procedures_body : M response :=
  result <- call_procedure "get_user_by_id" [("p_user_id", VInt 4)] ;;
  let serializable_result := map VList result in
  ret (mk_response 200
         (VDict [("get_user_by_id_result", VList serializable_result);
                 ("structure",
                  VList (match result with
                         | [] => []
                         | first :: _ => structure_of first
                         end))])
         []).

Definition debug_procedures (req : request) : M response :=
  try_except debug_procedures_body
    (fun e => ret (mk_response 200
                     (VDict [("error", VStr (str_exn e));
                             ("traceback", VStr (format_exc e))])
                     [])).

End WithWorld.

End Auth.

(* ===================================================================== *)
(** * app/routes/password/route.py *)
(* ===================================================================== *)

Module Password.

Import Py Re Eff Db Http.
Open Scope monad_scope.

Definition handle_preflight : response :=
  mk_response 200 (VDict [("message", VStr "OK")])
    [("Access-Control-Allow-Origin", "*");
     ("Access-Control-Allow-Headers", "Content-Type,Authorization");
     ("Access-Control-Allow-Methods", "GET,POST,OPTIONS")].

Definition reply (code : Z) (b : value) : response :=
  mk_response code b [("Access-Control-Allow-Origin", "*")].

Definition not_space_or_at (c : ascii) : bool :=
  negb (is_space c || Nat.eqb (code c) 64).

Definition email_pattern : regex :=
  Cat (Plus (Class not_space_or_at))
    (Cat (Class (fun c => Nat.eqb (code c) 64))
       (Cat (Plus (Class not_space_or_at))
          (Cat (Class (fun c => Nat.eqb (code c) 46))
             (Plus (Class not_space_or_at))))).

Definition validate_email (email : string) : bool :=
  match_anchored email_pattern email.

(** [string.ascii_letters + string.digits] *)
Definition alphabet : string :=
  "abcdefghijklmnopqrstuvwxyzABCDEFGHIJKLMNOPQRSTUVWXYZ0123456789".

(** [send_password_reset_email]: the message is only printed, and the
    function reports success. *)
Definition send_password_reset_email (email reset_token : string)
  (user_name : value) : bool := true.

(** The message every accepted request is answered with. *)
Definition generic_body (email : string) : value :=
  VDict [("message",
          VStr ("If an account with that email exists, "
                ++ "we have sent a password reset link."));
         ("email", VStr email)].

Section WithWorld.

Context {L : Library} {W : World}.

(** [''.join(secrets.choice(alphabet) for _ in range(length))] *)
Fixpoint generate_secure_token (length : nat) : M string :=
  match length with
  | O => ret ""
  | S n =>
      c <- secrets_choice alphabet ;;
      rest <- generate_secure_token n ;;
      ret (String c rest)
  end.

(** [not result or len(result) == 0 or result[0][0] != 'success'] *)
Definition not_success (rows : list row) : result bool :=
  match rows with
  | [] => Ok true
  | row :: _ => rbind (index row 0) (fun s => Ok (negb (eq_str s "success")))
  end.

(** [result[0][i]] *)
Definition first_row_at (rows : list row) (i : nat) : result value :=
  match rows with
  | [] => Raise (mk_exn IndexError "list index out of range")
  | row :: _ => index row i
  end.

(** The part of the [try] block of [forgot_password] that follows the
    call of [get_user_by_email]. *)
Definition forgot_password_verdict (email : string) (result : list row)
  : M response :=
  absent <- lift (not_success result) ;;
  if absent then ret (reply 200 (generic_body email))
  else
    user_id <- lift (first_row_at result 2) ;;
    full_name <- lift (first_row_at result 3) ;;
    is_active <- lift (first_row_at result 4) ;;
    if negb (truthy is_active) then ret (reply 200 (generic_body email))
    else
      reset_token <- generate_secure_token 64 ;;
      now <- datetime_now ;;
      let expires_at := add_hours now 24 in
      token_result <- call_procedure "create_password_reset_token"
                        [("p_user_id", user_id);
                         ("p_token", VStr reset_token);
                         ("p_expires_at",
                          VStr (strftime_seconds expires_at))] ;;
      failed <- lift (not_success token_result) ;;
      if failed then
        ret (reply 500 (error_body "Failed to generate reset token"))
      else
        let email_sent :=
          send_password_reset_email email reset_token full_name in
        ret (reply 200 (generic_body email)).

(** The [try] block of [forgot_password]. *)
Definition forgot_password_body (req : request) : M response :=
  data <- lift (get_json req) ;;
  if negb (truthy data) then ret (reply 400 (error_body "No data provided"))
  else
    email0 <- lift (rbind (dict_get data "email" (VStr "")) v_strip) ;;
    let email := lower email0 in
    if (String.eqb email "" || negb (validate_email email))%bool then
      ret (reply 400 (error_body "Valid email address is required"))
    else
      result <- call_procedure "get_user_by_email"
                  [("p_email", VStr email)] ;;
      forgot_password_verdict email result.

Definition forgot_password (req : request) : M response :=
  if String.eqb (method req) "OPTIONS" then ret handle_preflight
  else
    try_except (forgot_password_body req)
      (fun e => ret (reply 500 (error_body "Internal server error"))).

(** [validate_password], as this module defines it. *)
Definition validate_password (password : value) : result (bool * string) :=
  rbind (Auth.py_len password) (fun n =>
  if Nat.ltb n 8 then
    Ok (false, "Password must be at least 8 characters long")
  else
    rbind (Auth.v_search (Class is_ascii_letter) password) (fun has_letter =>
    if negb has_letter then
      Ok (false, "Password must contain at least one letter")
    else
      rbind (Auth.v_search (Class is_digit) password) (fun has_digit =>
      if negb has_digit then
        Ok (false, "Password must contain at least one number")
      else Ok (true, "Password is valid")))).

(** [send_actual_email]: everything but the last line is commented out. *)
Definition send_actual_email (email reset_token : string)
  (user_name : value) : bool := false.

(** The [try] block of [verify_reset_token]. *)
Definition verify_reset_token_body (req : request) : M response :=
  data <- lift (get_json req) ;;
  if negb (truthy data) then ret (reply 400 (error_body "No data provided"))
  else
    token <- lift (rbind (dict_get data "token" (VStr "")) v_strip) ;;
    if String.eqb token "" then
      ret (reply 400 (error_body "Reset token is required"))
    else
      result <- call_procedure "verify_password_reset_token"
                  [("p_token", VStr token)] ;;
      match result with
      | [] => ret (reply 400 (error_body "Invalid or expired reset token"))
      | row :: _ =>
          status <- lift (index row 0) ;;
          message <- lift (index row 1) ;;
          if negb (eq_str status "success") then
            ret (reply 400 (VDict [("error", message)]))
          else
            user_id <- lift (index row 2) ;;
            user_email <- lift (index row 3) ;;
            user_name <- lift (index row 4) ;;
            ret (reply 200
                   (VDict [("message", VStr "Token is valid");
                           ("user",
                            VDict [("id", user_id);
                                   ("email", user_email);
                                   ("name", user_name)])]))
      end.

Definition verify_reset_token (req : request) : M response :=
  if String.eqb (method req) "OPTIONS" then ret handle_preflight
  else
    try_except (verify_reset_token_body req)
      (fun e => ret (reply 500 (error_body "Internal server error"))).

(** The part of the [try] block of [reset_password] that follows the
    second verification of the token. *)
Definition reset_password_verdict (token : string) (new_password : value)
  (verify_result : list row) : M response :=
  invalid <- lift (not_success verify_result) ;;
  if invalid then
    ret (reply 400 (error_body "Invalid or expired reset token"))
  else
    user_id <- lift (first_row_at verify_result 2) ;;
    password_hash <- generate_password_hash new_password ;;
    reset_result <- call_procedure "reset_user_password"
                      [("p_token", VStr token);
                       ("p_user_id", user_id);
                       ("p_new_password_hash", VStr password_hash)] ;;
    match reset_result with
    | [] => ret (reply 500 (error_body "Failed to reset password"))
    | row :: _ =>
        status <- lift (index row 0) ;;
        message <- lift (index row 1) ;;
        if negb (eq_str status "success") then
          ret (reply 400 (VDict [("error", message)]))
        else
          ret (reply 200
                 (VDict [("message", VStr "Password reset successfully")]))
    end.

(** The [try] block of [reset_password]. *)
Definition reset_password_body (req : request) : M response :=
  data <- lift (get_json req) ;;
  if negb (truthy data) then ret (reply 400 (error_body "No data provided"))
  else
    token <- lift (rbind (dict_get data "token" (VStr "")) v_strip) ;;
    new_password <- lift (dict_get data "password" (VStr "")) ;;
    if String.eqb token "" then
      ret (reply 400 (error_body "Reset token is required"))
    else
      pv <- lift (validate_password new_password) ;;
      let '(password_valid, password_message) := pv in
      if negb password_valid then
        ret (reply 400 (error_body password_message))
      else
        verify_result <- call_procedure "verify_password_reset_token"
                           [("p_token", VStr token)] ;;
        reset_password_verdict token new_password verify_result.

Definition reset_password (req : request) : M response :=
  if String.eqb (method req) "OPTIONS" then ret handle_preflight
  else
    try_except (reset_password_body req)
      (fun e => ret (reply 500 (error_body "Internal server error"))).

(** [resend_reset_email] *)
Definition resend_reset_email (req : request) : M response :=
  if String.eqb (method req) "OPTIONS" then ret handle_preflight
  else forgot_password req.

End WithWorld.

End Password.

(* ===================================================================== *)
(** * app/routes/dashboard/route.py *)
(* ===================================================================== *)

Module Dashboard.

Import Py Eff Db Http.
Open Scope monad_scope.
Open Scope result_scope.

Definition cors_headers : list (string * string) :=
  [("Access-Control-Allow-Origin", "*");
   ("Access-Control-Allow-Methods", "GET,POST,PUT,DELETE,OPTIONS");
   ("Access-Control-Allow-Headers", "Content-Type,Authorization")].

(** [add_cors_headers(jsonify(body)), code] *)
Definition reply (code : Z) (b : value) : response :=
  mk_response code b cors_headers.

Definition handle_preflight : response :=
  mk_response 200 (VDict [("message", VStr "OK")])
    [("Access-Control-Allow-Origin", "*");
     ("Access-Control-Allow-Headers", "Content-Type,Authorization");
     ("Access-Control-Allow-Methods", "GET,POST,PUT,DELETE,OPTIONS")].

(** ** Strings *)

Fixpoint is_prefix (p s : list ascii) : bool :=
  match p, s with
  | [], _ => true
  | a :: p', b :: s' => (Ascii.eqb a b && is_prefix p' s')%bool
  | _ :: _, [] => false
  end.

(** [sub in s] *)
Fixpoint contains_chars (sub s : list ascii) : bool :=
  (is_prefix sub s
   || match s with
      | [] => false
      | _ :: rest => contains_chars sub rest
      end)%bool.

Definition contains (sub s : string) : bool :=
  contains_chars (chars sub) (chars s).

(** [s.replace(old, new)] for a non-empty [old]: occurrences are taken
    from the left and do not overlap; [skip] characters of the occurrence
    found last are still to be passed over. *)
Fixpoint replace_chars (old new : list ascii) (skip : nat) (s : list ascii)
  : list ascii :=
  match s with
  | [] => []
  | c :: rest =>
      match skip with
      | S k => replace_chars old new k rest
      | O =>
          if is_prefix old s
          then (new ++ replace_chars old new (List.length old - 1) rest)%list
          else c :: replace_chars old new O rest
      end
  end.

Definition replace (s old new : string) : string :=
  text (replace_chars (chars old) (chars new) O (chars s)).

(** ** Row decoding *)

(** [float(v) if v else None] *)
Definition float_or_none `{Library} (v : value) : result value :=
  if truthy v then f <~ py_float v ;; Ok (VFloat f) else Ok VNone.

(** [v.isoformat() if v else None] *)
Definition iso_or_none (v : value) : result value :=
  if truthy v then isoformat v else Ok VNone.

(** [v if v else default] *)
Definition or_default (v default : value) : value :=
  if truthy v then v else default.

(** [row[i] if len(row) > i else default] *)
Definition at_if_longer (r : row) (i : nat) (default : value)
  : result value :=
  if Nat.ltb i (List.length r) then index r i else Ok default.

(** [row[i] if len(row) > i and row[i] else default] *)
Definition at_if_longer_and_set (r : row) (i : nat) (default : value)
  : result value :=
  if Nat.ltb i (List.length r) then
    v <~ index r i ;; if truthy v then index r i else Ok default
  else Ok default.

(** [row[i].isoformat() if len(row) > i and row[i] else None] *)
Definition iso_if_longer_and_set (r : row) (i : nat) : result value :=
  if Nat.ltb i (List.length r) then
    v <~ index r i ;;
    if truthy v then w <~ index r i ;; isoformat w else Ok VNone
  else Ok VNone.

Section Decoders.

Context {L : Library}.

(** The product built when [row[0] == 'success' and len(row) > 15]. *)
Definition product_enhanced (r : row) : result value :=
  id <~ index r 2 ;;
  url <~ index r 3 ;;
  title <~ index r 4 ;;
  store <~ index r 5 ;;
  current_price <~ (v <~ index r 6 ;; float_or_none v) ;;
  min_price_alert <~ (v <~ index r 7 ;; float_or_none v) ;;
  max_price_alert <~ (v <~ index r 8 ;; float_or_none v) ;;
  discord_webhook_url <~ (v <~ index r 9 ;; Ok (or_default v (VStr ""))) ;;
  alerts_sent <~ (v <~ index r 10 ;; Ok (or_default v (VInt 0))) ;;
  status <~ index r 11 ;;
  last_checked_at <~ (v <~ index r 12 ;; iso_or_none v) ;;
  last_price_change <~ (v <~ index r 13 ;; iso_or_none v) ;;
  sms_notifications_enabled <~
    (v <~ index r 14 ;;
     Ok (if negb (is_none v) then py_bool v else VBool false)) ;;
  created_at <~ (v <~ index r 15 ;; iso_or_none v) ;;
  updated_at <~ (v <~ index r 16 ;; iso_or_none v) ;;
  price_history_count <~ at_if_longer r 17 (VInt 0) ;;
  Ok (VDict [("id", id); ("url", url); ("title", title); ("store", store);
             ("current_price", current_price);
             ("min_price_alert", min_price_alert);
             ("max_price_alert", max_price_alert);
             ("discord_webhook_url", discord_webhook_url);
             ("alerts_sent", alerts_sent);
             ("status", status);
             ("last_checked_at", last_checked_at);
             ("last_price_change", last_price_change);
             ("sms_notifications_enabled", sms_notifications_enabled);
             ("created_at", created_at);
             ("updated_at", updated_at);
             ("price_history_count", price_history_count)]).

(** The product built in the [else] branch of the enhanced format. *)
Definition product_alternate (r : row) : result value :=
  id <~ index r 0 ;;
  url <~ index r 1 ;;
  title <~ index r 2 ;;
  store <~ index r 3 ;;
  current_price <~ (v <~ index r 4 ;; float_or_none v) ;;
  min_price_alert <~ (v <~ index r 5 ;; float_or_none v) ;;
  max_price_alert <~ (v <~ index r 6 ;; float_or_none v) ;;
  discord_webhook_url <~ at_if_longer_and_set r 7 (VStr "") ;;
  status <~ at_if_longer r 8 (VStr "checking") ;;
  last_checked_at <~ iso_if_longer_and_set r 9 ;;
  last_price_change <~ iso_if_longer_and_set r 10 ;;
  alerts_sent <~ at_if_longer_and_set r 11 (VInt 0) ;;
  created_at <~ iso_if_longer_and_set r 12 ;;
  updated_at <~ iso_if_longer_and_set r 13 ;;
  price_history_count <~ at_if_longer r 14 (VInt 0) ;;
  Ok (VDict [("id", id); ("url", url); ("title", title); ("store", store);
             ("current_price", current_price);
             ("min_price_alert", min_price_alert);
             ("max_price_alert", max_price_alert);
             ("discord_webhook_url", discord_webhook_url);
             ("status", status);
             ("last_checked_at", last_checked_at);
             ("last_price_change", last_price_change);
             ("alerts_sent", alerts_sent);
             ("created_at", created_at);
             ("updated_at", updated_at);
             ("price_history_count", price_history_count)]).

(** The product built from the format of the old procedure. *)
Definition product_old (r : row) : result value :=
  id <~ index r 0 ;;
  url <~ index r 1 ;;
  title <~ index r 2 ;;
  store <~ index r 3 ;;
  current_price <~ (v <~ index r 4 ;; float_or_none v) ;;
  min_price_alert <~ (v <~ index r 5 ;; float_or_none v) ;;
  max_price_alert <~ (v <~ index r 6 ;; float_or_none v) ;;
  status <~ index r 7 ;;
  last_checked_at <~ (v <~ index r 8 ;; iso_or_none v) ;;
  last_price_change <~ (v <~ index r 9 ;; iso_or_none v) ;;
  alerts_sent <~ (v <~ index r 10 ;; Ok (or_default v (VInt 0))) ;;
  created_at <~ (v <~ index r 11 ;; iso_or_none v) ;;
  updated_at <~ (v <~ index r 12 ;; iso_or_none v) ;;
  price_history_count <~ at_if_longer r 13 (VInt 0) ;;
  Ok (VDict [("id", id); ("url", url); ("title", title); ("store", store);
             ("current_price", current_price);
             ("min_price_alert", min_price_alert);
             ("max_price_alert", max_price_alert);
             ("discord_webhook_url", VStr "");
             ("status", status);
             ("last_checked_at", last_checked_at);
             ("last_price_change", last_price_change);
             ("alerts_sent", alerts_sent);
             ("created_at", created_at);
             ("updated_at", updated_at);
             ("price_history_count", price_history_count)]).

(** [len(row) >= 2 and row[0] == 'success' and
     row[1] == 'Products retrieved successfully' and len(row) == 2] *)
Definition is_status_row (r : row) : bool :=
  (Nat.leb 2 (List.length r)
   && eq_str (nth 0 r VNone) "success"
   && eq_str (nth 1 r VNone) "Products retrieved successfully"
   && Nat.eqb (List.length r) 2)%bool.

(** One turn of the loop over the rows: the product to append, or nothing
    when the row is passed over.  An exception outside
    [(IndexError, TypeError, ValueError)] leaves the loop. *)
Definition decode_row (r : row) : result (option value) :=
  if is_status_row r then Ok None
  else if Nat.ltb 15 (List.length r) then
    rcatch is_index_type_value
      (first <~ index r 0 ;;
       product <~ (if (eq_str first "success"
                       && Nat.ltb 15 (List.length r))%bool
                   then product_enhanced r
                   else product_alternate r) ;;
       Ok (Some product))
      (Ok None)
  else if Nat.ltb 10 (List.length r) then
    rcatch is_index_type_value
      (product <~ product_old r ;; Ok (Some product))
      (Ok None)
  else Ok None.

Fixpoint parse_products (rows : list row) : result (list value) :=
  match rows with
  | [] => Ok []
  | r :: rest =>
      decoded <~ decode_row r ;;
      products <~ parse_products rest ;;
      Ok (match decoded with
          | Some product => product :: products
          | None => products
          end)
  end.

End Decoders.

(** ** Handlers *)

Section WithWorld.

Context {L : Library} {W : World}.

(** [validate_url] *)
Definition validate_url (url : string) : bool :=
  match urlparse url with
  | Ok (scheme, netloc) =>
      (negb (String.eqb scheme "") && negb (String.eqb netloc ""))%bool
  | Raise _ => false
  end.

(** [extract_product_info]: the store and the title. *)
Definition extract_product_info (url : string) : result (string * string) :=
  parsed_url <~ urlparse (lower url) ;;
  let domain := replace (snd parsed_url) "www." "" in
  if contains "amazon." domain then Ok ("Amazon", "Amazon Product")
  else if contains "ebay." domain then Ok ("eBay", "eBay Item")
  else if contains "bestbuy." domain then Ok ("Best Buy", "Best Buy Product")
  else if contains "target." domain then Ok ("Target", "Target Product")
  else if contains "walmart." domain then Ok ("Walmart", "Walmart Product")
  else Ok ("Other", "Product from " ++ domain).

(** The nested [try] blocks that fetch the rows: the enhanced procedure,
    then the old one, then [None]. *)
Definition fetch_products (user_id : Z) : M (option (list row)) :=
  try_except
    (result <- call_procedure "get_user_products_with_data"
                 [("p_user_id", VInt user_id)] ;;
     ret (Some result))
    (fun e =>
       try_except
         (result <- call_procedure "get_user_products"
                      [("p_user_id", VInt user_id)] ;;
          ret (Some result))
         (fun e2 => ret None)).

Definition no_products : response :=
  reply 200 (VDict [("products", VList []);
                    ("debug", VStr "No results found")]).

(** The outer [try] block of [get_user_products]. *)
Definition get_user_products_body (identity : value) : M response :=
  user_id <- lift (py_int identity) ;;
  result <- fetch_products user_id ;;
  match result with
  | None => ret no_products
  | Some [] => ret no_products
  | Some ((first_row :: _) as rows) =>
      if (Nat.ltb 0 (List.length first_row)
          && eq_str (nth 0 first_row VNone) "error")%bool
      then
        message <- lift (index first_row 1) ;;
        ret (reply 400 (VDict [("error", message);
                               ("products", VList []);
                               ("debug", VStr "Error from procedure")]))
      else
        products <- lift (parse_products rows) ;;
        ret (reply 200
               (VDict [("products", VList products);
                       ("total_count",
                        VInt (Z.of_nat (List.length products)));
                       ("debug",
                        VDict [("user_id", VInt user_id);
                               ("result_length",
                                VInt (Z.of_nat (List.length rows)));
                               ("products_parsed",
                                VInt (Z.of_nat (List.length products)))])]))
  end.

Definition get_user_products_view (req : request) (identity : value)
  (claims : list (string * value)) : M response :=
  if String.eqb (method req) "OPTIONS" then ret handle_preflight
  else
    try_except (get_user_products_body identity)
      (fun e => ret (reply 500
                       (VDict [("error", VStr "Failed to load products");
                               ("debug", VStr (str_exn e));
                               ("traceback", VStr (format_exc e))]))).

Definition get_user_products : request -> M response :=
  jwt_required false get_user_products_view.

Definition is_discord_webhook (url : string) : bool :=
  (startswith url "https://discord.com/api/webhooks/"
   || startswith url "https://discordapp.com/api/webhooks/")%bool.

(** The [try]/[except] around the two procedures of [add_product]. *)
Definition store_product (user_id : Z) (url title discord_webhook_url : string)
  (sms_notifications_enabled : value) : M (list row) :=
  try_except
    (call_procedure "add_user_product_with_webhook"
       [("p_user_id", VInt user_id);
        ("p_product_url", VStr url);
        ("p_product_title", VStr title);
        ("p_discord_webhook_url",
         if negb (String.eqb discord_webhook_url "")
         then VStr discord_webhook_url else VNone);
        ("p_sms_notifications_enabled", sms_notifications_enabled)])
    (fun e =>
       call_procedure "add_user_product"
         [("p_user_id", VInt user_id);
          ("p_product_url", VStr url);
          ("p_product_title", VStr title)]).

(** The part of the [try] block of [add_product] that follows the two
    procedures: the response built from the rows. *)
Definition add_product_verdict (user_id : Z) (url title : string)
  (result : list row) : M response :=
  match result with
  | [] => ret (reply 500 (error_body "Failed to add product"))
  | row :: _ =>
      status <- lift (index row 0) ;;
      message <- lift (index row 1) ;;
      if negb (eq_str status "success") then
        ret (reply 400 (VDict [("error", message)]))
      else
        product_id <- lift (at_if_longer row 2 VNone) ;;
        ret (reply 201
               (VDict [("message", message);
                       ("product_id", product_id);
                       ("debug",
                        VDict [("user_id", VInt user_id);
                               ("url", VStr url);
                               ("title", VStr title)])]))
  end.

(** The outer [try] block of [add_product]. *)
Definition add_product_body (req : request) (identity : value)
  : M response :=
  user_id <- lift (py_int identity) ;;
  data <- lift (get_json req) ;;
  if negb (truthy data) then ret (reply 400 (error_body "No data provided"))
  else
    url <- lift (v <~ dict_get data "url" (VStr "") ;; v_strip v) ;;
    title0 <- lift (v <~ dict_get data "title" (VStr "") ;; v_strip v) ;;
    discord_webhook_url <-
      lift (v <~ dict_get data "discord_webhook_url" (VStr "") ;;
            v_strip v) ;;
    sms_notifications_enabled <-
      lift (dict_get data "sms_notifications_enabled" (VBool false)) ;;
    if String.eqb url "" then
      ret (reply 400 (error_body "Product URL is required"))
    else if negb (validate_url url) then
      ret (reply 400 (error_body "Invalid URL format"))
    else if (negb (String.eqb discord_webhook_url "")
             && negb (is_discord_webhook discord_webhook_url))%bool then
      ret (reply 400 (error_body "Invalid Discord webhook URL format"))
    else
      title <- (if String.eqb title0 "" then
                  product_info <- lift (extract_product_info url) ;;
                  ret (snd product_info)
                else ret title0) ;;
      result <- store_product user_id url title discord_webhook_url
                  sms_notifications_enabled ;;
      add_product_verdict user_id url title result.

Definition add_product_view (req : request) (identity : value)
  (claims : list (string * value)) : M response :=
  if String.eqb (method req) "OPTIONS" then ret handle_preflight
  else
    try_except (add_product_body req identity)
      (fun e => ret (reply 500 (error_body "Failed to add product"))).

Definition add_product : request -> M response :=
  jwt_required false add_product_view.

(** [float(v) if v is not None else None] *)
Definition float_if_given (v : value) : result value :=
  if is_none v then Ok VNone else f <~ py_float v ;; Ok (VFloat f).

(** The answer built from the first row of a procedure that reports a
    status and a message: [update_product], [delete_product] and
    [update_user_settings] end with the same lines, which differ in the
    message for an empty result. *)
Definition relay_message (failure : string) (rows : list row) : M response :=
  match rows with
  | [] => ret (reply 500 (error_body failure))
  | row :: _ =>
      status <- lift (index row 0) ;;
      message <- lift (index row 1) ;;
      if negb (eq_str status "success") then
        ret (reply 400 (VDict [("error", message)]))
      else ret (reply 200 (VDict [("message", message)]))
  end.

(** The [try]/[except] around the two procedures of [update_product]. *)
Definition store_update (user_id product_id : Z) (min_price max_price : value)
  (discord_webhook : string) (sms_notifications : value) : M (list row) :=
  try_except
    (call_procedure "update_user_product_with_webhook"
       [("p_user_id", VInt user_id);
        ("p_product_id", VInt product_id);
        ("p_min_price_alert", min_price);
        ("p_max_price_alert", max_price);
        ("p_discord_webhook_url",
         if negb (String.eqb discord_webhook "")
         then VStr discord_webhook else VNone);
        ("p_sms_notifications_enabled", sms_notifications)])
    (fun e =>
       call_procedure "update_user_product"
         [("p_user_id", VInt user_id);
          ("p_product_id", VInt product_id);
          ("p_min_price_alert", min_price);
          ("p_max_price_alert", max_price)]).

(** The [try] block of [update_product]. *)
Definition update_product_body (product_id : Z) (req : request)
  (identity : value) : M response :=
  user_id <- lift (py_int identity) ;;
  data <- lift (get_json req) ;;
  if negb (truthy data) then ret (reply 400 (error_body "No data provided"))
  else
    min_price0 <- lift (dict_get data "min_price_alert" VNone) ;;
    max_price0 <- lift (dict_get data "max_price_alert" VNone) ;;
    discord_webhook <-
      lift (v <~ dict_get data "discord_webhook_url" (VStr "") ;;
            v_strip v) ;;
    sms_notifications <-
      lift (dict_get data "sms_notifications_enabled" VNone) ;;
    min_price <- lift (float_if_given min_price0) ;;
    max_price <- lift (float_if_given max_price0) ;;
    result <- store_update user_id product_id min_price max_price
                discord_webhook sms_notifications ;;
    relay_message "Failed to update product" result.

Definition update_product_view (product_id : Z) (req : request)
  (identity : value) (claims : list (string * value)) : M response :=
  if String.eqb (method req) "OPTIONS" then ret handle_preflight
  else
    try_except (update_product_body product_id req identity)
      (fun e => ret (reply 500 (error_body "Failed to update product"))).

Definition update_product (product_id : Z) : request -> M response :=
  jwt_required false (update_product_view product_id).

(** The [try] block of [delete_product]. *)
Definition delete_product_body (product_id : Z) (identity : value)
  : M response :=
  user_id <- lift (py_int identity) ;;
  result <- call_procedure "delete_user_product"
              [("p_user_id", VInt user_id);
               ("p_product_id", VInt product_id)] ;;
  relay_message "Failed to delete product" result.

Definition delete_product_view (product_id : Z) (req : request)
  (identity : value) (claims : list (string * value)) : M response :=
  if String.eqb (method req) "OPTIONS" then ret handle_preflight
  else
    try_except (delete_product_body product_id identity)
      (fun e => ret (reply 500 (error_body "Failed to delete product"))).

Definition delete_product (product_id : Z) : request -> M response :=
  jwt_required false (delete_product_view product_id).

(** ** The overview *)

(** [except (IndexError, TypeError)] *)
Definition is_index_type (e : exn) : bool :=
  match exn_cls e with
  | IndexError | TypeError => true
  | _ => false
  end.

(** The product [dashboard_overview] builds when
    [row[0] == 'success' and len(row) > 15]. *)
Definition overview_enhanced (r : row) : result value :=
  id <~ index r 2 ;;
  title <~ index r 4 ;;
  status <~ index r 11 ;;
  alerts_sent <~ (v <~ index r 10 ;; Ok (or_default v (VInt 0))) ;;
  created_at <~ (v <~ index r 15 ;; iso_or_none v) ;;
  Ok (VDict [("id", id); ("title", title); ("status", status);
             ("alerts_sent", alerts_sent); ("created_at", created_at)]).

(** The product it builds otherwise. *)
Definition overview_old (r : row) : result value :=
  id <~ index r 0 ;;
  title <~ index r 2 ;;
  status <~ index r 7 ;;
  alerts_sent <~ (v <~ index r 10 ;; Ok (or_default v (VInt 0))) ;;
  created_at <~ (v <~ index r 11 ;; iso_or_none v) ;;
  Ok (VDict [("id", id); ("title", title); ("status", status);
             ("alerts_sent", alerts_sent); ("created_at", created_at)]).

(** One turn of the loop of [dashboard_overview]. *)
Definition overview_row (r : row) : result (option value) :=
  if is_status_row r then Ok None
  else if Nat.ltb 10 (List.length r) then
    rcatch is_index_type
      (first <~ index r 0 ;;
       product <~ (if (eq_str first "success"
                       && Nat.ltb 15 (List.length r))%bool
                   then overview_enhanced r
                   else overview_old r) ;;
       Ok (Some product))
      (Ok None)
  else Ok None.

Fixpoint overview_products (rows : list row) : result (list value) :=
  match rows with
  | [] => Ok []
  | r :: rest =>
      decoded <~ overview_row r ;;
      products <~ overview_products rest ;;
      Ok (match decoded with
          | Some product => product :: products
          | None => products
          end)
  end.

(** [product[key]] on a product built above. *)
Definition item (product : value) (key : string) : value :=
  match product with
  | VDict d => match assoc key d with Some v => v | None => VNone end
  | _ => VNone
  end.

(** The running total of [sum]: an [int], a [float] or a [Decimal]. *)
Inductive number :=
| NInt (z : Z)
| NFloat (f : spec_float)
| NDecimal (m e : Z).

Definition number_name (n : number) : string :=
  match n with
  | NInt _ => "int"
  | NFloat _ => "float"
  | NDecimal _ _ => "decimal.Decimal"
  end.

Definition value_of_number (n : number) : value :=
  match n with
  | NInt z => VInt z
  | NFloat f => VFloat f
  | NDecimal m e => VDecimal m e
  end.

Definition unsupported_add (left right : string) : exn :=
  mk_exn TypeError
    ("unsupported operand type(s) for +: " ++ quote left ++ " and "
     ++ quote right).

(** Addition of [decimal.Decimal], which belongs to the standard library:
    the context fixes precision and rounding. *)
Class Decimals := {
  decimal_add : Z * Z -> Z * Z -> result (Z * Z)
}.

Section Sum.

Context {D : Decimals}.

(** [total + x] *)
Definition add_to (total : number) (x : value) : result number :=
  let as_int :=
    match x with
    | VBool b => Some (if b then 1 else 0)
    | VInt z => Some z
    | _ => None
    end in
  match total, as_int, x with
  | NInt a, Some b, _ => Ok (NInt (a + b))
  | NInt a, None, VFloat g =>
      f <~ float_of_int a ;; Ok (NFloat (SFadd prec emax f g))
  | NInt a, None, VDecimal m e =>
      s <~ decimal_add (m, e) (a, 0) ;; Ok (NDecimal (fst s) (snd s))
  | NFloat f, Some b, _ =>
      g <~ float_of_int b ;; Ok (NFloat (SFadd prec emax f g))
  | NFloat f, None, VFloat g => Ok (NFloat (SFadd prec emax f g))
  | NDecimal m e, Some b, _ =>
      s <~ decimal_add (m, e) (b, 0) ;; Ok (NDecimal (fst s) (snd s))
  | NDecimal m e, None, VDecimal m' e' =>
      s <~ decimal_add (m, e) (m', e') ;; Ok (NDecimal (fst s) (snd s))
  | _, _, _ => Raise (unsupported_add (number_name total) (type_name x))
  end.

(** [sum(product['alerts_sent'] for product in products)] *)
Fixpoint sum_alerts (total : number) (products : list value)
  : result number :=
  match products with
  | [] => Ok total
  | product :: rest =>
      next <~ add_to total (item product "alerts_sent") ;;
      sum_alerts next rest
  end.

End Sum.

(** [sum(1 for product in products if product['status'] == 'in-stock')] *)
Definition in_stock_count (products : list value) : nat :=
  List.length (filter (fun product => eq_str (item product "status")
                                        "in-stock") products).

(** One entry of [recent_activity]. *)
Definition activity (product : value) : value :=
  VDict [("icon", VStr "fas fa-plus");
         ("title", VStr ("Added " ++ py_str (item product "title")));
         ("time", item product "created_at")].

(** The rows of the products: the enhanced procedure, and the old one
    when the first raises; what the old one raises is not caught here. *)
Definition overview_rows (user_id : Z) : M (list row) :=
  try_except
    (call_procedure "get_user_products_with_data"
       [("p_user_id", VInt user_id)])
    (fun e =>
       call_procedure "get_user_products" [("p_user_id", VInt user_id)]).

(** The name the overview greets with. *)
Definition overview_user_name (user_result : list row) : result value :=
  match user_result with
  | [] => Ok (VStr "User")
  | row :: _ =>
      status <~ index row 0 ;;
      if eq_str status "success" then index row 3 else Ok (VStr "User")
  end.

Definition empty_overview : response :=
  reply 200 (VDict [("user_name", VStr "User");
                    ("total_products", VInt 0);
                    ("alerts_sent", VInt 0);
                    ("restocks_found", VInt 0);
                    ("money_saved", VFloat (S754_zero false));
                    ("recent_activity", VList [])]).

(** The [try] block of [dashboard_overview]. *)
Definition dashboard_overview_body `{Decimals} (identity : value)
  : M response :=
  user_id <- lift (py_int identity) ;;
  products_result <- overview_rows user_id ;;
  match products_result with
  | [] => ret empty_overview
  | _ :: _ =>
      products <- lift (overview_products products_result) ;;
      let total_products := List.length products in
      total_alerts <- lift (sum_alerts (NInt 0) products) ;;
      let recent_activity := map activity (firstn 5 products) in
      user_result <- call_procedure "get_user_by_id"
                       [("p_user_id", VInt user_id)] ;;
      user_name <- lift (overview_user_name user_result) ;;
      ret (reply 200
             (VDict [("user_name", user_name);
                     ("total_products", VInt (Z.of_nat total_products));
                     ("alerts_sent", value_of_number total_alerts);
                     ("restocks_found",
                      VInt (Z.of_nat (in_stock_count products)));
                     ("money_saved", VFloat (float_of_decimal 255 (-1)));
                     ("recent_activity", VList recent_activity)]))
  end.

Definition dashboard_overview_view `{Decimals} (req : request)
  (identity : value) (claims : list (string * value)) : M response :=
  if String.eqb (method req) "OPTIONS" then ret handle_preflight
  else
    try_except (dashboard_overview_body identity)
      (fun e => ret (reply 500 (error_body "Failed to load dashboard data"))).

Definition dashboard_overview `{Decimals} : request -> M response :=
  jwt_required false dashboard_overview_view.

(** ** Settings *)

(** [bool(v) if v is not None else default] *)
Definition flag_or (v : value) (default : bool) : value :=
  if negb (is_none v) then py_bool v else VBool default.

(** The settings read from a row of more than ten values. *)
Definition settings_of (r : row) : result value :=
  email_notifications <~ (v <~ index r 0 ;; Ok (flag_or v true)) ;;
  discord_webhook_url <~ (v <~ index r 1 ;; Ok (or_default v (VStr ""))) ;;
  phone_number <~ (v <~ index r 2 ;; Ok (or_default v (VStr ""))) ;;
  sms_notifications <~ (v <~ index r 3 ;; Ok (flag_or v false)) ;;
  notification_frequency <~
    (v <~ index r 4 ;; Ok (or_default v (VStr "instant"))) ;;
  price_drop_alerts <~ (v <~ index r 5 ;; Ok (flag_or v true)) ;;
  restock_alerts <~ (v <~ index r 6 ;; Ok (flag_or v true)) ;;
  price_increase_alerts <~ (v <~ index r 7 ;; Ok (flag_or v false)) ;;
  dashboard_theme <~ (v <~ index r 8 ;; Ok (or_default v (VStr "light"))) ;;
  items_per_page <~ (v <~ index r 9 ;; Ok (or_default v (VInt 10))) ;;
  default_currency <~ (v <~ index r 10 ;; Ok (or_default v (VStr "USD"))) ;;
  share_data <~ (v <~ index r 11 ;; Ok (flag_or v false)) ;;
  public_profile <~ (v <~ index r 12 ;; Ok (flag_or v false)) ;;
  Ok (VDict [("email_notifications", email_notifications);
             ("discord_webhook_url", discord_webhook_url);
             ("phone_number", phone_number);
             ("sms_notifications", sms_notifications);
             ("notification_frequency", notification_frequency);
             ("price_drop_alerts", price_drop_alerts);
             ("restock_alerts", restock_alerts);
             ("price_increase_alerts", price_increase_alerts);
             ("dashboard_theme", dashboard_theme);
             ("items_per_page", items_per_page);
             ("default_currency", default_currency);
             ("share_data", share_data);
             ("public_profile", public_profile)]).

(** The loop over the rows: the first row of more than ten values gives
    the settings and ends the loop; without one they stay empty. *)
Fixpoint first_settings (rows : list row) : result value :=
  match rows with
  | [] => Ok (VDict [])
  | r :: rest =>
      if Nat.ltb 10 (List.length r) then settings_of r
      else first_settings rest
  end.

(** The [try] block of [get_user_settings]. *)
Definition get_user_settings_body (identity : value) : M response :=
  user_id <- lift (py_int identity) ;;
  result <- call_procedure "get_user_settings"
              [("p_user_id", VInt user_id)] ;;
  match result with
  | [] => ret (reply 500 (error_body "Failed to load settings"))
  | first_row :: _ =>
      if (Nat.ltb 0 (List.length first_row)
          && eq_str (nth 0 first_row VNone) "error")%bool
      then
        message <- lift (index first_row 1) ;;
        ret (reply 400 (VDict [("error", message)]))
      else
        settings <- lift (first_settings result) ;;
        ret (reply 200 settings)
  end.

Definition get_user_settings_view (req : request) (identity : value)
  (claims : list (string * value)) : M response :=
  if String.eqb (method req) "OPTIONS" then ret handle_preflight
  else
    try_except (get_user_settings_body identity)
      (fun e => ret (reply 500 (error_body "Failed to load settings"))).

Definition get_user_settings : request -> M response :=
  jwt_required false get_user_settings_view.

(** [data.get(key)] *)
Definition get_or_none (data : value) (key : string) : result value :=
  dict_get data key VNone.

(** The parameters of [update_user_settings], in the order of the call. *)
Definition settings_params (user_id : Z) (data : value)
  (discord_webhook : string) : result params :=
  email_notifications <~ get_or_none data "email_notifications" ;;
  notification_frequency <~ get_or_none data "notification_frequency" ;;
  price_drop_alerts <~ get_or_none data "price_drop_alerts" ;;
  restock_alerts <~ get_or_none data "restock_alerts" ;;
  price_increase_alerts <~ get_or_none data "price_increase_alerts" ;;
  dashboard_theme <~ get_or_none data "dashboard_theme" ;;
  items_per_page <~ get_or_none data "items_per_page" ;;
  default_currency <~ get_or_none data "default_currency" ;;
  share_data <~ get_or_none data "share_data" ;;
  public_profile <~ get_or_none data "public_profile" ;;
  phone_number <~ get_or_none data "phone_number" ;;
  sms_notifications <~ get_or_none data "sms_notifications" ;;
  Ok [("p_user_id", VInt user_id);
      ("p_email_notifications", email_notifications);
      ("p_discord_webhook_url",
       if negb (String.eqb discord_webhook "")
       then VStr discord_webhook else VNone);
      ("p_notification_frequency", notification_frequency);
      ("p_price_drop_alerts", price_drop_alerts);
      ("p_restock_alerts", restock_alerts);
      ("p_price_increase_alerts", price_increase_alerts);
      ("p_dashboard_theme", dashboard_theme);
      ("p_items_per_page", items_per_page);
      ("p_default_currency", default_currency);
      ("p_share_data", share_data);
      ("p_public_profile", public_profile);
      ("p_phone_number", phone_number);
      ("p_sms_notifications", sms_notifications)].

(** The [try] block of [update_user_settings]. *)
Definition update_user_settings_body (req : request) (identity : value)
  : M response :=
  user_id <- lift (py_int identity) ;;
  data <- lift (get_json req) ;;
  if negb (truthy data) then ret (reply 400 (error_body "No data provided"))
  else
    discord_webhook <-
      lift (v <~ dict_get data "discord_webhook_url" (VStr "") ;;
            v_strip v) ;;
    if (negb (String.eqb discord_webhook "")
        && negb (is_discord_webhook discord_webhook))%bool then
      ret (reply 400 (error_body "Invalid Discord webhook URL format"))
    else
      ps <- lift (settings_params user_id data discord_webhook) ;;
      result <- call_procedure "update_user_settings" ps ;;
      relay_message "Failed to update settings" result.

Definition update_user_settings_view (req : request) (identity : value)
  (claims : list (string * value)) : M response :=
  if String.eqb (method req) "OPTIONS" then ret handle_preflight
  else
    try_except (update_user_settings_body req identity)
      (fun e => ret (reply 500 (error_body "Failed to update settings"))).

Definition update_user_settings : request -> M response :=
  jwt_required false update_user_settings_view.

End WithWorld.

End Dashboard.

(* ===================================================================== *)
(** * app/routes/premium/route.py *)
(* ===================================================================== *)

Module Premium.

Import Py Eff Db Http.
Open Scope monad_scope.
Open Scope result_scope.

Definition reply (code : Z) (b : value) : response :=
  mk_response code b
    [("Access-Control-Allow-Origin", "*");
     ("Access-Control-Allow-Methods", "GET,POST,PUT,DELETE,OPTIONS");
     ("Access-Control-Allow-Headers", "Content-Type,Authorization")].

Definition handle_preflight : response :=
  mk_response 200 (VDict [("message", VStr "OK")])
    [("Access-Control-Allow-Origin", "*");
     ("Access-Control-Allow-Headers", "Content-Type,Authorization");
     ("Access-Control-Allow-Methods", "GET,POST,PUT,DELETE,OPTIONS")].

Definition unsupported (op : string) (v : value) (other : string) : exn :=
  mk_exn TypeError
    ("'" ++ op ++ "' not supported between instances of "
     ++ quote (type_name v) ++ " and " ++ quote other).

(** [v < 1] *)
Definition less_than_one (v : value) : result bool :=
  match v with
  | VBool b => Ok (negb b)
  | VInt z => Ok (z <? 1)
  | VFloat f => Ok (SFltb f one)
  | VDecimal m e => Ok (if 0 <=? e then m * 10 ^ e <? 1 else m <? 10 ^ (- e))
  | _ => Raise (unsupported "<" v "int")
  end.

(** [v * 5.00] *)
Definition times_five (v : value) : result spec_float :=
  match v with
  | VBool b => Ok (fmul (float_of_Z (if b then 1 else 0)) five)
  | VInt z => f <~ float_of_int z ;; Ok (fmul f five)
  | VFloat f => Ok (fmul f five)
  | _ => Raise (mk_exn TypeError
                  "can't multiply sequence by non-int of type 'float'")
  end.

(** [int(total_price * 100)] *)
Definition to_cents (total_price : spec_float) : result Z :=
  int_of_float (fmul total_price hundred).

(** One entry of [line_items]: the price identifier and the quantity. *)
Definition line_item (price_id : string) : string * Z := (price_id, 1).

Section WithWorld.

Context {L : Library} {W : World}.

(** Creation of the customer, with the lookup that follows a
    [StripeError]; [None] when no customer could be found either. *)
Definition obtain_customer (user_email : value) (user_id : Z)
  : M (option string) :=
  try_except_only is_stripe_error
    (customer <- customer_create user_email
                   [("user_id", str_int user_id)] ;;
     ret (Some customer))
    (fun e =>
       customers <- customer_list user_email 1 ;;
       match customers with
       | customer :: _ => ret (Some customer)
       | [] => ret None
       end).

(** The plan part of [line_items]: the items, or the response that ends
    the request. *)
Definition plan_line_items (plan_type custom_product_count : value)
  : M (response + list (string * Z)) :=
  if eq_str plan_type "pay_as_you_go" then
    too_few <- (if negb (truthy custom_product_count) then ret true
                else lift (less_than_one custom_product_count)) ;;
    if too_few then
      ret (inl (reply 400 (error_body
                  "Product count is required for pay-as-you-go plan")))
    else
      total_price <- lift (times_five custom_product_count) ;;
      unit_amount <- lift (to_cents total_price) ;;
      price <- price_create unit_amount "usd" "month"
                 ("Pay-as-you-go Plan (" ++ py_str custom_product_count
                  ++ " products)")
                 ("Track up to " ++ py_str custom_product_count
                  ++ " products") ;;
      ret (inr [line_item price])
  else if eq_str plan_type "unlimited" then
    price <- price_create 14500 "usd" "month"
               "Unlimited Access Plan" "Track unlimited products" ;;
    ret (inr [line_item price])
  else
    ret (inl (reply 400 (error_body "Invalid plan type"))).

(** The add-on part of [line_items]. *)
Definition with_ai_enhancement (include_ai_enhancement : value)
  (line_items : list (string * Z)) : M (list (string * Z)) :=
  if truthy include_ai_enhancement then
    ai_price <- price_create 5000 "usd" "month"
                  "AI Enhancement Add-on"
                  "Advanced AI-powered tracking with multiple failsafe layers"
                  ;;
    ret (line_items ++ [line_item ai_price])%list
  else ret line_items.

(** The address the customer is created with: the one of the user's row,
    or a default. *)
Definition customer_email (user_result : list row) : result value :=
  match user_result with
  | [] => Ok (VStr "user@example.com")
  | row :: _ =>
      status <~ index row 0 ;;
      if eq_str status "success" then index row 2
      else Ok (VStr "user@example.com")
  end.

(** The part of the [try] block of [create_checkout_session] that follows
    the customer: the line items and the checkout session. *)
Definition checkout (req : request) (user_id : Z) (customer : string)
  (plan_type custom_product_count include_ai_enhancement : value)
  : M response :=
  plan <- plan_line_items plan_type custom_product_count ;;
  match plan with
  | inl rejected => ret rejected
  | inr plan_items =>
      line_items <- with_ai_enhancement include_ai_enhancement plan_items ;;
      checkout_session <-
        session_create customer line_items
          (host_url req
           ++ "dashboard/premium?session_id={CHECKOUT_SESSION_ID}")
          (host_url req ++ "dashboard/premium")
          [("user_id", str_int user_id);
           ("plan_type", py_str plan_type);
           ("custom_product_count",
            if truthy custom_product_count
            then py_str custom_product_count else "");
           ("include_ai_enhancement", py_str include_ai_enhancement)] ;;
      ret (reply 200
             (VDict [("checkout_url", VStr (fst checkout_session));
                     ("session_id", VStr (snd checkout_session))]))
  end.

(** The [try] block of [create_checkout_session]. *)
Definition create_checkout_session_body (req : request) (identity : value)
  : M response :=
  user_id <- lift (py_int identity) ;;
  data <- lift (get_json req) ;;
  if negb (truthy data) then ret (reply 400 (error_body "No data provided"))
  else
    plan_type <- lift (dict_get data "plan_type" VNone) ;;
    custom_product_count <- lift (dict_get data "custom_product_count"
                                    VNone) ;;
    include_ai_enhancement <- lift (dict_get data "include_ai_enhancement"
                                      (VBool false)) ;;
    if negb (truthy plan_type) then
      ret (reply 400 (error_body "Plan type is required"))
    else
      user_result <- call_procedure "get_user_by_id"
                       [("p_user_id", VInt user_id)] ;;
      user_email <- lift (customer_email user_result) ;;
      found <- obtain_customer user_email user_id ;;
      match found with
      | None => ret (reply 500 (error_body "Failed to create Stripe customer"))
      | Some customer =>
          checkout req user_id customer plan_type custom_product_count
            include_ai_enhancement
      end.

Definition create_checkout_session_view (req : request) (identity : value)
  (claims : list (string * value)) : M response :=
  if String.eqb (method req) "OPTIONS" then ret handle_preflight
  else
    try_except (create_checkout_session_body req identity)
      (fun e =>
         if is_stripe_error e then
           ret (reply 400 (error_body
                  ("Payment processing error: " ++ str_exn e)))
         else
           ret (reply 500 (error_body "Failed to create checkout session"))).

Definition create_checkout_session : request -> M response :=
  jwt_required false create_checkout_session_view.

(** ** Subscription information *)

(** The subscription of a user who has none. *)
Definition free_plan : value :=
  VDict [("subscription_id", VNone);
         ("plan_name", VStr "Free Plan");
         ("plan_type", VStr "free");
         ("price_per_month", VFloat (S754_zero false));
         ("max_products", VInt 2);
         ("subscription_status", VStr "active");
         ("current_products_count", VInt 0);
         ("has_ai_enhancement", VBool false);
         ("current_period_start", VNone);
         ("current_period_end", VNone);
         ("cancel_at_period_end", VBool false)].

(** [v if v is not None else default] *)
Definition given_or (v default : value) : value :=
  if negb (is_none v) then v else default.

(** [bool(v) if v is not None else False] *)
Definition flag_or_false (v : value) : value :=
  if negb (is_none v) then py_bool v else VBool false.

(** [v.isoformat() if v else None] *)
Definition iso_if_set (v : value) : result value :=
  if truthy v then isoformat v else Ok VNone.

(** The subscription read from a row of more than fifteen values. *)
Definition subscription_of (r : row) : result value :=
  subscription_id <~ index r 2 ;;
  plan_name <~ index r 3 ;;
  plan_type <~ index r 4 ;;
  price_per_month <~
    (v <~ index r 5 ;;
     if negb (is_none v) then f <~ py_float v ;; Ok (VFloat f)
     else Ok (VFloat (S754_zero false))) ;;
  price_per_product <~
    (v <~ index r 6 ;;
     if negb (is_none v) then f <~ py_float v ;; Ok (VFloat f)
     else Ok VNone) ;;
  max_products <~ (v <~ index r 7 ;; Ok (given_or v (VInt 2))) ;;
  subscription_status <~ index r 8 ;;
  current_period_start <~ (v <~ index r 9 ;; iso_if_set v) ;;
  current_period_end <~ (v <~ index r 10 ;; iso_if_set v) ;;
  cancel_at_period_end <~ (v <~ index r 11 ;; Ok (flag_or_false v)) ;;
  stripe_customer_id <~ index r 12 ;;
  stripe_subscription_id <~ index r 13 ;;
  current_products_count <~
    (v <~ index r 14 ;; Ok (if truthy v then v else VInt 0)) ;;
  has_ai_enhancement <~ (v <~ index r 15 ;; Ok (flag_or_false v)) ;;
  Ok (VDict [("subscription_id", subscription_id);
             ("plan_name", plan_name);
             ("plan_type", plan_type);
             ("price_per_month", price_per_month);
             ("price_per_product", price_per_product);
             ("max_products", max_products);
             ("subscription_status", subscription_status);
             ("current_period_start", current_period_start);
             ("current_period_end", current_period_end);
             ("cancel_at_period_end", cancel_at_period_end);
             ("stripe_customer_id", stripe_customer_id);
             ("stripe_subscription_id", stripe_subscription_id);
             ("current_products_count", current_products_count);
             ("has_ai_enhancement", has_ai_enhancement)]).

(** The loop over the rows: the first row of more than fifteen values
    gives the subscription and ends the loop. *)
Fixpoint first_subscription (rows : list row) : result (option value) :=
  match rows with
  | [] => Ok None
  | r :: rest =>
      if Nat.ltb 15 (List.length r) then
        subscription_data <~ subscription_of r ;; Ok (Some subscription_data)
      else first_subscription rest
  end.

(** The [try] block of [get_user_subscription]. *)
Definition get_user_subscription_body (identity : value) : M response :=
  user_id <- lift (py_int identity) ;;
  result <- call_procedure "get_user_subscription_info"
              [("p_user_id", VInt user_id)] ;;
  match result with
  | [] => ret (reply 200 (VDict [("subscription", free_plan)]))
  | first_row :: _ =>
      if (Nat.ltb 0 (List.length first_row)
          && eq_str (nth 0 first_row VNone) "error")%bool
      then
        message <- lift (index first_row 1) ;;
        ret (reply 400 (VDict [("error", message)]))
      else
        found <- lift (first_subscription result) ;;
        let subscription_data :=
          match found with
          | Some subscription_data => subscription_data
          | None => free_plan
          end in
        ret (reply 200 (VDict [("subscription", subscription_data)]))
  end.

Definition get_user_subscription_view (req : request) (identity : value)
  (claims : list (string * value)) : M response :=
  if String.eqb (method req) "OPTIONS" then ret handle_preflight
  else
    try_except (get_user_subscription_body identity)
      (fun e => ret (reply 500 (error_body
                       "Failed to load subscription information"))).

Definition get_user_subscription : request -> M response :=
  jwt_required false get_user_subscription_view.

(** ** The product limit *)

(** [bool(row[i]) if len(row) > i else False] *)
Definition flag_if_longer (r : row) (i : nat) : result value :=
  if Nat.ltb i (List.length r) then v <~ index r i ;; Ok (py_bool v)
  else Ok (VBool false).

(** [row[i] if len(row) > i else default] *)
Definition column_or (r : row) (i : nat) (default : value) : result value :=
  if Nat.ltb i (List.length r) then index r i else Ok default.

(** The answer of [check_product_limit] built from the rows. *)
Definition limit_verdict (rows : list row) : M response :=
  match rows with
  | [] => ret (reply 500 (error_body "Failed to check product limit"))
  | row :: _ =>
      status <- lift (index row 0) ;;
      message <- lift (index row 1) ;;
      can_add <- lift (flag_if_longer row 2) ;;
      current_count <- lift (column_or row 3 (VInt 0)) ;;
      max_allowed <- lift (column_or row 4 (VInt 2)) ;;
      plan_type <- lift (column_or row 5 (VStr "free")) ;;
      if negb (eq_str status "success") then
        ret (reply 400 (VDict [("error", message)]))
      else
        ret (reply 200 (VDict [("can_add_product", can_add);
                               ("current_count", current_count);
                               ("max_allowed", max_allowed);
                               ("plan_type", plan_type)]))
  end.

(** The [try] block of [check_product_limit]. *)
Definition check_product_limit_body (identity : value) : M response :=
  user_id <- lift (py_int identity) ;;
  result <- call_procedure "check_product_limit"
              [("p_user_id", VInt user_id)] ;;
  limit_verdict result.

Definition check_product_limit_view (req : request) (identity : value)
  (claims : list (string * value)) : M response :=
  if String.eqb (method req) "OPTIONS" then ret handle_preflight
  else
    try_except (check_product_limit_body identity)
      (fun e => ret (reply 500 (error_body "Failed to check product limit"))).

Definition check_product_limit : request -> M response :=
  jwt_required false check_product_limit_view.

(** ** Plans and add-ons *)

(** [float(v) if v else 0.00] *)
Definition float_or_zero (v : value) : result value :=
  if truthy v then f <~ py_float v ;; Ok (VFloat f)
  else Ok (VFloat (S754_zero false)).

(** [float(v) if v else None] *)
Definition float_or_nothing (v : value) : result value :=
  if truthy v then f <~ py_float v ;; Ok (VFloat f) else Ok VNone.

Definition plan_of (r : row) : result value :=
  id <~ index r 0 ;;
  plan_name <~ index r 1 ;;
  plan_type <~ index r 2 ;;
  price_per_month <~ (v <~ index r 3 ;; float_or_zero v) ;;
  price_per_product <~ (v <~ index r 4 ;; float_or_nothing v) ;;
  max_products <~ index r 5 ;;
  stripe_price_id <~ index r 6 ;;
  is_active <~ (v <~ index r 7 ;; Ok (py_bool v)) ;;
  Ok (VDict [("id", id); ("plan_name", plan_name); ("plan_type", plan_type);
             ("price_per_month", price_per_month);
             ("price_per_product", price_per_product);
             ("max_products", max_products);
             ("stripe_price_id", stripe_price_id);
             ("is_active", is_active)]).

Definition addon_of (r : row) : result value :=
  id <~ index r 0 ;;
  addon_name <~ index r 1 ;;
  addon_description <~ index r 2 ;;
  price_per_month <~ (v <~ index r 3 ;; float_or_zero v) ;;
  stripe_price_id <~ index r 4 ;;
  is_active <~ (v <~ index r 5 ;; Ok (py_bool v)) ;;
  Ok (VDict [("id", id); ("addon_name", addon_name);
             ("addon_description", addon_description);
             ("price_per_month", price_per_month);
             ("stripe_price_id", stripe_price_id);
             ("is_active", is_active)]).

(** What one turn of the loop of [get_subscription_plans] does with a
    row, given the flag [reading_addons]. *)
Inductive reading :=
| Passed          (* the row is passed over *)
| AsPlan          (* appended to [plans] *)
| AsAddon.        (* appended to [addons]; the flag is set *)

Definition read_as (reading_addons : bool) (r : row) : reading :=
  if Nat.leb 2 (List.length r) then
    if (eq_str (nth 0 r VNone) "success" && Nat.eqb (List.length r) 2)%bool
    then Passed
    else if (Nat.leb 8 (List.length r) && negb reading_addons)%bool
    then AsPlan
    else if Nat.leb 6 (List.length r) then AsAddon
    else Passed
  else Passed.

(** The loop: the plans and the add-ons, each in the order of the rows. *)
Fixpoint read_plans (reading_addons : bool) (rows : list row)
  : result (list value * list value) :=
  match rows with
  | [] => Ok ([], [])
  | r :: rest =>
      match read_as reading_addons r with
      | Passed => read_plans reading_addons rest
      | AsPlan =>
          plan <~ plan_of r ;;
          more <~ read_plans reading_addons rest ;;
          Ok (plan :: fst more, snd more)
      | AsAddon =>
          addon <~ addon_of r ;;
          more <~ read_plans true rest ;;
          Ok (fst more, addon :: snd more)
      end
  end.

(** The [try] block of [get_subscription_plans]. *)
Definition get_subscription_plans_body : M response :=
  result <- call_procedure "get_all_subscription_plans" [] ;;
  match result with
  | [] => ret (reply 500 (error_body "Failed to load subscription plans"))
  | first_row :: _ =>
      if (Nat.ltb 0 (List.length first_row)
          && eq_str (nth 0 first_row VNone) "error")%bool
      then
        message <- lift (index first_row 1) ;;
        ret (reply 400 (VDict [("error", message)]))
      else
        read <- lift (read_plans false result) ;;
        ret (reply 200 (VDict [("plans", VList (fst read));
                               ("addons", VList (snd read))]))
  end.

(** The route carries no [jwt_required]. *)
Definition get_subscription_plans (req : request) : M response :=
  if String.eqb (method req) "OPTIONS" then ret handle_preflight
  else
    try_except get_subscription_plans_body
      (fun e => ret (reply 500 (error_body
                       "Failed to load subscription plans"))).

(** ** Updating a subscription *)

(** The [try] block of [update_subscription]. *)
Definition update_subscription_body (req : request) (identity : value)
  : M response :=
  user_id <- lift (py_int identity) ;;
  data <- lift (get_json req) ;;
  if negb (truthy data) then ret (reply 400 (error_body "No data provided"))
  else
    ret (reply 501
           (VDict [("message",
                    VStr ("Subscription update functionality "
                          ++ "not yet implemented"))])).

Definition update_subscription_view (req : request) (identity : value)
  (claims : list (string * value)) : M response :=
  if String.eqb (method req) "OPTIONS" then ret handle_preflight
  else
    try_except (update_subscription_body req identity)
      (fun e => ret (reply 500 (error_body "Failed to update subscription"))).

Definition update_subscription : request -> M response :=
  jwt_required false update_subscription_view.

(** ** The metadata of a checkout session, read back *)

(** [str.isdigit] on the code points below 256: the decimal digits and
    the superscripts one, two and three. *)
Definition is_digit_like (c : ascii) : bool :=
  (is_digit c || Nat.eqb (code c) 178 || Nat.eqb (code c) 179
   || Nat.eqb (code c) 185)%bool.

Definition isdigit (s : string) : bool :=
  (negb (String.eqb s "") && forallb is_digit_like (chars s))%bool.

(** What [process_checkout_success] reads from the metadata of the
    session: the plan, the product count
    ([int(c) if c and c.isdigit() else None]) and whether the add-on was
    asked for ([... == 'True']). *)
Definition read_metadata (metadata : list (string * string))
  : result (option string * option Z * bool) :=
  let plan_type := assoc "plan_type" metadata in
  let include_ai_enhancement :=
    match assoc "include_ai_enhancement" metadata with
    | Some s => String.eqb s "True"
    | None => false
    end in
  custom_product_count <~
    match assoc "custom_product_count" metadata with
    | Some c =>
        if (negb (String.eqb c "") && isdigit c)%bool
        then z <~ int_of_str c ;; Ok (Some z)
        else Ok None
    | None => Ok None
    end ;;
  Ok (plan_type, custom_product_count, include_ai_enhancement).

End WithWorld.

End Premium.

(* ===================================================================== *)
(** * config.py: the configuration the application starts with *)
(* ===================================================================== *)

Module Config.

Import Py Db.

(** [os.environ]: a variable is unset or holds a text. *)
Definition environ := string -> option string.

(** [os.environ.get(var, default)] *)
Definition get (env : environ) (var default : string) : string :=
  match env var with
  | Some v => v
  | None => default
  end.

(** [os.environ.get(var) or default] *)
Definition get_or (env : environ) (var default : string) : string :=
  match env var with
  | Some v => if String.eqb v "" then default else v
  | None => default
  end.

(** [not os.environ.get(var)] *)
Definition unset (env : environ) (var : string) : bool :=
  match env var with
  | Some v => String.eqb v ""
  | None => true
  end.

Inductive config_class :=
| DevelopmentConfig
| ProductionConfig
| TestingConfig.

(** Class attributes of [Config] that the subclasses inherit. *)
Definition SECRET_KEY (env : environ) : string :=
  get_or env "SECRET_KEY" "your-secret-key-change-in-production".

Definition JWT_SECRET_KEY (env : environ) : string :=
  get_or env "JWT_SECRET_KEY" "jwt-secret-key-change-in-production".

Definition required_vars : list string :=
  ["DB_HOST"; "DB_USERNAME"; "DB_PASSWORD"; "SECRET_KEY"; "JWT_SECRET_KEY"].

Definition missing_vars (env : environ) : list string :=
  filter (unset env) required_vars.

Definition RuntimeError (message : string) : exn :=
  mk_exn (OtherError "RuntimeError") message.

(** [cls.init_app(app)]; only [ProductionConfig] does more than print. *)
Definition init_app (cls : config_class) (env : environ) : result unit :=
  match cls with
  | ProductionConfig =>
      match missing_vars env with
      | [] => Ok tt
      | missing =>
          Raise (RuntimeError
                   ("Missing required environment variables: "
                    ++ join ", " missing))
      end
  | DevelopmentConfig | TestingConfig => Ok tt
  end.

Definition get_config (env : environ) : config_class :=
  let flask_env := lower (get env "FLASK_ENV" "development") in
  if String.eqb flask_env "production" then ProductionConfig
  else if String.eqb flask_env "testing" then TestingConfig
  else DevelopmentConfig.

End Config.

(* ===================================================================== *)
(** * The [except] clauses at the boundary of every handler *)
(* ===================================================================== *)

Module Boundary.

Import Py Eff Http.

(** The view functions whose body is a [try] block that answers in JSON. *)
Inductive route :=
(* app/routes/auth/route.py *)
| AuthRegister | AuthLogin | AuthRefresh | AuthVerifyToken | AuthLogout
| AuthDebugProcedures
(* app/routes/dashboard/route.py *)
| ProductsGet | ProductsAdd | ProductsUpdate | ProductsDelete
| DashboardOverview | SettingsGet | SettingsUpdate
(* app/routes/premium/route.py *)
| SubscriptionGet | CheckLimit | Plans | CreateCheckoutSession
| ProcessSuccess | CancelSubscription | UpdateSubscription
(* app/routes/password/route.py *)
| ForgotPassword | VerifyResetToken | ResetPassword
(* app/routes/donation/route.py *)
| DonationCreateSession | DonationWebhook | DonationsList
(* app/routes/stripe/route.py *)
| StripeCreatePayment | StripeWebhook.

(** [except ValueError] *)
Definition is_value_error (e : exn) : bool :=
  match exn_cls e with ValueError => true | _ => false end.

(** [except stripe.error.SignatureVerificationError] *)
Definition is_signature_error (e : exn) : bool :=
  match exn_cls e with SignatureVerificationError => true | _ => false end.

(** [response.headers.add('Access-Control-Allow-Origin', '*')] *)
Definition allow_origin (code : Z) (b : value) : response :=
  mk_response code b [("Access-Control-Allow-Origin", "*")].

(** What the [except] clauses of a handler answer when its [try] block
    raises [e]; the clauses are tried in the order they are written. *)
Definition on_exception (r : route) (e : exn) : response :=
  match r with
  | AuthRegister =>
      Auth.reply 500 (error_body "Internal server error during registration")
  | AuthLogin =>
      Auth.reply 500 (error_body "Internal server error during login")
  | AuthRefresh => Auth.reply 500 (error_body "Token refresh failed")
  | AuthVerifyToken => Auth.reply 500 (error_body "Token verification failed")
  | AuthLogout => Auth.reply 500 (error_body "Logout failed")
  | AuthDebugProcedures =>
      mk_response 200
        (VDict [("error", VStr (str_exn e));
                ("traceback", VStr (format_exc e))]) []
  | ProductsGet =>
      Dashboard.reply 500
        (VDict [("error", VStr "Failed to load products");
                ("debug", VStr (str_exn e));
                ("traceback", VStr (format_exc e))])
  | ProductsAdd => Dashboard.reply 500 (error_body "Failed to add product")
  | ProductsUpdate =>
      Dashboard.reply 500 (error_body "Failed to update product")
  | ProductsDelete =>
      Dashboard.reply 500 (error_body "Failed to delete product")
  | DashboardOverview =>
      Dashboard.reply 500 (error_body "Failed to load dashboard data")
  | SettingsGet => Dashboard.reply 500 (error_body "Failed to load settings")
  | SettingsUpdate =>
      Dashboard.reply 500 (error_body "Failed to update settings")
  | SubscriptionGet =>
      Premium.reply 500
        (error_body "Failed to load subscription information")
  | CheckLimit =>
      Premium.reply 500 (error_body "Failed to check product limit")
  | Plans =>
      Premium.reply 500 (error_body "Failed to load subscription plans")
  | CreateCheckoutSession =>
      if is_stripe_error e then
        Premium.reply 400
          (error_body ("Payment processing error: " ++ str_exn e))
      else Premium.reply 500 (error_body "Failed to create checkout session")
  | ProcessSuccess =>
      if is_stripe_error e then
        Premium.reply 400
          (error_body ("Payment verification error: " ++ str_exn e))
      else Premium.reply 500 (error_body "Failed to process subscription")
  | CancelSubscription =>
      Premium.reply 500 (error_body "Failed to cancel subscription")
  | UpdateSubscription =>
      Premium.reply 500 (error_body "Failed to update subscription")
  | ForgotPassword => Password.reply 500 (error_body "Internal server error")
  | VerifyResetToken =>
      Password.reply 500 (error_body "Internal server error")
  | ResetPassword => Password.reply 500 (error_body "Internal server error")
  | DonationCreateSession =>
      if is_value_error e then allow_origin 400 (error_body (str_exn e))
      else allow_origin 500
             (error_body ("Internal server error: " ++ str_exn e))
  | DonationWebhook =>
      if is_signature_error e
      then allow_origin 400 (error_body "Invalid signature")
      else allow_origin 500 (error_body (str_exn e))
  | DonationsList => allow_origin 500 (error_body (str_exn e))
  | StripeCreatePayment =>
      if is_value_error e then allow_origin 400 (error_body (str_exn e))
      else allow_origin 403 (error_body (str_exn e))
  | StripeWebhook =>
      if is_signature_error e
      then allow_origin 400 (error_body "Invalid signature")
      else allow_origin 500 (error_body (str_exn e))
  end.

(** [try: body  except ...:] with the clauses of the handler of [r]. *)
Definition guarded (r : route) (body : M response) : M response :=
  try_except body (fun e => ret (on_exception r e)).

(** The handlers all of whose [except] clauses answer with a fixed
    message. *)
Definition fixed_message_routes : list route :=
  [AuthRegister; AuthLogin; AuthRefresh; AuthVerifyToken; AuthLogout;
   ProductsAdd; ProductsUpdate; ProductsDelete; DashboardOverview;
   SettingsGet; SettingsUpdate;
   SubscriptionGet; CheckLimit; Plans; CancelSubscription;
   UpdateSubscription;
   ForgotPassword; VerifyResetToken; ResetPassword].

(** The two handlers with a clause for the errors of the payment
    processor in front of the general one. *)
Definition payment_routes : list route :=
  [CreateCheckoutSession; ProcessSuccess].

(** The handlers whose general clause puts [str(e)] in the body. *)
Definition exception_text_routes : list route :=
  [AuthDebugProcedures; ProductsGet; DonationCreateSession; DonationWebhook;
   DonationsList; StripeCreatePayment; StripeWebhook].

(** Some text field of the body ends with the text of the exception. *)
Definition carries_text_of (resp : response) (e : exn) : Prop :=
  exists key lead,
    match body resp with
    | VDict d => assoc key d = Some (VStr (lead ++ str_exn e))
    | _ => False
    end.

End Boundary.

(* ===================================================================== *)
(** * Vocabulary of the statements *)
(* ===================================================================== *)

Module Spec.

Import Py Eff Db Http Dashboard Password Premium.

(** A request other than [OPTIONS] whose JSON body is an object [d]. *)
Definition posts (d : list (string * value)) (req : request) : Prop :=
  method req <> "OPTIONS" /\ get_json req = Ok (VDict d).

(** A login request: the string [email] under ["email"], the value
    [password] under ["password"]. *)
Definition login_request (email : string) (password : value) (req : request)
  : Prop :=
  exists d, posts d req
            /\ assoc "email" d = Some (VStr email)
            /\ assoc "password" d = Some password.

(** The email address as the handlers query with it. *)
Definition normalised (email : string) : string := lower (strip email).

(** The row [verify_user_login] answers with for an account it knows. *)
Definition user_row (message user_id stored_hash full_name email_verified
                       is_active : value) : row :=
  [VStr "success"; message; user_id; stored_hash; full_name; email_verified;
   is_active].

(** Rows that report no account: none at all, or a first row whose status
    column is not ["success"] and that has a message column. *)
Definition reports_failure (rows : list row) : Prop :=
  rows = [] \/
  exists status message rest more,
    rows = (status :: message :: rest) :: more
    /\ eq_str status "success" = false.

(** [product[key]] *)
Definition field (key : string) (product : value) : option value :=
  match product with
  | VDict d => assoc key d
  | _ => None
  end.

(** A request for a checkout session that gets as far as the line items:
    [uid] is the user, [plan], [count] and [addon] are what the body holds
    under ["plan_type"], ["custom_product_count"] and
    ["include_ai_enhancement"], the user's row is fetched, [customer] is
    the customer the payment processor answers with, and [t'] is the trace
    at that point. *)
Definition checkout_request `{Library} `{World} (req : request) (uid : Z)
  (plan count addon : value) (customer : string) (t t' : trace) : Prop :=
  method req <> "OPTIONS"
  /\ (exists identity claims,
         auth req = Presented false identity claims
         /\ py_int identity = Ok uid)
  /\ (exists d,
         get_json req = Ok (VDict d) /\ truthy (VDict d) = true
         /\ dict_get (VDict d) "plan_type" VNone = Ok plan
         /\ dict_get (VDict d) "custom_product_count" VNone = Ok count
         /\ dict_get (VDict d) "include_ai_enhancement" (VBool false)
            = Ok addon)
  /\ truthy plan = true
  /\ exists user_rows user_email,
       run (call_procedure "get_user_by_id" [("p_user_id", VInt uid)]) t
       = Ok user_rows
       /\ customer_email user_rows = Ok user_email
       /\ obtain_customer user_email uid
            (calls (call_procedure "get_user_by_id"
                      [("p_user_id", VInt uid)]) t)
          = (Ok (Some customer), t').

(** The two URLs and the metadata of the checkout session. *)
Definition success_url (req : request) : string :=
  host_url req ++ "dashboard/premium?session_id={CHECKOUT_SESSION_ID}".

Definition cancel_url (req : request) : string :=
  host_url req ++ "dashboard/premium".

Definition session_metadata `{Library} (uid : Z) (plan count addon : value)
  : list (string * string) :=
  [("user_id", str_int uid);
   ("plan_type", py_str plan);
   ("custom_product_count", if truthy count then py_str count else "");
   ("include_ai_enhancement", py_str addon)].

(** [int(n * 5.00 * 100)] for an integer count [n]. *)
Definition cents_of_count (n : Z) : result Z :=
  rbind (times_five (VInt n)) to_cents.

(** The conversion gives [500 * n] for every count from 1 to [k]. *)
Definition cents_exact_upto (k : nat) : bool :=
  forallb (fun i =>
             match cents_of_count (Z.of_nat i) with
             | Ok c => c =? 500 * Z.of_nat i
             | Raise _ => false
             end)
          (seq 1 k).


(** A well-formed forgot-password request: a JSON object with the string
    [email] under ["email"], and an address that passes
    [validate_email]. *)
Definition forgot_request (email : string) (req : request) : Prop :=
  (exists d, posts d req /\ assoc "email" d = Some (VStr email))
  /\ Password.validate_email (normalised email) = true.

(** The row [get_user_by_email] answers with for an account it knows. *)
Definition account_row (message user_id full_name is_active : value)
  (rest : list value) : row :=
  VStr "success" :: message :: user_id :: full_name :: is_active :: rest.

(** Rows whose first row reports success. *)
Definition reports_success (rows : list row) : Prop :=
  exists status rest more,
    rows = (status :: rest) :: more /\ eq_str status "success" = true.

(** A price column the decoders accept: [float(v) if v else None] does
    not raise. *)
Definition converts_price `{Library} (v : value) : Prop :=
  exists w, float_or_none v = Ok w.

(** A timestamp column the decoders accept: [v.isoformat() if v else None]
    does not raise. *)
Definition converts_time (v : value) : Prop :=
  exists w, iso_or_none v = Ok w.

(** A request to add a product that passes every check that comes before
    the procedures are called: [uid] is the user, [url], [title] and
    [discord] the stripped texts the handler goes on with (the title
    derived from the URL when none was sent), [sms] the flag. *)
Definition add_product_request `{Library} (req : request) (identity : value)
  (uid : Z) (url title discord : string) (sms : value) : Prop :=
  method req <> "OPTIONS"
  /\ (exists claims, auth req = Presented false identity claims)
  /\ py_int identity = Ok uid
  /\ exists d url0 title0 discord0,
       get_json req = Ok (VDict d) /\ truthy (VDict d) = true
       /\ dict_get (VDict d) "url" (VStr "") = Ok (VStr url0)
       /\ dict_get (VDict d) "title" (VStr "") = Ok (VStr title0)
       /\ dict_get (VDict d) "discord_webhook_url" (VStr "")
          = Ok (VStr discord0)
       /\ dict_get (VDict d) "sms_notifications_enabled" (VBool false)
          = Ok sms
       /\ url = strip url0 /\ discord = strip discord0
       /\ url <> "" /\ validate_url url = true
       /\ (discord = "" \/ is_discord_webhook discord = true)
       /\ (if String.eqb (strip title0) ""
           then exists store, extract_product_info url = Ok (store, title)
           else title = strip title0).

(** The parameters of the two procedures that record a product. *)
Definition enhanced_add_params (uid : Z) (url title discord : string)
  (sms : value) : params :=
  [("p_user_id", VInt uid);
   ("p_product_url", VStr url);
   ("p_product_title", VStr title);
   ("p_discord_webhook_url",
    if negb (String.eqb discord "") then VStr discord else VNone);
   ("p_sms_notifications_enabled", sms)].

Definition old_add_params (uid : Z) (url title : string) : params :=
  [("p_user_id", VInt uid);
   ("p_product_url", VStr url);
   ("p_product_title", VStr title)].

(** ** Vocabulary for the handlers outside the stated claims *)

(** A character an address may hold: no white space and no [@]. *)
Definition address_char (c : ascii) : Prop :=
  is_space c = false /\ c <> "@"%char.

(** A part of an address: at least one character, all of that kind. *)
Definition address_part (l : list ascii) : Prop :=
  l <> [] /\ Forall address_char l.

(** The line feed. *)
Definition LF : ascii := ascii_of_nat 10.

(** A request to set a new password: the string [token] under ["token"],
    the value [password] under ["password"]. *)
Definition reset_request (token : string) (password : value) (req : request)
  : Prop :=
  exists d, posts d req
            /\ assoc "token" d = Some (VStr token)
            /\ assoc "password" d = Some password.

(** A request that is not a preflight and presents an access token whose
    identity [int()] reads as [uid]. *)
Definition signed_in (req : request) (identity : value) (uid : Z) : Prop :=
  method req <> "OPTIONS"
  /\ (exists claims, auth req = Presented false identity claims)
  /\ py_int identity = Ok uid.

(** [data.get(key)] on the object [d]. *)
Definition sent (d : list (string * value)) (key : string) : value :=
  match assoc key d with
  | Some v => v
  | None => VNone
  end.

(** The parameters of the two procedures that update a product. *)
Definition enhanced_update_params (uid product_id : Z) (min max : value)
  (discord : string) (sms : value) : params :=
  [("p_user_id", VInt uid);
   ("p_product_id", VInt product_id);
   ("p_min_price_alert", min);
   ("p_max_price_alert", max);
   ("p_discord_webhook_url",
    if negb (String.eqb discord "") then VStr discord else VNone);
   ("p_sms_notifications_enabled", sms)].

Definition old_update_params (uid product_id : Z) (min max : value)
  : params :=
  [("p_user_id", VInt uid);
   ("p_product_id", VInt product_id);
   ("p_min_price_alert", min);
   ("p_max_price_alert", max)].



(** The fields the overview and the product list have in common. *)
Definition overview_keys : list string :=
  ["id"; "title"; "status"; "alerts_sent"; "created_at"].

(** The number of rows with at least [n] values. *)
Definition rows_of_at_least (n : nat) (rows : list row) : nat :=
  List.length (filter (fun r => Nat.leb n (List.length r)) rows).

(** The metadata of the checkout sessions created among the calls
    [new]. *)
Fixpoint session_metadatas (new : trace) : list (list (string * string)) :=
  match new with
  | [] => []
  | SessionCreate _ _ _ _ metadata :: rest =>
      metadata :: session_metadatas rest
  | _ :: rest => session_metadatas rest
  end.

(** The add-on price, as [create_checkout_session] asks for it. *)
Definition addon_price_call : call :=
  PriceCreate 5000 "usd" "month" "AI Enhancement Add-on"
    "Advanced AI-powered tracking with multiple failsafe layers".

(** A view that answers every request, whatever the collaborators do:
    no exception leaves it. *)
Definition answers (view : request -> M response) : Prop :=
  forall req t, exists resp, run (view req) t = Ok resp.

(** A view that asks for a token of the kind [refresh]: a request that is
    not a preflight and presents no token, a malformed one, an expired
    one or one of the other kind is answered with status 401, and the
    view makes no call. *)
Definition unauthorized (message : string) : response :=
  mk_response 401 (VDict [("error", VStr message)]) [].

Definition requires_token (refresh : bool) (view : request -> M response)
  : Prop :=
  forall req t,
    method req <> "OPTIONS" ->
    (auth req = NoToken ->
     view req t = (Ok (unauthorized "Authorization token is required"), t))
    /\ (auth req = Malformed ->
        view req t = (Ok (unauthorized "Invalid token"), t))
    /\ (auth req = Expired ->
        view req t = (Ok (unauthorized "Token has expired"), t))
    /\ (forall identity claims,
           auth req = Presented (negb refresh) identity claims ->
           view req t = (Ok (unauthorized "Invalid token"), t)).

(** The parameters of [create_user_account]. *)
Definition account_params (full_name email hash : string)
  (newsletter : value) : params :=
  [("p_full_name", VStr full_name);
   ("p_email", VStr email);
   ("p_password_hash", VStr hash);
   ("p_newsletter_opt_in", newsletter)].


(** The statement that checks a reset token, and the one that stores the
    new hash. *)
Definition verify_reset_params (token : string) : params :=
  [("p_token", VStr token)].

Definition reset_params (token : string) (user_id : value) (hash : string)
  : params :=
  [("p_token", VStr token);
   ("p_user_id", user_id);
   ("p_new_password_hash", VStr hash)].

End Spec.

(* ===================================================================== *)
(** * Concrete collaborators for the scenarios *)
(* ===================================================================== *)

Module Scenario.

Import Py Eff Http Dashboard Spec.

(** [s] up to the first occurrence of [sep], and what follows it. *)
Fixpoint split_once (sep s : list ascii)
  : option (list ascii * list ascii) :=
  if is_prefix sep s then Some ([], skipn (List.length sep) s)
  else
    match s with
    | [] => None
    | c :: rest =>
        match split_once sep rest with
        | Some (before, after) => Some (c :: before, after)
        | None => None
        end
    end.

(** The scheme and the network location of [scheme://netloc/...]. *)
Definition plain_urlparse (url : string) : result (string * string) :=
  match split_once (chars "://") (chars url) with
  | Some (scheme, rest) =>
      match split_once (chars "/") rest with
      | Some (netloc, _) => Ok (text scheme, text netloc)
      | None => Ok (text scheme, text rest)
      end
  | None => Ok ("", "")
  end.

(** A password hash that is the password behind a fixed prefix. *)
Definition plain_hash (password : string) : string := "plain$$" ++ password.

Definition plain_check (stored password : value) : result bool :=
  match stored, password with
  | VStr h, VStr p => Ok (String.eqb h (plain_hash p))
  | VStr _, _ => Raise (no_attribute password "encode")
  | _, _ => Raise (no_attribute stored "split")
  end.

(** The library of the scenarios.  Float literals are read when they are
    integer literals, which is all the scenarios contain; the same holds
    for the texts of other values and for the date arithmetic. *)
Definition plain : Library := {|
  float_of_str := fun s =>
    option_map float_of_Z (parse_signed (strip_by is_int_space (chars s)));
  str_other := fun v => "<" ++ type_name v ++ ">";
  urlparse := plain_urlparse;
  check_password_hash := plain_check;
  add_hours := fun iso h => iso ++ "+" ++ str_int h ++ "h";
  strftime_seconds := fun iso => iso
|}.

(** A world whose database answers by the statement and its parameters
    alone, whose session never fails, and whose payment processor accepts
    everything. *)
Definition table (db : string -> params -> result (list row)) : World := {|
  on_execute := fun _ q ps => db q ps;
  on_commit := fun _ => Ok tt;
  on_rollback := fun _ => Ok tt;
  on_close := fun _ => Ok tt;
  on_generate_password_hash := fun _ p =>
    match p with
    | VStr s => Ok (plain_hash s)
    | _ => Raise (no_attribute p "encode")
    end;
  on_secrets_choice := fun _ _ => "a"%char;
  on_now := fun _ => "2025-01-01T00:00:00";
  on_customer_create := fun _ _ _ => Ok "cus_1";
  on_customer_list := fun _ _ _ => Ok ["cus_1"];
  on_price_create := fun _ amount _ _ _ _ => Ok ("price_" ++ str_int amount);
  on_session_create := fun _ _ _ _ _ _ =>
    Ok ("https://checkout.example/cs_1", "cs_1")
|}.

Definition post (d : list (string * value)) : request :=
  mk_request "POST" (Ok (VDict d)) NoToken "http://localhost:5000/".

Definition post_as (d : list (string * value)) (who : value) : request :=
  mk_request "POST" (Ok (VDict d)) (present who) "http://localhost:5000/".

Definition get_as (who : value) : request :=
  mk_request "GET" (Ok VNone) (present who) "http://localhost:5000/".

(** ** Accounts *)

Definition alice_row (is_active : value) : row :=
  user_row (VStr "User found") (VInt 42) (VStr (plain_hash "correct1horse"))
    (VStr "Alice Doe") (VInt 1) is_active.

(** A database with one account, [alice@example.com]. *)
Definition accounts (is_active : value) (q : string) (ps : params)
  : result (list row) :=
  if String.eqb q "CALL verify_user_login(:p_email)" then
    match assoc "p_email" ps with
    | Some (VStr "alice@example.com") => Ok [alice_row is_active]
    | _ => Ok [[VStr "error"; VStr "User not found"]]
    end
  else if String.eqb q "CALL get_user_by_id(:p_user_id)" then
    match assoc "p_user_id" ps with
    | Some (VInt 42) =>
        Ok [[VStr "success"; VStr "User found"; VStr "alice@example.com";
             VStr "Alice Doe"; VInt 1]]
    | _ => Ok [[VStr "error"; VStr "User not found"]]
    end
  else Ok [[VStr "success"; VStr "OK"]].


Definition alice_login : request :=
  post [("email", VStr "alice@example.com");
        ("password", VStr "correct1horse")].

(** The access token [login] hands to Alice. *)
Definition alice_token : value :=
  create_access_token "42"
    [("email", VStr "alice@example.com");
     ("full_name", VStr "Alice Doe");
     ("email_verified", VBool true)].

(** ** Checkout *)

Definition checkout_for (plan count addon : value) : request :=
  post_as [("plan_type", plan); ("custom_product_count", count);
           ("include_ai_enhancement", addon)]
          alice_token.

(** What the session of [table] has seen once the user's row is fetched
    and the customer is created. *)
Definition customer_ready : trace :=
  [Execute "CALL get_user_by_id(:p_user_id)" [("p_user_id", VInt 42)];
   Commit; Close;
   CustomerCreate (VStr "alice@example.com") [("user_id", "42")]].

(** ** Password resets *)

(** A database with the account of [alice@example.com] and a procedure
    for reset tokens that answers [token_rows]. *)
Definition reset_db (is_active : value) (token_rows : list row)
  (q : string) (ps : params) : result (list row) :=
  if String.eqb q "CALL get_user_by_email(:p_email)" then
    match assoc "p_email" ps with
    | Some (VStr "alice@example.com") =>
        Ok [account_row (VStr "User found") (VInt 42) (VStr "Alice Doe")
              is_active []]
    | _ => Ok [[VStr "error"; VStr "User not found"]]
    end
  else if String.prefix "CALL create_password_reset_token(" q
  then Ok token_rows
  else Ok [].

(** ** Procedures that are missing *)

Definition no_such_procedure (name : string) : exn :=
  mk_exn (OtherError "sqlalchemy.exc.OperationalError")
    ("(1305, 'PROCEDURE stockwatch." ++ name ++ " does not exist')").

Definition product_added : list row :=
  [[VStr "success"; VStr "Product added successfully"; VInt 9]].

(** A database that has the old procedures only. *)
Definition old_schema (q : string) (ps : params) : result (list row) :=
  if String.prefix "CALL add_user_product_with_webhook(" q then
    Raise (no_such_procedure "add_user_product_with_webhook")
  else if String.prefix "CALL get_user_products_with_data(" q then
    Raise (no_such_procedure "get_user_products_with_data")
  else if String.prefix "CALL add_user_product(" q then Ok product_added
  else Ok [].

(** A database that has the enhanced procedures. *)
Definition enhanced_schema (q : string) (ps : params) : result (list row) :=
  if String.prefix "CALL add_user_product_with_webhook(" q
  then Ok product_added
  else Ok [].

Definition kettle_request : request :=
  post_as [("url", VStr "https://www.amazon.com/dp/B000");
           ("discord_webhook_url",
            VStr "https://discord.com/api/webhooks/1/abc");
           ("sms_notifications_enabled", VBool true)]
          (VToken false (VStr "42") []).

(** ** Product rows *)

Definition june (day : string) : value :=
  VDatetime ("2025-06-" ++ day ++ "T08:30:00").

(** Sixteen values, the first of them ["success"]. *)
Definition row_of_16 : row :=
  [VStr "success"; VStr "Products retrieved successfully"; VInt 7;
   VStr "https://www.amazon.com/dp/B000"; VStr "Kettle"; VStr "Amazon";
   VDecimal 2499 (-2); VNone; VNone; VStr ""; VInt 0; VStr "in_stock";
   june "12"; june "13"; VInt 0; june "15"].

(** The same with the two columns that complete the enhanced schema. *)
Definition row_of_18 : row :=
  (row_of_16 ++ [june "16"; VInt 3])%list.

(** Fourteen values, the first of them a product identifier. *)
Definition row_of_14 : row :=
  [VInt 7; VStr "https://www.amazon.com/dp/B000"; VStr "Kettle";
   VStr "Amazon"; VDecimal 2499 (-2); VNone; VNone; VStr "in_stock";
   june "08"; june "09"; VInt 0; june "11"; june "12"; VInt 3].

(** The enhanced rows as they look when timestamps arrive as text. *)
Definition row_with_text_timestamp : row :=
  [VStr "success"; VStr "Products retrieved successfully"; VInt 7;
   VStr "https://www.amazon.com/dp/B000"; VStr "Kettle"; VStr "Amazon";
   VDecimal 2499 (-2); VNone; VNone; VStr ""; VInt 0; VStr "in_stock";
   VStr "2025-06-12 08:30:00"; VNone; VInt 0; VNone; VNone; VInt 3].

(** A database whose enhanced procedure returns its timestamps as text. *)
Definition text_timestamps (q : string) (ps : params) : result (list row) :=
  if String.prefix "CALL get_user_products_with_data(" q
  then Ok [row_with_text_timestamp]
  else Ok [].

(** ** Reset tokens *)

(** A database that knows the reset token ["abc"] of the user 42. *)
Definition token_db (q : string) (ps : params) : result (list row) :=
  if String.prefix "CALL verify_password_reset_token(" q then
    match assoc "p_token" ps with
    | Some (VStr "abc") =>
        Ok [[VStr "success"; VStr "Token is valid"; VInt 42;
             VStr "alice@example.com"; VStr "Alice Doe"]]
    | _ => Ok [[VStr "error"; VStr "Invalid or expired token"]]
    end
  else if String.prefix "CALL reset_user_password(" q
  then Ok [[VStr "success"; VStr "Password updated"]]
  else Ok [].

Definition new_password_request : request :=
  post [("token", VStr " abc "); ("password", VStr "correct1horse")].

(** ** Product updates and settings *)

(** The token of the user 42 without its claims. *)
Definition bare_token : value := VToken false (VStr "42") [].

Definition cheap_request : request :=
  post_as [("min_price_alert", VStr "cheap")] bare_token.

(** A webhook that does not point to Discord. *)
Definition foreign_webhook_request : request :=
  post_as [("discord_webhook_url", VStr " https://example.org/hook ");
           ("min_price_alert", VInt 10)]
          bare_token.


(** A database in which neither procedure for products exists. *)
Definition no_product_procedures (q : string) (ps : params)
  : result (list row) :=
  if String.prefix "CALL get_user_products_with_data(" q then
    Raise (no_such_procedure "get_user_products_with_data")
  else if String.prefix "CALL get_user_products(" q then
    Raise (no_such_procedure "get_user_products")
  else Ok [].

(** Decimal addition for operands whose sum is exact. *)
Definition exact_decimals : Decimals := {|
  decimal_add := fun a b =>
    let e := Z.min (snd a) (snd b) in
    Ok (fst a * 10 ^ (snd a - e) + fst b * 10 ^ (snd b - e), e)
|}.

(** A database with six products in the enhanced format. *)
Definition six_products (q : string) (ps : params) : result (list row) :=
  if String.prefix "CALL get_user_products_with_data(" q
  then Ok (repeat row_of_18 6)
  else accounts (VInt 1) q ps.

(** A database without subscriptions: the procedure answers its status
    row alone. *)
Definition no_subscription (q : string) (ps : params) : result (list row) :=
  if String.prefix "CALL get_user_subscription_info(" q
  then Ok [[VStr "success"; VStr "No active subscription"]]
  else if String.prefix "CALL check_product_limit(" q
  then Ok [[VStr "success"; VStr "Limit checked"]]
  else accounts (VInt 1) q ps.

(** Two plans, one add-on, and a plan that comes after the add-on. *)
Definition plan_row (id : Z) (name : string) : row :=
  [VInt id; VStr name; VStr "subscription"; VDecimal 14500 (-2); VNone;
   VNone; VStr "price_plan"; VInt 1].

Definition addon_row : row :=
  [VInt 1; VStr "AI Enhancement"; VStr "Failsafe layers"; VDecimal 5000 (-2);
   VStr "price_addon"; VInt 1].

Definition plan_rows : list row :=
  [[VStr "success"; VStr "Plans retrieved"];
   plan_row 1 "Pay as you go"; plan_row 2 "Unlimited";
   addon_row; plan_row 3 "Late plan"].

(** A database that verifies Alice but cannot record her login. *)
Definition no_last_login (q : string) (ps : params) : result (list row) :=
  if String.prefix "CALL update_user_last_login(" q
  then Raise (no_such_procedure "update_user_last_login")
  else accounts (VInt 1) q ps.

(** A production environment that lacks the two secrets. *)
Definition no_secrets : Config.environ :=
  fun var =>
    if String.eqb var "FLASK_ENV" then Some "Production"
    else if String.eqb var "DB_HOST" then Some "db.internal"
    else if String.eqb var "DB_USERNAME" then Some "stock"
    else if String.eqb var "DB_PASSWORD" then Some "s3cret"
    else if String.eqb var "SECRET_KEY" then Some ""
    else None.

Definition carol_request : request :=
  post [("fullName", VStr " Carol Roe ");
        ("email", VStr " Carol@Example.COM");
        ("password", VStr "correct1horse")].


End Scenario.

(* ===================================================================== *)
(** * Reasoning about computations *)
(* ===================================================================== *)

Section MonadLaws.

Import Py Eff.

Context {A B : Type}.

Lemma bind_ok (m : M A) (k : A -> M B) t a :
  run m t = Ok a -> bind m k t = k a (calls m t).
Proof.
  unfold run, calls, bind. destruct (m t) as [r t']. cbn.
  intros ->. reflexivity.
Qed.

Lemma bind_raise (m : M A) (k : A -> M B) t e :
  run m t = Raise e -> bind m k t = (Raise e, calls m t).
Proof.
  unfold run, calls, bind. destruct (m t) as [r t']. cbn.
  intros ->. reflexivity.
Qed.

Lemma bind_lift_ok (a : A) (k : A -> M B) t : bind (lift (Ok a)) k t = k a t.
Proof. reflexivity. Qed.

Lemma bind_lift_raise e (k : A -> M B) t :
  bind (lift (Raise e)) k t = (Raise e, t).
Proof. reflexivity. Qed.

(** A handler wrapped in [try ... except Exception] never raises. *)
Lemma try_except_total (m : M A) (h : exn -> A) t :
  exists a, run (try_except m (fun e => ret (h e))) t = Ok a.
Proof.
  unfold run, try_except, ret. destruct (m t) as [[a|e] t']; cbn; eauto.
Qed.

End MonadLaws.

(* ===================================================================== *)
(** * [int(str(n))] *)
(* ===================================================================== *)

Section IntRoundTrip.

Import Py.

Lemma lstrip_no_blank blank l :
  Forall (fun c => blank c = false) l -> lstrip_by blank l = l.
Proof.
  intros H. destruct H as [|c l Hc Hl]; [reflexivity|].
  cbn. rewrite Hc. reflexivity.
Qed.

Lemma strip_no_blank blank l :
  Forall (fun c => blank c = false) l -> strip_by blank l = l.
Proof.
  intros H. unfold strip_by.
  rewrite (lstrip_no_blank blank l H).
  rewrite (lstrip_no_blank blank (rev l)) by (apply Forall_rev; exact H).
  apply rev_involutive.
Qed.

Lemma digits_no_space d :
  Forall (fun c => is_int_space c = false)
         (chars (NilEmpty.string_of_uint d)).
Proof.
  induction d; cbn; constructor; try reflexivity; assumption.
Qed.

Lemma parse_digits_acc d :
  forall acc,
    parse_digits (Zpos acc) true (chars (NilEmpty.string_of_uint d))
    = Some (Zpos (Pos.of_uint_acc d acc)).
Proof.
  induction d as [|d IH|d IH|d IH|d IH|d IH|d IH|d IH|d IH|d IH|d IH];
    intros acc; [reflexivity | ..];
    cbn [NilEmpty.string_of_uint chars list_ascii_of_string parse_digits
         Pos.of_uint_acc];
    change (is_digit _) with true; cbn iota; rewrite <- IH; f_equal;
    match goal with
    | |- context [digit_value ?c] =>
        let v := eval vm_compute in (digit_value c) in
        change (digit_value c) with v
    end; lia.
Qed.

Lemma parse_digits_zero d :
  forall prev,
    d <> Decimal.Nil \/ prev = true ->
    parse_digits 0 prev (chars (NilEmpty.string_of_uint d))
    = Some (Z.of_N (Pos.of_uint d)).
Proof.
  induction d as [|d IH|d IH|d IH|d IH|d IH|d IH|d IH|d IH|d IH|d IH];
    intros prev H.
  - destruct H as [H| ->]; [contradiction | reflexivity].
  - cbn [NilEmpty.string_of_uint chars list_ascii_of_string parse_digits
         Pos.of_uint].
    change (is_digit "0") with true. cbn iota.
    apply (IH true). right. reflexivity.
  - apply (parse_digits_acc d 1).
  - apply (parse_digits_acc d 2).
  - apply (parse_digits_acc d 3).
  - apply (parse_digits_acc d 4).
  - apply (parse_digits_acc d 5).
  - apply (parse_digits_acc d 6).
  - apply (parse_digits_acc d 7).
  - apply (parse_digits_acc d 8).
  - apply (parse_digits_acc d 9).
Qed.

Lemma parse_signed_digits d :
  d <> Decimal.Nil ->
  parse_signed (chars (NilEmpty.string_of_uint d))
  = parse_digits 0 false (chars (NilEmpty.string_of_uint d)).
Proof. destruct d; [contradiction | reflexivity ..]. Qed.

Lemma parse_signed_pos p :
  parse_signed (chars (NilEmpty.string_of_uint (Pos.to_uint p)))
  = Some (Zpos p).
Proof.
  pose proof (Unsigned.to_uint_nonnil p) as Hn.
  rewrite (parse_signed_digits _ Hn).
  rewrite (parse_digits_zero _ false) by (left; exact Hn).
  rewrite DecimalPos.Unsigned.of_to. reflexivity.
Qed.

Lemma string_of_uint_nonnil d :
  d <> Decimal.Nil ->
  NilZero.string_of_uint d = NilEmpty.string_of_uint d.
Proof. destruct d; [contradiction | reflexivity ..]. Qed.

(** Reading back the decimal text of an integer gives the integer. *)
Lemma int_of_str_str_int z : int_of_str (str_int z) = Ok z.
Proof.
  unfold int_of_str, str_int.
  destruct z as [|p|p]; [reflexivity | |]; cbn [Z.to_int NilZero.string_of_int];
    rewrite (string_of_uint_nonnil _ (Unsigned.to_uint_nonnil p)).
  - rewrite strip_no_blank by apply digits_no_space.
    rewrite parse_signed_pos. reflexivity.
  - cbn [chars list_ascii_of_string].
    rewrite strip_no_blank
      by (constructor; [reflexivity | apply digits_no_space]).
    cbn [parse_signed]. change (Nat.eqb (code "-") 45) with true. cbn iota.
    pose proof (parse_signed_pos p) as H.
    rewrite (parse_signed_digits _ (Unsigned.to_uint_nonnil p)) in H.
    fold (chars (NilEmpty.string_of_uint (Pos.to_uint p))).
    rewrite H. reflexivity.
Qed.

End IntRoundTrip.

(* ===================================================================== *)
(** * The matcher agrees with the words of an expression *)
(* ===================================================================== *)

Section Matcher.

Import Py Re.

Lemma nullable_word r : nullable r = true <-> word r [].
Proof.
  induction r as [| |p|r1 IH1 r2 IH2|r1 IH1 r2 IH2|r1 IH1]; cbn.
  - split; intros H; [discriminate | inversion H].
  - split; intros H; [constructor | reflexivity].
  - split; intros H; [discriminate | inversion H].
  - rewrite andb_true_iff, IH1, IH2. split.
    + intros [H1 H2]. change (@nil ascii) with (@nil ascii ++ [])%list.
      constructor; assumption.
    + intros H. inversion H as [| |? ? s1 s2 W1 W2| | | |]. subst.
      match goal with E : (s1 ++ s2)%list = [] |- _ =>
        apply app_eq_nil in E; destruct E; subst end.
      auto.
  - rewrite orb_true_iff, IH1, IH2. split.
    + intros [H|H]; [apply w_alt_l | apply w_alt_r]; assumption.
    + intros H. inversion H; subst; auto.
  - split; intros H; [constructor | reflexivity].
Qed.

Lemma word_star_cons_inv r c s :
  word (Star r) (c :: s) ->
  exists s1 s2, s = (s1 ++ s2)%list /\ word r (c :: s1) /\ word (Star r) s2.
Proof.
  intros H. remember (Star r) as r' eqn:Er. remember (c :: s) as w eqn:Ew.
  revert c s Ew.
  induction H as [| | | | | |r0 s1 s2 H1 _ H2 IH2]; try discriminate.
  intros c s Ew. injection Er as ->.
  destruct s1 as [|c1 s1'].
  - cbn in Ew. apply (IH2 eq_refl _ _ Ew).
  - cbn in Ew. injection Ew as E1 E2. subst. exists s1', s2. auto.
Qed.

Lemma deriv_word c r : forall s, word (deriv c r) s <-> word r (c :: s).
Proof.
  induction r as [| |p|r1 IH1 r2 IH2|r1 IH1 r2 IH2|r1 IH1]; intros s; cbn.
  - split; intros H; inversion H.
  - split; intros H; inversion H.
  - destruct (p c) eqn:Ep; split; intros H.
    + inversion H; subst. constructor. assumption.
    + inversion H; subst. constructor.
    + inversion H.
    + inversion H; subst. congruence.
  - assert (Hcat : word (Cat (deriv c r1) r2) s ->
                   word (Cat r1 r2) (c :: s)).
    { intros H. inversion H as [| |? ? s1 s2 W1 W2| | | |]; subst.
      change (c :: s1 ++ s2)%list with ((c :: s1) ++ s2)%list.
      constructor; [apply IH1|]; assumption. }
    assert (Hinv : word (Cat r1 r2) (c :: s) ->
                   word (Cat (deriv c r1) r2) s
                   \/ (word r1 [] /\ word r2 (c :: s))).
    { intros H. inversion H as [| |? ? s1 s2 W1 W2| | | |]; subst.
      match goal with E : (s1 ++ s2)%list = (c :: s)%list |- _ =>
        destruct s1 as [|c1 s1']; cbn in E;
        [subst; right; auto | injection E as E1 E2; subst; left] end.
      constructor; [apply IH1|]; assumption. }
    destruct (nullable r1) eqn:En; split; intros H.
    + inversion H; subst; [auto|].
      change (c :: s) with ([] ++ c :: s)%list.
      constructor; [apply nullable_word, En | apply IH2; assumption].
    + destruct (Hinv H) as [H'|[_ H']].
      * apply w_alt_l, H'.
      * apply w_alt_r, IH2, H'.
    + auto.
    + destruct (Hinv H) as [H'|[H' _]]; [assumption|].
      apply nullable_word in H'. congruence.
  - split; intros H; inversion H; subst.
    + apply w_alt_l, IH1. assumption.
    + apply w_alt_r, IH2. assumption.
    + apply w_alt_l, IH1. assumption.
    + apply w_alt_r, IH2. assumption.
  - split; intros H.
    + inversion H as [| |? ? s1 s2 W1 W2| | | |]; subst.
      change (c :: s1 ++ s2)%list with ((c :: s1) ++ s2)%list.
      constructor; [apply IH1|]; assumption.
    + apply word_star_cons_inv in H.
      destruct H as (s1 & s2 & -> & W1 & W2).
      constructor; [apply IH1|]; assumption.
Qed.

Lemma fullmatch_word r s : fullmatch_chars r s = true <-> word r s.
Proof.
  revert r. induction s as [|c s IH]; intros r; cbn.
  - apply nullable_word.
  - rewrite IH. apply deriv_word.
Qed.

Lemma word_any_star s : word (Star any_char) s.
Proof.
  induction s as [|c s IH]; [constructor|].
  change (c :: s) with ([c] ++ s)%list.
  constructor; [constructor; reflexivity | assumption].
Qed.

(** Searching for a character class is asking whether some character of
    the string is in it. *)
Lemma search_class p s : search (Class p) s = existsb p (chars s).
Proof.
  unfold search. generalize (chars s) as l. intros l.
  apply eq_true_iff_eq.
  rewrite fullmatch_word, existsb_exists. split.
  - intros H. inversion H as [| |? ? s1 s2 _ W2| | | |]; subst.
    inversion W2 as [| |? ? s3 s4 W3 _| | | |]; subst.
    inversion W3; subst. exists c. split; [|assumption].
    apply in_or_app. right. left. reflexivity.
  - intros (c & Hin & Hp). apply in_split in Hin.
    destruct Hin as (l1 & l2 & ->).
    constructor; [apply word_any_star|].
    change (c :: l2) with ([c] ++ l2)%list.
    constructor; [constructor; assumption | apply word_any_star].
Qed.

End Matcher.

(* ===================================================================== *)
(** * The procedure gateway *)
(* ===================================================================== *)

Section Gateway.

Import Py Eff Db.

Context {W : World}.

Variables (proc_name : string) (ps : params) (t : trace).

Let q := query_text proc_name ps.
Let t1 := record t (Execute q ps).
Let t2 := record t1 Commit.

(** The statement succeeds and so does the commit: nothing is rolled back,
    the session is closed last, and the rows come back as they were
    fetched. *)
Lemma call_procedure_success rows :
  on_execute t q ps = Ok rows ->
  on_commit t1 = Ok tt ->
  calls (call_procedure proc_name ps) t
    = (t ++ [Execute q ps; Commit; Close])%list
  /\ (on_close t2 = Ok tt -> run (call_procedure proc_name ps) t = Ok rows).
Proof.
  intros He Hc.
  unfold calls, run, call_procedure, try_finally, try_except, bind,
    session_execute, session_commit, session_close, ret.
  fold q. rewrite He. fold t1. rewrite Hc. cbn.
  unfold t1, record. rewrite <- !app_assoc. cbn.
  split.
  - destruct (on_close _) as [[]|e]; reflexivity.
  - intros Hcl. unfold t2, t1, record in Hcl.
    rewrite <- !app_assoc in Hcl. cbn in Hcl. rewrite Hcl. reflexivity.
Qed.

(** The statement itself fails: rollback, then close, and the error that
    was caught is the one that propagates. *)
Lemma call_procedure_execute_fails e :
  on_execute t q ps = Raise e ->
  calls (call_procedure proc_name ps) t
    = (t ++ [Execute q ps; Rollback; Close])%list
  /\ (on_rollback t1 = Ok tt -> on_close (record t1 Rollback) = Ok tt ->
      run (call_procedure proc_name ps) t = Raise e).
Proof.
  intros He.
  unfold calls, run, call_procedure, try_finally, try_except, bind,
    session_execute, session_commit, session_rollback, session_close,
    ret, raise.
  fold q. rewrite He. fold t1.
  split.
  - destruct (on_rollback t1) as [[]|e1]; cbn;
      destruct (on_close _) as [[]|e2]; cbn;
      unfold t1, record; rewrite <- !app_assoc; reflexivity.
  - intros Hr Hcl. rewrite Hr. cbn. rewrite Hcl. reflexivity.
Qed.

(** The commit fails: same treatment. *)
Lemma call_procedure_commit_fails rows e :
  on_execute t q ps = Ok rows ->
  on_commit t1 = Raise e ->
  calls (call_procedure proc_name ps) t
    = (t ++ [Execute q ps; Commit; Rollback; Close])%list
  /\ (on_rollback t2 = Ok tt -> on_close (record t2 Rollback) = Ok tt ->
      run (call_procedure proc_name ps) t = Raise e).
Proof.
  intros He Hc.
  unfold calls, run, call_procedure, try_finally, try_except, bind,
    session_execute, session_commit, session_rollback, session_close,
    ret, raise.
  fold q. rewrite He. fold t1. rewrite Hc. fold t2.
  split.
  - destruct (on_rollback t2) as [[]|e1]; cbn;
      destruct (on_close _) as [[]|e2]; cbn;
      unfold t2, t1, record; rewrite <- !app_assoc; reflexivity.
  - intros Hr Hcl. rewrite Hr. cbn. rewrite Hcl. reflexivity.
Qed.

(** Whatever the session answers, the last call made is [Close]. *)
Lemma call_procedure_closes :
  exists t', calls (call_procedure proc_name ps) t = (t' ++ [Close])%list.
Proof.
  unfold calls, call_procedure, try_finally, session_close.
  destruct (try_except _ _ t) as [r t'].
  exists t'. destruct (on_close t') as [[]|e]; reflexivity.
Qed.

(** The statement is handed to the session in every case. *)
Lemma call_procedure_executes :
  exists rest,
    calls (call_procedure proc_name ps) t
    = (t ++ Execute q ps :: rest)%list.
Proof.
  unfold calls, call_procedure, try_finally, try_except, bind,
    session_execute, session_commit, session_rollback, session_close,
    ret, raise.
  fold q. fold t1. unfold record.
  destruct (on_execute t q ps) as [rows|e].
  - destruct (on_commit t1) as [[]|e]; cbn.
    + destruct (on_close _) as [[]|e2]; cbn;
        unfold t1, record; rewrite <- !app_assoc; cbn; eauto.
    + destruct (on_rollback _) as [[]|e1]; cbn;
        destruct (on_close _) as [[]|e2]; cbn;
        unfold t1, record; rewrite <- !app_assoc; cbn; eauto.
  - destruct (on_rollback _) as [[]|e1]; cbn;
      destruct (on_close _) as [[]|e2]; cbn;
      unfold t1, record; rewrite <- !app_assoc; cbn; eauto.
Qed.

End Gateway.

Section GatewayContract.

Import Py Eff Db.

Context {W : World}.

(** C5.  [call_procedure]: when the statement and the commit succeed, the
    calls made are execute, commit, close, and the rows fetched are
    returned; when the statement or the commit fails, the calls end with
    rollback, close, and the error that was caught is raised again; and
    whatever the session answers, the last call is the close of the
    session. *)
Theorem call_procedure_commits_or_rolls_back_then_closes
    (proc_name : string) (ps : params) (t : trace) :
  let q := query_text proc_name ps in
  let t1 := record t (Execute q ps) in
  let t2 := record t1 Commit in
  (forall rows,
      on_execute t q ps = Ok rows -> on_commit t1 = Ok tt ->
      calls (call_procedure proc_name ps) t
        = (t ++ [Execute q ps; Commit; Close])%list
      /\ (on_close t2 = Ok tt ->
          run (call_procedure proc_name ps) t = Ok rows))
  /\ (forall e,
         on_execute t q ps = Raise e ->
         calls (call_procedure proc_name ps) t
           = (t ++ [Execute q ps; Rollback; Close])%list
         /\ (on_rollback t1 = Ok tt ->
             on_close (record t1 Rollback) = Ok tt ->
             run (call_procedure proc_name ps) t = Raise e))
  /\ (forall rows e,
         on_execute t q ps = Ok rows -> on_commit t1 = Raise e ->
         calls (call_procedure proc_name ps) t
           = (t ++ [Execute q ps; Commit; Rollback; Close])%list
         /\ (on_rollback t2 = Ok tt ->
             on_close (record t2 Rollback) = Ok tt ->
             run (call_procedure proc_name ps) t = Raise e))
  /\ exists t',
       calls (call_procedure proc_name ps) t = (t' ++ [Close])%list.
Proof.
  intros q t1 t2. repeat split.
  - apply (call_procedure_success proc_name ps t rows); assumption.
  - apply (call_procedure_success proc_name ps t rows); assumption.
  - apply (call_procedure_execute_fails proc_name ps t e); assumption.
  - apply (call_procedure_execute_fails proc_name ps t e); assumption.
  - apply (call_procedure_commit_fails proc_name ps t rows e); assumption.
  - apply (call_procedure_commit_fails proc_name ps t rows e); assumption.
  - apply call_procedure_closes.
Qed.

End GatewayContract.

(* ===================================================================== *)
(** * Login *)
(* ===================================================================== *)

Section Login.

Import Py Eff Db Http Auth Spec.

Context {L : Library} {W : World}.

Lemma assoc_some_truthy (d : list (string * value)) key v :
  assoc key d = Some v -> truthy (VDict d) = true.
Proof. destruct d; [discriminate | reflexivity]. Qed.

(** A well-formed login request reaches the verification procedure, and
    what the handler answers is decided by the rows that come back. *)
Lemma login_reaches_verdict email password req t rows :
  login_request email password req ->
  normalised email <> "" ->
  truthy password = true ->
  run (call_procedure "verify_user_login"
         [("p_email", VStr (normalised email))]) t = Ok rows ->
  login_body req t
  = login_verdict (normalised email) password rows
      (calls (call_procedure "verify_user_login"
                [("p_email", VStr (normalised email))]) t).
Proof.
  intros (d & (Hm & Hj) & He & Hp) Hne Hpw Hdb.
  unfold login_body. rewrite Hj. rewrite bind_lift_ok.
  rewrite (assoc_some_truthy _ _ _ He). cbn [negb].
  unfold get_stripped, dict_get. rewrite He, Hp. cbn [rbind v_strip].
  rewrite !bind_lift_ok. fold (normalised email).
  destruct (String.eqb_spec (normalised email) "") as [E|_];
    [contradiction|].
  rewrite Hpw. cbn [negb orb].
  apply bind_ok. exact Hdb.
Qed.



Lemma login_verdict_inactive email password t
      message user_id stored_hash full_name email_verified is_active more :
  check_password_hash stored_hash password = Ok true ->
  truthy is_active = false ->
  login_verdict email password
    (user_row message user_id stored_hash full_name email_verified is_active
       :: more) t
  = (Ok (reply 401 (error_body
           "Account is deactivated. Please contact support.")), t).
Proof.
  intros Hc Ha. unfold login_verdict, user_row. cbn [index nth_error].
  rewrite !bind_lift_ok. cbn [eq_str String.eqb Ascii.eqb Bool.eqb negb].
  rewrite !bind_lift_ok. rewrite Hc. rewrite bind_lift_ok. cbn [negb].
  rewrite Ha. reflexivity.
Qed.

Lemma login_not_options req t :
  method req <> "OPTIONS" ->
  login req t
  = try_except (login_body req)
      (fun e => ret (reply 500 (error_body
                       "Internal server error during login"))) t.
Proof.
  intros H. unfold login.
  destruct (String.eqb_spec (method req) "OPTIONS"); [contradiction|].
  reflexivity.
Qed.

End Login.

Section LoginClaims.

Import Py Eff Db Http Auth Spec.

Context {L : Library} {W : World}.


(** C9.  A login for an account that exists, with the matching password,
    but whose active flag is not set, is answered with status 401 and the
    body [{"error": "Account is deactivated. Please contact support."}],
    which is not the body used for invalid credentials. *)
Theorem login_inactive_account_distinguished
    req email password t
    message user_id stored_hash full_name email_verified is_active more :
  login_request email password req ->
  normalised email <> "" ->
  truthy password = true ->
  run (call_procedure "verify_user_login"
         [("p_email", VStr (normalised email))]) t
  = Ok (user_row message user_id stored_hash full_name email_verified
          is_active :: more) ->
  check_password_hash stored_hash password = Ok true ->
  truthy is_active = false ->
  run (login req) t
  = Ok (reply 401
          (VDict [("error",
                   VStr "Account is deactivated. Please contact support.")]))
  /\ VDict [("error",
             VStr "Account is deactivated. Please contact support.")]
     <> VDict [("error", VStr "Invalid email or password")].
Proof.
  intros R N P D C A.
  assert (M : method req <> "OPTIONS") by (destruct R as (? & [? ?] & ?); assumption).
  split; [|discriminate].
  unfold run. rewrite login_not_options by assumption.
  unfold try_except.
  rewrite (login_reaches_verdict _ _ _ _ _ R N P D).
  rewrite (login_verdict_inactive _ _ _ _ _ _ _ _ _ _ C A).
  reflexivity.
Qed.

End LoginClaims.

Section LoginScenarios.

Import Py Eff Db Http Auth Spec Scenario.


Lemma login_inactive_account_distinguished_witness :
  @run response
    (@login plain (table (accounts (VInt 0)))
       (post [("email", VStr "alice@example.com");
              ("password", VStr "correct1horse")]))
    []
  = Ok (reply 401
          (VDict [("error",
                   VStr "Account is deactivated. Please contact support.")]))
  /\ VDict [("error",
             VStr "Account is deactivated. Please contact support.")]
     <> VDict [("error", VStr "Invalid email or password")].
Proof.
  apply (@login_inactive_account_distinguished plain
           (table (accounts (VInt 0)))
           _ "alice@example.com" (VStr "correct1horse") []
           (VStr "User found") (VInt 42) (VStr (plain_hash "correct1horse"))
           (VStr "Alice Doe") (VInt 1) (VInt 0) []).
  - eexists. split; [split; [discriminate | reflexivity] |].
    split; reflexivity.
  - discriminate.
  - reflexivity.
  - reflexivity.
  - reflexivity.
  - reflexivity.
Defined.

End LoginScenarios.

(* ===================================================================== *)
(** * Registration *)
(* ===================================================================== *)

Section Register.

Import Py Re Eff Db Http Auth Spec.

Context {L : Library} {W : World}.

Lemma existsb_false_iff {A} (p : A -> bool) l :
  existsb p l = false <-> (forall x, In x l -> p x = false).
Proof.
  induction l as [|a l IH]; cbn.
  - split; [intros _ x [] | reflexivity].
  - rewrite orb_false_iff, IH. split.
    + intros [Ha Hl] x [<-|Hx]; auto.
    + intros H. split; [apply H; left; reflexivity|].
      intros x Hx. apply H. right. assumption.
Qed.

(** What [validate_password] answers on a string. *)
Lemma validate_password_str s :
  validate_password (VStr s)
  = Ok (if Nat.ltb (len s) 8
        then (false, "Password must be at least 8 characters long")
        else if negb (existsb is_ascii_letter (chars s))
        then (false, "Password must contain at least one letter")
        else if negb (existsb is_digit (chars s))
        then (false, "Password must contain at least one number")
        else (true, "Password is valid")).
Proof.
  unfold validate_password. cbn [py_len rbind v_search].
  rewrite !search_class.
  destruct (Nat.ltb (len s) 8); [reflexivity|].
  destruct (existsb is_ascii_letter (chars s)); [|reflexivity].
  cbn [negb]. destruct (existsb is_digit (chars s)); reflexivity.
Qed.

Lemma len_pos_nonempty s : (1 <= len s)%nat -> String.eqb s "" = false.
Proof. destruct s; cbn; [lia | reflexivity]. Qed.

Lemma validate_email_nonempty s :
  validate_email s = true -> String.eqb s "" = false.
Proof. destruct s; [discriminate | reflexivity]. Qed.

(** A request that passes the checks on the name and on the address gets
    as far as the check of the password. *)
Lemma register_reaches_password_check req d full_name email password t :
  posts d req ->
  assoc "fullName" d = Some (VStr full_name) ->
  assoc "email" d = Some (VStr email) ->
  assoc "password" d = Some password ->
  (2 <= len (strip full_name))%nat ->
  validate_email (normalised email) = true ->
  forall ok message,
    validate_password password = Ok (ok, message) ->
    ok = false ->
    register req t
    = (Ok (reply 400 (VDict [("error", VStr message)])), t).
Proof.
  intros [Hm Hj] Hn He Hp Hlen Hmail ok message Hv ->.
  unfold register.
  destruct (String.eqb_spec (method req) "OPTIONS"); [contradiction|].
  unfold try_except, register_body. rewrite Hj, bind_lift_ok.
  rewrite (assoc_some_truthy _ _ _ He). cbn [negb].
  unfold get_stripped, dict_get. rewrite Hn, He, Hp.
  cbn [rbind v_strip]. rewrite !bind_lift_ok.
  fold (normalised email).
  rewrite (len_pos_nonempty (strip full_name)) by lia.
  destruct (Nat.ltb_spec (len (strip full_name)) 2); [lia|].
  cbn [orb]. rewrite (validate_email_nonempty _ Hmail), Hmail.
  cbn [orb negb]. rewrite Hv. reflexivity.
Qed.

Ltac settle_message :=
  intros;
  repeat match goal with
         | H : forall c : ascii, In c _ -> _ c = false |- _ =>
             apply (proj2 (existsb_false_iff _ _)) in H
         | H : ~ (forall c : ascii, In c _ -> _ c = false) |- _ =>
             exfalso; apply H; apply existsb_false_iff; assumption
         end;
  try reflexivity; try lia; try congruence.

(** C4.  A registration request whose name and address pass validation
    and whose password has fewer than 8 characters, or no letter, or no
    digit, is answered with status 400 and the message of the first check
    that fails, and no call leaves the process: [create_user_account] is
    not invoked. *)
Theorem register_rejects_weak_password
    req d full_name email password t :
  posts d req ->
  assoc "fullName" d = Some (VStr full_name) ->
  assoc "email" d = Some (VStr email) ->
  assoc "password" d = Some (VStr password) ->
  (2 <= len (strip full_name))%nat ->
  validate_email (normalised email) = true ->
  (len password < 8)%nat
  \/ (forall c, In c (chars password) -> is_ascii_letter c = false)
  \/ (forall c, In c (chars password) -> is_digit c = false) ->
  exists message,
    run (register req) t = Ok (reply 400 (VDict [("error", VStr message)]))
    /\ calls (register req) t = t
    /\ ((len password < 8)%nat ->
        message = "Password must be at least 8 characters long")
    /\ ((8 <= len password)%nat ->
        (forall c, In c (chars password) -> is_ascii_letter c = false) ->
        message = "Password must contain at least one letter")
    /\ ((8 <= len password)%nat ->
        ~ (forall c, In c (chars password) -> is_ascii_letter c = false) ->
        (forall c, In c (chars password) -> is_digit c = false) ->
        message = "Password must contain at least one number").
Proof.
  intros Hreq Hn He Hp Hlen Hmail Hweak.
  pose proof (validate_password_str password) as Hv.
  rewrite <- !existsb_false_iff in *.
  destruct (Nat.ltb_spec (len password) 8) as [Hshort|Hlong].
  - exists "Password must be at least 8 characters long".
    unfold run, calls.
    rewrite (register_reaches_password_check _ _ _ _ _ _ Hreq Hn He Hp Hlen
               Hmail _ _ Hv eq_refl).
    repeat split; settle_message.
  - destruct (existsb is_ascii_letter (chars password)) eqn:El.
    + destruct (existsb is_digit (chars password)) eqn:Ed.
      * exfalso. destruct Hweak as [H|[H|H]]; [lia | congruence ..].
      * exists "Password must contain at least one number".
        unfold run, calls.
        rewrite (register_reaches_password_check _ _ _ _ _ _ Hreq Hn He Hp
                   Hlen Hmail _ _ Hv eq_refl).
        repeat split; settle_message.
    + exists "Password must contain at least one letter".
      unfold run, calls.
      rewrite (register_reaches_password_check _ _ _ _ _ _ Hreq Hn He Hp
                 Hlen Hmail _ _ Hv eq_refl).
      repeat split; settle_message.
Qed.

End Register.

Section RegisterScenarios.

Import Py Re Eff Db Http Auth Spec Scenario.

Lemma register_rejects_weak_password_witness :
  exists message,
    @run response
      (@register (table (accounts (VInt 1)))
         (post [("fullName", VStr "Carol Roe");
                ("email", VStr "carol@example.com");
                ("password", VStr "longenough")])) []
    = Ok (reply 400 (VDict [("error", VStr message)]))
    /\ message = "Password must contain at least one number".
Proof.
  destruct (@register_rejects_weak_password (table (accounts (VInt 1)))
              (post [("fullName", VStr "Carol Roe");
                     ("email", VStr "carol@example.com");
                     ("password", VStr "longenough")])
              [("fullName", VStr "Carol Roe");
               ("email", VStr "carol@example.com");
               ("password", VStr "longenough")]
              "Carol Roe" "carol@example.com" "longenough" [])
    as (message & Hrun & _ & _ & _ & Hdigit).
  - split; [discriminate | reflexivity].
  - reflexivity.
  - reflexivity.
  - reflexivity.
  - vm_compute. lia.
  - reflexivity.
  - right. right. intros c Hc. cbn in Hc.
    repeat (destruct Hc as [<-|Hc]; [reflexivity|]). destruct Hc.
  - exists message. split; [exact Hrun|].
    apply Hdigit.
    + vm_compute. lia.
    + intros H. specialize (H "l"%char). cbn in H.
      assert (E : is_ascii_letter "l" = false) by (apply H; auto).
      discriminate E.
    + intros c Hc. cbn in Hc.
      repeat (destruct Hc as [<-|Hc]; [reflexivity|]). destruct Hc.
Defined.

End RegisterScenarios.

(* ===================================================================== *)
(** * Decoding of product rows *)
(* ===================================================================== *)

Section Decode.

Import Py Eff Db Http Dashboard Spec.

Context {L : Library}.

Ltac use_conversions :=
  repeat match goal with
         | H : converts_price _ |- _ => destruct H as [? H]
         | H : converts_time _ |- _ => destruct H as [? H]
         end.

Lemma is_status_row_length r :
  List.length r <> 2%nat -> is_status_row r = false.
Proof.
  intros H. unfold is_status_row.
  destruct (Nat.eqb_spec (List.length r) 2); [contradiction|].
  apply andb_false_r.
Qed.

(** Rows of 17 values or more that start with ["success"]: the enhanced
    schema. *)
Lemma decode_row_enhanced c1 c2 c3 c4 c5 c6 c7 c8 c9 c10 c11 c12 c13 c14
      c15 c16 rest :
  converts_price c6 -> converts_price c7 -> converts_price c8 ->
  converts_time c12 -> converts_time c13 ->
  converts_time c15 -> converts_time c16 ->
  exists product created_at,
    decode_row (VStr "success" :: c1 :: c2 :: c3 :: c4 :: c5 :: c6 :: c7
                  :: c8 :: c9 :: c10 :: c11 :: c12 :: c13 :: c14 :: c15
                  :: c16 :: rest)
    = Ok (Some product)
    /\ field "status" product = Some c11
    /\ iso_or_none c15 = Ok created_at
    /\ field "created_at" product = Some created_at.
Proof.
  intros. use_conversions.
  unfold decode_row. rewrite is_status_row_length by (cbn; lia).
  unfold product_enhanced, at_if_longer.
  cbn [List.length Nat.leb Nat.ltb Nat.eqb nth eq_str String.eqb
       Ascii.eqb Bool.eqb andb index nth_error rbind rcatch].
  repeat match goal with H : _ = Ok _ |- _ => rewrite H end.
  cbn [rbind].
  destruct rest as [|c17 rest']; cbn [List.length Nat.leb nth_error rbind rcatch];
    eexists _, _; (split; [reflexivity|]); cbn [field assoc String.eqb Ascii.eqb Bool.eqb];
    auto.
Qed.

Lemma nth_error_longer {A} (r : list A) i v :
  nth_error r i = Some v -> Nat.ltb i (List.length r) = true.
Proof.
  intros H. apply Nat.ltb_lt. apply nth_error_Some. congruence.
Qed.

Lemma at_if_longer_at r i v default :
  nth_error r i = Some v -> at_if_longer r i default = Ok v.
Proof.
  intros H. unfold at_if_longer, index.
  rewrite (nth_error_longer _ _ _ H), H. reflexivity.
Qed.

Lemma at_if_longer_and_set_at r i v default :
  nth_error r i = Some v ->
  at_if_longer_and_set r i default = Ok (or_default v default).
Proof.
  intros H. unfold at_if_longer_and_set, index, or_default.
  rewrite (nth_error_longer _ _ _ H), H. cbn [rbind].
  destruct (truthy v); reflexivity.
Qed.

Lemma iso_if_longer_and_set_at r i v :
  nth_error r i = Some v -> iso_if_longer_and_set r i = iso_or_none v.
Proof.
  intros H. unfold iso_if_longer_and_set, index, iso_or_none.
  rewrite (nth_error_longer _ _ _ H), H. cbn [rbind].
  destruct (truthy v); reflexivity.
Qed.

(** Rows of 16 values or more that do not start with ["success"]: the
    other enhanced mapping. *)
Lemma decode_row_alternate c0 c1 c2 c3 c4 c5 c6 c7 c8 c9 c10 c11 c12 c13
      c14 c15 rest :
  eq_str c0 "success" = false ->
  converts_price c4 -> converts_price c5 -> converts_price c6 ->
  converts_time c9 -> converts_time c10 ->
  converts_time c12 -> converts_time c13 ->
  exists product created_at,
    decode_row (c0 :: c1 :: c2 :: c3 :: c4 :: c5 :: c6 :: c7 :: c8 :: c9
                  :: c10 :: c11 :: c12 :: c13 :: c14 :: c15 :: rest)
    = Ok (Some product)
    /\ iso_or_none c12 = Ok created_at
    /\ field "created_at" product = Some created_at.
Proof.
  intros Hfirst. intros. use_conversions.
  unfold decode_row. rewrite is_status_row_length by (cbn; lia).
  unfold product_alternate.
  rewrite (at_if_longer_and_set_at _ 7 c7) by reflexivity.
  rewrite (at_if_longer_at _ 8 c8) by reflexivity.
  rewrite (iso_if_longer_and_set_at _ 9 c9) by reflexivity.
  rewrite (iso_if_longer_and_set_at _ 10 c10) by reflexivity.
  rewrite (at_if_longer_and_set_at _ 11 c11) by reflexivity.
  rewrite (iso_if_longer_and_set_at _ 12 c12) by reflexivity.
  rewrite (iso_if_longer_and_set_at _ 13 c13) by reflexivity.
  rewrite (at_if_longer_at _ 14 c14) by reflexivity.
  cbn [List.length Nat.leb Nat.ltb index nth_error rbind].
  rewrite Hfirst. cbn [andb].
  repeat match goal with H : _ = Ok _ |- _ => rewrite H end.
  cbn [rbind rcatch].
  eexists _, _. split; [reflexivity|]. split; reflexivity.
Qed.

(** Rows of 14 values, whatever they start with: the mapping of the old
    procedure. *)
Lemma decode_row_old_14 c0 c1 c2 c3 c4 c5 c6 c7 c8 c9 c10 c11 c12 c13 :
  converts_price c4 -> converts_price c5 -> converts_price c6 ->
  converts_time c8 -> converts_time c9 ->
  converts_time c11 -> converts_time c12 ->
  exists product created_at,
    decode_row [c0; c1; c2; c3; c4; c5; c6; c7; c8; c9; c10; c11; c12; c13]
    = Ok (Some product)
    /\ field "status" product = Some c7
    /\ iso_or_none c11 = Ok created_at
    /\ field "created_at" product = Some created_at.
Proof.
  intros. use_conversions.
  unfold decode_row. rewrite is_status_row_length by (cbn; lia).
  unfold product_old. rewrite (at_if_longer_at _ 13 c13) by reflexivity.
  cbn [List.length Nat.leb Nat.ltb index nth_error rbind].
  repeat match goal with H : _ = Ok _ |- _ => rewrite H end.
  cbn [rbind rcatch].
  eexists _, _. split; [reflexivity|]. repeat split; reflexivity.
Qed.

(** Rows of exactly 16 values that start with ["success"] never yield a
    product: the enhanced mapping reads position 16. *)
Lemma decode_row_16_no_product c1 c2 c3 c4 c5 c6 c7 c8 c9 c10 c11 c12 c13
      c14 c15 product :
  decode_row [VStr "success"; c1; c2; c3; c4; c5; c6; c7; c8; c9; c10; c11;
              c12; c13; c14; c15]
  <> Ok (Some product).
Proof.
  unfold decode_row. rewrite is_status_row_length by (cbn; lia).
  unfold product_enhanced.
  cbn [List.length Nat.leb Nat.ltb Nat.eqb nth eq_str String.eqb
       Ascii.eqb Bool.eqb andb index nth_error rbind].
  destruct (float_or_none c6) as [?|e]; cbn [rbind rcatch];
    [|destruct (is_index_type_value e); discriminate].
  destruct (float_or_none c7) as [?|e]; cbn [rbind rcatch];
    [|destruct (is_index_type_value e); discriminate].
  destruct (float_or_none c8) as [?|e]; cbn [rbind rcatch];
    [|destruct (is_index_type_value e); discriminate].
  destruct (iso_or_none c12) as [?|e]; cbn [rbind rcatch];
    [|destruct (is_index_type_value e); discriminate].
  destruct (iso_or_none c13) as [?|e]; cbn [rbind rcatch];
    [|destruct (is_index_type_value e); discriminate].
  destruct (iso_or_none c15) as [?|e]; cbn [rbind rcatch];
    [|destruct (is_index_type_value e); discriminate].
  cbn. discriminate.
Qed.

(** C1, as the code has it.  A row of 17 values or more whose first value
    is ["success"] is decoded with the enhanced schema: [status] is the
    value at position 11 and [created_at] comes from position 15.  A row
    of 16 values or more whose first value is not ["success"] is decoded
    with the other enhanced mapping: [created_at] comes from position 12.
    A row of 14 values is decoded with the mapping of the old procedure:
    [status] is the value at position 7 and [created_at] comes from
    position 11.  In each case the price and timestamp columns of the
    mapping are taken to convert. *)
Theorem decode_row_by_length :
  (forall c1 c2 c3 c4 c5 c6 c7 c8 c9 c10 c11 c12 c13 c14 c15 c16 rest,
      converts_price c6 -> converts_price c7 -> converts_price c8 ->
      converts_time c12 -> converts_time c13 ->
      converts_time c15 -> converts_time c16 ->
      exists product created_at,
        decode_row (VStr "success" :: c1 :: c2 :: c3 :: c4 :: c5 :: c6
                      :: c7 :: c8 :: c9 :: c10 :: c11 :: c12 :: c13 :: c14
                      :: c15 :: c16 :: rest)
        = Ok (Some product)
        /\ field "status" product = Some c11
        /\ iso_or_none c15 = Ok created_at
        /\ field "created_at" product = Some created_at)
  /\ (forall c0 c1 c2 c3 c4 c5 c6 c7 c8 c9 c10 c11 c12 c13 c14 c15 rest,
         eq_str c0 "success" = false ->
         converts_price c4 -> converts_price c5 -> converts_price c6 ->
         converts_time c9 -> converts_time c10 ->
         converts_time c12 -> converts_time c13 ->
         exists product created_at,
           decode_row (c0 :: c1 :: c2 :: c3 :: c4 :: c5 :: c6 :: c7 :: c8
                         :: c9 :: c10 :: c11 :: c12 :: c13 :: c14 :: c15
                         :: rest)
           = Ok (Some product)
           /\ iso_or_none c12 = Ok created_at
           /\ field "created_at" product = Some created_at)
  /\ (forall c0 c1 c2 c3 c4 c5 c6 c7 c8 c9 c10 c11 c12 c13,
         converts_price c4 -> converts_price c5 -> converts_price c6 ->
         converts_time c8 -> converts_time c9 ->
         converts_time c11 -> converts_time c12 ->
         exists product created_at,
           decode_row [c0; c1; c2; c3; c4; c5; c6; c7; c8; c9; c10; c11;
                       c12; c13]
           = Ok (Some product)
           /\ field "status" product = Some c7
           /\ iso_or_none c11 = Ok created_at
           /\ field "created_at" product = Some created_at).
Proof.
  split; [|split].
  - intros. apply decode_row_enhanced; assumption.
  - intros. apply decode_row_alternate; assumption.
  - intros. apply decode_row_old_14; assumption.
Qed.

End Decode.

Section DecodeScenarios.

Import Py Eff Db Http Dashboard Spec Scenario.

Example decode_row_of_18 :
  exists product,
    @decode_row plain row_of_18 = Ok (Some product)
    /\ field "status" product = Some (VStr "in_stock")
    /\ field "created_at" product = Some (VStr "2025-06-15T08:30:00").
Proof. eexists. repeat split. Qed.

(** The claim C1 as it was stated does not hold: a row of 16 values that
    starts with ["success"] yields no product, because the enhanced
    mapping reads position 16; and a row of 14 values is decoded with the
    mapping of the old procedure, whose [created_at] is position 11, not
    position 12. *)
Lemma decode_row_16_and_14 :
  @decode_row plain row_of_16 = Ok None
  /\ exists product,
       @decode_row plain row_of_14 = Ok (Some product)
       /\ field "created_at" product = Some (VStr "2025-06-11T08:30:00")
       /\ nth_error row_of_14 12 = Some (VDatetime "2025-06-12T08:30:00")
       /\ field "created_at" product <> Some (VStr "2025-06-12T08:30:00").
Proof.
  split; [reflexivity|].
  eexists. split; [reflexivity|]. repeat split. discriminate.
Qed.

Lemma decode_row_by_length_witness :
  exists product,
    @decode_row plain row_of_18 = Ok (Some product)
    /\ field "status" product = Some (VStr "in_stock")
    /\ field "created_at" product = Some (VStr "2025-06-15T08:30:00").
Proof.
  destruct (@decode_row_by_length plain) as [Henh _].
  destruct (Henh (VStr "Products retrieved successfully") (VInt 7)
              (VStr "https://www.amazon.com/dp/B000") (VStr "Kettle")
              (VStr "Amazon") (VDecimal 2499 (-2)) VNone VNone (VStr "")
              (VInt 0) (VStr "in_stock") (june "12") (june "13") (VInt 0)
              (june "15") (june "16") [VInt 3])
    as (product & created_at & Hrow & Hstatus & Hiso & Hcreated);
    try (eexists; reflexivity).
  exists product. split; [exact Hrow|]. split; [exact Hstatus|].
  rewrite Hcreated. f_equal.
  cbn in Hiso. injection Hiso as <-. reflexivity.
Defined.

End DecodeScenarios.

(* ===================================================================== *)
(** * Fallback from the enhanced procedures to the old ones *)
(* ===================================================================== *)

Section Fallback.

Import Py Eff Db Http Dashboard Spec.

Context {L : Library} {W : World}.

(** A request that passes the checks reaches the two procedures. *)
Lemma add_product_reaches_store req identity uid url title discord sms t :
  add_product_request req identity uid url title discord sms ->
  add_product req t
  = try_except
      (bind (store_product uid url title discord sms)
            (add_product_verdict uid url title))
      (fun e => ret (reply 500 (error_body "Failed to add product"))) t.
Proof.
  intros (Hm & (claims & Ha) & Hid & d & url0 & title0 & discord0 & Hj & Ht
          & Hu & Hti & Hd & Hs & -> & -> & Hne & Hv & Hdis & Htitle).
  unfold add_product, jwt_required.
  destruct (String.eqb_spec (method req) "OPTIONS"); [contradiction|].
  rewrite Ha. cbn [Bool.eqb]. unfold add_product_view.
  destruct (String.eqb_spec (method req) "OPTIONS"); [contradiction|].
  unfold try_except, add_product_body.
  rewrite Hid, bind_lift_ok, Hj, bind_lift_ok, Ht. cbn [negb].
  rewrite Hu, Hti, Hd, Hs. cbn [rbind v_strip]. rewrite !bind_lift_ok.
  destruct (String.eqb_spec (strip url0) ""); [contradiction|].
  rewrite Hv. cbn [negb].
  assert (Hd' : (negb (String.eqb (strip discord0) "")
                 && negb (is_discord_webhook (strip discord0)))%bool = false).
  { destruct Hdis as [->| ->]; [reflexivity|]. apply andb_false_r. }
  rewrite Hd'.
  destruct (String.eqb (strip title0) "").
  - destruct Htitle as [store Hx]. rewrite Hx. reflexivity.
  - subst title. reflexivity.
Qed.

(** The response is built from the rows alone. *)
Lemma add_product_verdict_pure uid url title rows t :
  add_product_verdict uid url title rows t
  = (run (add_product_verdict uid url title rows) [], t).
Proof.
  unfold run, add_product_verdict. destruct rows as [|row rest].
  - reflexivity.
  - unfold bind, lift, ret.
    destruct (index row 0) as [status|]; [|reflexivity].
    destruct (index row 1) as [message|]; [|reflexivity].
    destruct (negb (eq_str status "success")); [reflexivity|].
    destruct (at_if_longer row 2 VNone); reflexivity.
Qed.

(** When the enhanced procedure raises, [store_product] goes on with the
    old one. *)
Lemma store_product_falls_back uid url title discord sms t e :
  run (call_procedure "add_user_product_with_webhook"
         (enhanced_add_params uid url title discord sms)) t = Raise e ->
  store_product uid url title discord sms t
  = call_procedure "add_user_product" (old_add_params uid url title)
      (calls (call_procedure "add_user_product_with_webhook"
                (enhanced_add_params uid url title discord sms)) t).
Proof.
  unfold run, calls, store_product, try_except.
  fold (enhanced_add_params uid url title discord sms).
  fold (old_add_params uid url title).
  destruct (call_procedure "add_user_product_with_webhook" _ t) as [r t'].
  cbn. intros ->. reflexivity.
Qed.

Lemma store_product_enhanced uid url title discord sms t rows :
  run (call_procedure "add_user_product_with_webhook"
         (enhanced_add_params uid url title discord sms)) t = Ok rows ->
  store_product uid url title discord sms t
  = (Ok rows,
     calls (call_procedure "add_user_product_with_webhook"
              (enhanced_add_params uid url title discord sms)) t).
Proof.
  unfold run, calls, store_product, try_except.
  fold (enhanced_add_params uid url title discord sms).
  destruct (call_procedure "add_user_product_with_webhook" _ t) as [r t'].
  cbn. intros ->. reflexivity.
Qed.

(** The nested fallback of the read path. *)
Lemma fetch_products_falls_back uid t e :
  run (call_procedure "get_user_products_with_data"
         [("p_user_id", VInt uid)]) t = Raise e ->
  let t' := calls (call_procedure "get_user_products_with_data"
                     [("p_user_id", VInt uid)]) t in
  calls (fetch_products uid) t
  = calls (call_procedure "get_user_products" [("p_user_id", VInt uid)]) t'
  /\ run (fetch_products uid) t
     = Ok (match run (call_procedure "get_user_products"
                        [("p_user_id", VInt uid)]) t' with
           | Ok rows => Some rows
           | Raise _ => None
           end).
Proof.
  unfold run, calls, fetch_products, try_except, bind, ret.
  destruct (call_procedure "get_user_products_with_data" _ t) as [r t'].
  cbn. intros ->.
  destruct (call_procedure "get_user_products" _ t') as [[rows|e2] t''];
    split; reflexivity.
Qed.

End Fallback.

Section FallbackClaim.

Import Py Eff Db Http Dashboard Spec.

Context {L : Library}.

Variables W1 W2 : World.

(** C10.  When [add_user_product_with_webhook] raises, [add_product] goes
    on with [add_user_product], whose parameters are the user, the URL and
    the title only: the Discord webhook URL and the SMS flag are not among
    them.  The response is the one the handler gives when the enhanced
    procedure returns the same rows, so nothing in it tells the two cases
    apart.  [get_user_products] falls back in the same way for reads: when
    [get_user_products_with_data] raises, the rows are those of
    [get_user_products], or none at all when that raises too. *)
Theorem add_product_fallback_is_silent
    req identity uid url title discord sms t1 t2 e rows :
  add_product_request req identity uid url title discord sms ->
  @run _ (@call_procedure W1 "add_user_product_with_webhook"
            (enhanced_add_params uid url title discord sms)) t1 = Raise e ->
  @run _ (@call_procedure W1 "add_user_product"
            (old_add_params uid url title))
       (@calls _ (@call_procedure W1 "add_user_product_with_webhook"
                    (enhanced_add_params uid url title discord sms)) t1)
  = Ok rows ->
  @run _ (@call_procedure W2 "add_user_product_with_webhook"
            (enhanced_add_params uid url title discord sms)) t2 = Ok rows ->
  @calls _ (@add_product L W1 req) t1
  = @calls _ (@call_procedure W1 "add_user_product"
                (old_add_params uid url title))
      (@calls _ (@call_procedure W1 "add_user_product_with_webhook"
                   (enhanced_add_params uid url title discord sms)) t1)
  /\ In (Execute
           "CALL add_user_product(:p_user_id, :p_product_url, :p_product_title)"
           [("p_user_id", VInt uid); ("p_product_url", VStr url);
            ("p_product_title", VStr title)])
        (@calls _ (@add_product L W1 req) t1)
  /\ @run _ (@add_product L W1 req) t1 = @run _ (@add_product L W2 req) t2
  /\ (forall user t e1,
         @run _ (@call_procedure W1 "get_user_products_with_data"
                   [("p_user_id", VInt user)]) t = Raise e1 ->
         @run _ (@fetch_products W1 user) t
         = Ok (match @run _ (@call_procedure W1 "get_user_products"
                               [("p_user_id", VInt user)])
                       (@calls _ (@call_procedure W1
                                    "get_user_products_with_data"
                                    [("p_user_id", VInt user)]) t)
               with
               | Ok old_rows => Some old_rows
               | Raise _ => None
               end)).
Proof.
  intros Hreq Henh Hold Henh2.
  pose proof (@add_product_reaches_store L W1 _ _ _ _ _ _ _ t1 Hreq) as E1.
  pose proof (@add_product_reaches_store L W2 _ _ _ _ _ _ _ t2 Hreq) as E2.
  set (t1' := @calls _ (@call_procedure W1 "add_user_product_with_webhook"
                          (enhanced_add_params uid url title discord sms))
                t1) in *.
  set (answer :=
         match @run _ (add_product_verdict uid url title rows) [] with
         | Ok a => Ok a
         | Raise _ => Ok (reply 500 (error_body "Failed to add product"))
         end).
  assert (C1 : @add_product L W1 req t1
               = (answer,
                  @calls _ (@call_procedure W1 "add_user_product"
                              (old_add_params uid url title)) t1')).
  { rewrite E1. unfold try_except, bind.
    rewrite (@store_product_falls_back W1 _ _ _ _ _ _ _ Henh).
    fold t1'. revert Hold. unfold run at 1, calls at 1.
    generalize (@call_procedure W1 "add_user_product"
                  (old_add_params uid url title) t1').
    intros [r t']. cbn. intros ->. rewrite add_product_verdict_pure.
    unfold answer.
    destruct (@run _ (add_product_verdict uid url title rows) []);
      reflexivity. }
  assert (C2 : @run _ (@add_product L W2 req) t2 = answer).
  { unfold run at 1. rewrite E2. unfold try_except, bind.
    rewrite (@store_product_enhanced W2 _ _ _ _ _ _ _ Henh2).
    rewrite add_product_verdict_pure.
    unfold answer.
    destruct (@run _ (add_product_verdict uid url title rows) []);
      reflexivity. }
  split; [|split; [|split]].
  - unfold calls at 1. rewrite C1. reflexivity.
  - unfold calls at 1. rewrite C1. cbn [snd].
    destruct (@call_procedure_executes W1 "add_user_product"
                (old_add_params uid url title) t1') as [rest ->].
    apply in_or_app. right. left. reflexivity.
  - rewrite C2. unfold run at 1. rewrite C1. reflexivity.
  - intros user t e1 H. apply (@fetch_products_falls_back W1 user t e1 H).
Qed.

End FallbackClaim.

Section FallbackScenario.

Import Py Eff Db Http Dashboard Spec Scenario.

Lemma add_product_fallback_is_silent_witness :
  @run _ (@add_product plain (table old_schema) kettle_request) []
  = @run _ (@add_product plain (table enhanced_schema) kettle_request) []
  /\ @calls _ (@add_product plain (table old_schema) kettle_request) []
     = [Execute
          ("CALL add_user_product_with_webhook(:p_user_id, :p_product_url, "
           ++ ":p_product_title, :p_discord_webhook_url, "
           ++ ":p_sms_notifications_enabled)")
          [("p_user_id", VInt 42);
           ("p_product_url", VStr "https://www.amazon.com/dp/B000");
           ("p_product_title", VStr "Amazon Product");
           ("p_discord_webhook_url",
            VStr "https://discord.com/api/webhooks/1/abc");
           ("p_sms_notifications_enabled", VBool true)];
        Rollback; Close;
        Execute
          "CALL add_user_product(:p_user_id, :p_product_url, :p_product_title)"
          [("p_user_id", VInt 42);
           ("p_product_url", VStr "https://www.amazon.com/dp/B000");
           ("p_product_title", VStr "Amazon Product")];
        Commit; Close].
Proof.
  destruct (@add_product_fallback_is_silent plain (table old_schema)
              (table enhanced_schema) kettle_request (VStr "42") 42
              "https://www.amazon.com/dp/B000" "Amazon Product"
              "https://discord.com/api/webhooks/1/abc" (VBool true) [] []
              (no_such_procedure "add_user_product_with_webhook")
              product_added)
    as (Hcalls & _ & Hsame & _).
  - split; [discriminate|]. split; [eexists; reflexivity|].
    split; [reflexivity|].
    exists [("url", VStr "https://www.amazon.com/dp/B000");
            ("discord_webhook_url",
             VStr "https://discord.com/api/webhooks/1/abc");
            ("sms_notifications_enabled", VBool true)],
      "https://www.amazon.com/dp/B000", "",
      "https://discord.com/api/webhooks/1/abc".
    repeat (split; [reflexivity|]).
    split; [discriminate|]. split; [reflexivity|].
    split; [right; reflexivity|].
    exists "Amazon". reflexivity.
  - reflexivity.
  - reflexivity.
  - reflexivity.
  - split; [exact Hsame|]. rewrite Hcalls. reflexivity.
Defined.

End FallbackScenario.

(* ===================================================================== *)
(** * Forgotten passwords *)
(* ===================================================================== *)

Section Forgot.

Import Py Re Eff Db Http Password Spec.

Context {L : Library} {W : World}.

(** Drawing the characters of a token never fails. *)
Lemma generate_secure_token_ok n t :
  exists token, run (generate_secure_token n) t = Ok token.
Proof.
  revert t. induction n as [|n IH]; intros t; cbn.
  - eexists. reflexivity.
  - unfold run, bind, secrets_choice. cbn.
    destruct (IH (record t (SecretsChoice alphabet))) as [token H].
    unfold run in H.
    destruct (generate_secure_token n _) as [r t']. cbn in H. subst r.
    eexists. reflexivity.
Qed.

Lemma validate_email_nonempty' s :
  Password.validate_email s = true -> String.eqb s "" = false.
Proof. destruct s; [discriminate | reflexivity]. Qed.

(** A well-formed request reaches the lookup of the account. *)
Lemma forgot_reaches_verdict email req t rows :
  forgot_request email req ->
  run (call_procedure "get_user_by_email"
         [("p_email", VStr (normalised email))]) t = Ok rows ->
  forgot_password req t
  = try_except
      (forgot_password_verdict (normalised email) rows)
      (fun e => ret (reply 500 (error_body "Internal server error")))
      (calls (call_procedure "get_user_by_email"
                [("p_email", VStr (normalised email))]) t).
Proof.
  intros [(d & (Hm & Hj) & He) Hv] Hdb.
  unfold forgot_password.
  destruct (String.eqb_spec (method req) "OPTIONS"); [contradiction|].
  unfold try_except at 1, forgot_password_body.
  rewrite Hj, bind_lift_ok.
  assert (Ht : truthy (VDict d) = true)
    by (destruct d; [discriminate | reflexivity]).
  rewrite Ht. cbn [negb]. unfold dict_get. rewrite He.
  cbn [rbind v_strip]. rewrite bind_lift_ok. fold (normalised email).
  rewrite (validate_email_nonempty' _ Hv), Hv. cbn [orb negb].
  rewrite (bind_ok _ _ _ _ Hdb). reflexivity.
Qed.

Lemma reports_failure_not_success rows :
  reports_failure rows -> not_success rows = Ok true.
Proof.
  intros [-> | (status & message & rest & more & -> & Hs)].
  - reflexivity.
  - cbn. rewrite Hs. reflexivity.
Qed.

Lemma reports_success_not_success rows :
  reports_success rows -> not_success rows = Ok false.
Proof.
  intros (status & rest & more & -> & Hs). cbn. rewrite Hs. reflexivity.
Qed.

(** No account, or an account that is not active: the generic answer, and
    no further call. *)
Lemma forgot_verdict_absent email rows t :
  reports_failure rows ->
  forgot_password_verdict email rows t
  = (Ok (reply 200 (generic_body email)), t).
Proof.
  intros H. unfold forgot_password_verdict.
  rewrite (reports_failure_not_success _ H). reflexivity.
Qed.

Lemma forgot_verdict_inactive email message user_id full_name is_active
      rest more t :
  truthy is_active = false ->
  forgot_password_verdict email
    (account_row message user_id full_name is_active rest :: more) t
  = (Ok (reply 200 (generic_body email)), t).
Proof.
  intros H. unfold forgot_password_verdict, account_row. cbn.
  rewrite H. reflexivity.
Qed.

(** An active account: the answer depends on what the procedure that
    stores the token reports. *)
Lemma forgot_verdict_active email message user_id full_name is_active
      rest more t :
  truthy is_active = true ->
  exists token expires t',
    forgot_password_verdict email
      (account_row message user_id full_name is_active rest :: more) t
    = bind (call_procedure "create_password_reset_token"
              [("p_user_id", user_id); ("p_token", VStr token);
               ("p_expires_at", VStr expires)])
        (fun token_result =>
           bind (lift (not_success token_result)) (fun failed =>
           if failed then
             ret (reply 500 (error_body "Failed to generate reset token"))
           else ret (reply 200 (generic_body email)))) t'.
Proof.
  intros H. unfold forgot_password_verdict, account_row.
  cbn [not_success index nth_error rbind eq_str String.eqb Ascii.eqb
       Bool.eqb negb first_row_at].
  rewrite !bind_lift_ok. rewrite H. cbn [negb].
  destruct (generate_secure_token_ok 64 t) as [token Htok].
  rewrite (bind_ok _ _ _ _ Htok).
  unfold bind at 1, datetime_now.
  eexists _, _, _. reflexivity.
Qed.

End Forgot.

Section ForgotClaim.

Import Py Re Eff Db Http Password Spec.

Context {L : Library} {W : World}.

(** Two well-formed forgot-password requests, one for an address without
    an account, one for an address with an account, active or not.  The
    first is answered with status 200 and the generic message.  So is the
    second, with the same message, when the account is not active or when
    the procedure that stores the reset token reports success.  When the
    account is active and that procedure reports no success, the second is
    answered with status 500. *)
Lemma forgot_password_uniform_when_token_stored
    req1 email1 t1 rows1
    req2 email2 t2 message user_id full_name is_active rest more :
  forgot_request email1 req1 ->
  run (call_procedure "get_user_by_email"
         [("p_email", VStr (normalised email1))]) t1 = Ok rows1 ->
  reports_failure rows1 ->
  forgot_request email2 req2 ->
  run (call_procedure "get_user_by_email"
         [("p_email", VStr (normalised email2))]) t2
  = Ok (account_row message user_id full_name is_active rest :: more) ->
  run (forgot_password req1) t1
  = Ok (reply 200 (generic_body (normalised email1)))
  /\ ((truthy is_active = true ->
       forall token expires t', exists token_rows,
           run (call_procedure "create_password_reset_token"
                  [("p_user_id", user_id); ("p_token", VStr token);
                   ("p_expires_at", VStr expires)]) t'
           = Ok token_rows
           /\ reports_success token_rows) ->
      run (forgot_password req2) t2
      = Ok (reply 200 (generic_body (normalised email2)))
      /\ field "message" (generic_body (normalised email1))
         = field "message" (generic_body (normalised email2)))
  /\ (truthy is_active = true ->
      (forall token expires t', exists token_rows,
           run (call_procedure "create_password_reset_token"
                  [("p_user_id", user_id); ("p_token", VStr token);
                   ("p_expires_at", VStr expires)]) t'
           = Ok token_rows
           /\ reports_failure token_rows) ->
      run (forgot_password req2) t2
      = Ok (reply 500
              (VDict [("error", VStr "Failed to generate reset token")]))).
Proof.
  intros R1 D1 F1 R2 D2.
  split; [|split].
  - unfold run. rewrite (forgot_reaches_verdict _ _ _ _ R1 D1).
    unfold try_except. rewrite (forgot_verdict_absent _ _ _ F1).
    reflexivity.
  - intros Htoken. split; [|reflexivity].
    unfold run. rewrite (forgot_reaches_verdict _ _ _ _ R2 D2).
    unfold try_except.
    destruct (truthy is_active) eqn:Ha.
    + destruct (forgot_verdict_active (normalised email2) message user_id
                  full_name is_active rest more
                  (calls (call_procedure "get_user_by_email"
                            [("p_email", VStr (normalised email2))]) t2) Ha)
        as (token & expires & t' & ->).
      destruct (Htoken eq_refl token expires t') as (token_rows & Hrun & Hok).
      rewrite (bind_ok _ _ _ _ Hrun).
      rewrite (reports_success_not_success _ Hok). reflexivity.
    + rewrite (forgot_verdict_inactive _ _ _ _ _ _ _ _ Ha). reflexivity.
  - intros Ha Htoken.
    unfold run. rewrite (forgot_reaches_verdict _ _ _ _ R2 D2).
    unfold try_except.
    destruct (forgot_verdict_active (normalised email2) message user_id
                full_name is_active rest more
                (calls (call_procedure "get_user_by_email"
                          [("p_email", VStr (normalised email2))]) t2) Ha)
      as (token & expires & t' & ->).
    destruct (Htoken token expires t') as (token_rows & Hrun & Hfail).
    rewrite (bind_ok _ _ _ _ Hrun).
    rewrite (reports_failure_not_success _ Hfail). reflexivity.
Qed.

End ForgotClaim.

Section ForgotScenarios.

Import Py Re Eff Db Http Password Spec Scenario.

(** C6.  The handler is written to answer every well-formed request with
    status 200 and the same message, so that the response does not tell
    whether the account exists or is active.  It misses one case: when
    the procedure that stores the reset token returns no row, the request
    for the active account of [alice@example.com] is answered with status
    500 and ["Failed to generate reset token"], while the request for the
    unknown address [bob@example.com] is answered with status 200 and the
    generic message. *)
Theorem forgot_password_reveals_active_account :
  @run _ (@forgot_password plain (table (reset_db (VInt 1) []))
            (post [("email", VStr "alice@example.com")])) []
  = Ok (reply 500 (VDict [("error", VStr "Failed to generate reset token")]))
  /\ @run _ (@forgot_password plain (table (reset_db (VInt 1) []))
               (post [("email", VStr "bob@example.com")])) []
     = Ok (reply 200 (generic_body "bob@example.com")).
Proof. split; vm_compute; reflexivity. Qed.

Example forgot_password_uniform_example :
  @run _ (@forgot_password plain
            (table (reset_db (VInt 1) [[VStr "success"; VStr "Token created"]]))
            (post [("email", VStr "bob@example.com")])) []
  = Ok (reply 200 (generic_body "bob@example.com"))
  /\ @run _ (@forgot_password plain
               (table (reset_db (VInt 1)
                         [[VStr "success"; VStr "Token created"]]))
               (post [("email", VStr "alice@example.com")])) []
     = Ok (reply 200 (generic_body "alice@example.com")).
Proof.
  destruct (@forgot_password_uniform_when_token_stored plain
              (table (reset_db (VInt 1)
                        [[VStr "success"; VStr "Token created"]]))
              (post [("email", VStr "bob@example.com")]) "bob@example.com"
              [] [[VStr "error"; VStr "User not found"]]
              (post [("email", VStr "alice@example.com")])
              "alice@example.com" []
              (VStr "User found") (VInt 42) (VStr "Alice Doe") (VInt 1)
              [] [])
    as (H1 & H2 & _).
  - split; [|reflexivity]. eexists.
    split; [split; [discriminate | reflexivity] | reflexivity].
  - reflexivity.
  - right. do 4 eexists. split; reflexivity.
  - split; [|reflexivity]. eexists.
    split; [split; [discriminate | reflexivity] | reflexivity].
  - reflexivity.
  - split; [exact H1|]. apply H2.
    intros _ token expires t'.
    exists [[VStr "success"; VStr "Token created"]].
    split; [reflexivity | do 3 eexists; split; reflexivity].
Defined.

End ForgotScenarios.

(* ===================================================================== *)
(** * From login to verify-token *)
(* ===================================================================== *)

Section TokenRoundTrip.

Import Py Eff Db Http Auth Spec.

Context {L : Library} {W : World}.


(** A token whose identity is the decimal text of [uid]: the user is
    fetched again, and the response is built from the row that comes
    back. *)
Lemma verify_token_refetches uid claims vreq t
      message email full_name email_verified rest more :
  method vreq <> "OPTIONS" ->
  auth vreq = Presented false (VStr (str_int uid)) claims ->
  run (call_procedure "get_user_by_id" [("p_user_id", VInt uid)]) t
  = Ok ((VStr "success" :: message :: email :: full_name :: email_verified
           :: rest) :: more) ->
  run (verify_token vreq) t
  = Ok (reply 200
          (VDict [("valid", VBool true);
                  ("user",
                   VDict [("id", VInt uid);
                          ("email", email);
                          ("full_name", full_name);
                          ("email_verified", py_bool email_verified);
                          ("name", full_name)])])).
Proof.
  intros Hm Ha Hdb. unfold run, verify_token, jwt_required.
  destruct (String.eqb_spec (method vreq) "OPTIONS"); [contradiction|].
  rewrite Ha. cbn [Bool.eqb]. unfold verify_token_view.
  destruct (String.eqb_spec (method vreq) "OPTIONS"); [contradiction|].
  unfold try_except, verify_token_body. cbn [is_none].
  unfold identity_as_int, try_except_only, try_except, bind at 1.
  cbn [py_int]. rewrite int_of_str_str_int. cbn [bind lift ret].
  unfold bind at 1. unfold run in Hdb.
  destruct (call_procedure "get_user_by_id" _ t) as [r t'].
  cbn in Hdb. subst r. reflexivity.
Qed.

End TokenRoundTrip.

Section TokenClaim.

Import Py Eff Db Http Auth Spec.

Context {L : Library} {W : World}.


End TokenClaim.

Section TokenScenarios.

Import Py Eff Db Http Auth Spec Scenario.



End TokenScenarios.

(* ===================================================================== *)
(** * Line items of a checkout session *)
(* ===================================================================== *)

Section LineItems.

Import Py Eff Db Http Premium Spec.

Context {L : Library} {W : World}.

(** The two [except] clauses of [create_checkout_session] make no call. *)
Lemma checkout_handler_calls (m : M response) t :
  calls
    (try_except m
       (fun e =>
          if is_stripe_error e then
            ret (reply 400 (error_body
                   ("Payment processing error: " ++ str_exn e)))
          else
            ret (reply 500 (error_body "Failed to create checkout session"))))
    t
  = calls m t.
Proof.
  unfold calls, try_except. destruct (m t) as [[a|e] t']; [reflexivity|].
  destruct (is_stripe_error e); reflexivity.
Qed.

(** A request that gets as far as the line items. *)
Lemma checkout_reached req uid plan count addon customer t t' :
  checkout_request req uid plan count addon customer t t' ->
  create_checkout_session req t
  = try_except (checkout req uid customer plan count addon)
      (fun e =>
         if is_stripe_error e then
           ret (reply 400 (error_body
                  ("Payment processing error: " ++ str_exn e)))
         else
           ret (reply 500 (error_body "Failed to create checkout session")))
      t'.
Proof.
  intros (Hm & (identity & claims & Ha & Hid)
          & (d & Hj & Ht & Hp & Hc & Hi) & Hplan
          & user_rows & user_email & Hdb & Hmail & Hcust).
  unfold create_checkout_session, jwt_required.
  destruct (String.eqb_spec (method req) "OPTIONS"); [contradiction|].
  rewrite Ha. cbn [Bool.eqb]. unfold create_checkout_session_view.
  destruct (String.eqb_spec (method req) "OPTIONS"); [contradiction|].
  unfold try_except at 1, create_checkout_session_body.
  rewrite Hid, bind_lift_ok, Hj, bind_lift_ok, Ht. cbn [negb].
  rewrite Hp, Hc, Hi, !bind_lift_ok, Hplan. cbn [negb].
  rewrite (bind_ok _ _ _ _ Hdb), Hmail, bind_lift_ok.
  unfold bind at 1. rewrite Hcust. reflexivity.
Qed.

(** The price of the pay-as-you-go plan. *)
Lemma plan_line_items_pay_as_you_go n total cents t :
  1 <= n ->
  times_five (VInt n) = Ok total ->
  to_cents total = Ok cents ->
  plan_line_items (VStr "pay_as_you_go") (VInt n) t
  = bind (price_create cents "usd" "month"
            ("Pay-as-you-go Plan (" ++ str_int n ++ " products)")
            ("Track up to " ++ str_int n ++ " products"))
         (fun price => ret (inr [line_item price])) t.
Proof.
  intros Hn Ht Hc. unfold plan_line_items.
  cbn [eq_str String.eqb Ascii.eqb Bool.eqb truthy less_than_one].
  destruct (Z.eqb_spec n 0); [lia|]. cbn [negb lift].
  destruct (Z.ltb_spec n 1); [lia|].
  rewrite bind_lift_ok. rewrite Ht, bind_lift_ok, Hc, bind_lift_ok.
  reflexivity.
Qed.

(** The price of the unlimited plan. *)
Lemma plan_line_items_unlimited count t :
  plan_line_items (VStr "unlimited") count t
  = bind (price_create 14500 "usd" "month"
            "Unlimited Access Plan" "Track unlimited products")
         (fun price => ret (inr [line_item price])) t.
Proof. reflexivity. Qed.

(** No count, or a count below one. *)
Lemma plan_line_items_rejected count t :
  count = VNone \/ (exists n, count = VInt n /\ n < 1) ->
  plan_line_items (VStr "pay_as_you_go") count t
  = (Ok (inl (reply 400 (error_body
                "Product count is required for pay-as-you-go plan"))), t).
Proof.
  intros [-> | (n & -> & Hn)]; [reflexivity|].
  unfold plan_line_items.
  cbn [eq_str String.eqb Ascii.eqb Bool.eqb truthy less_than_one].
  destruct (Z.eqb_spec n 0) as [->|Hz]; [reflexivity|].
  cbn [negb lift]. destruct (Z.ltb_spec n 1); [reflexivity | lia].
Qed.

(** When the plan is priced, the price is the first call [checkout]
    makes. *)
Lemma checkout_price_first req uid customer plan count addon
      amount name description t :
  plan_line_items plan count t
  = bind (price_create amount "usd" "month" name description)
         (fun price => ret (inr [line_item price])) t ->
  exists rest,
    calls (checkout req uid customer plan count addon) t
    = (t ++ PriceCreate amount "usd" "month" name description :: rest)%list.
Proof.
  intros Hplan. unfold calls, checkout, bind at 1. rewrite Hplan.
  unfold bind at 1, price_create.
  destruct (on_price_create t amount "usd" "month" name description)
    as [price|e]; cbn [ret fst snd].
  - unfold with_ai_enhancement, bind at 1.
    destruct (truthy addon).
    + unfold bind at 1, price_create.
      destruct (on_price_create _ 5000 _ _ _ _) as [ai_price|e];
        cbn [ret fst snd].
      * unfold bind, session_create.
        destruct (on_session_create _ _ _ _ _ _) as [session|e];
          cbn [ret fst snd]; unfold record; rewrite <- !app_assoc;
          eexists; reflexivity.
      * unfold record. rewrite <- !app_assoc. eexists. reflexivity.
    + cbn [ret]. unfold bind, session_create.
      destruct (on_session_create _ _ _ _ _ _) as [session|e];
        cbn [ret fst snd]; unfold record; rewrite <- !app_assoc;
        eexists; reflexivity.
  - exists []. reflexivity.
Qed.

(** Once the plan has its items, the add-on is one more price and one
    more item, and the session is created with the items in hand. *)
Lemma checkout_addon req uid customer plan count addon items t :
  run (plan_line_items plan count) t = Ok (inr items) ->
  let t1 := calls (plan_line_items plan count) t in
  (truthy addon = true ->
   forall ai_price,
     on_price_create t1 5000 "usd" "month" "AI Enhancement Add-on"
       "Advanced AI-powered tracking with multiple failsafe layers"
     = Ok ai_price ->
     calls (checkout req uid customer plan count addon) t
     = (t1 ++ [PriceCreate 5000 "usd" "month" "AI Enhancement Add-on"
                 "Advanced AI-powered tracking with multiple failsafe layers";
               SessionCreate customer (items ++ [(ai_price, 1)])
                 (success_url req) (cancel_url req)
                 (session_metadata uid plan count addon)])%list)
  /\ (truthy addon = false ->
      calls (checkout req uid customer plan count addon) t
      = (t1 ++ [SessionCreate customer items
                  (success_url req) (cancel_url req)
                  (session_metadata uid plan count addon)])%list).
Proof.
  intros Hrun t1. unfold calls, checkout.
  rewrite (bind_ok _ _ _ _ Hrun). fold t1.
  unfold with_ai_enhancement. split.
  - intros Ha ai_price Hp. rewrite Ha.
    unfold bind at 1 2, price_create. rewrite Hp. cbn [ret].
    unfold bind, session_create, line_item.
    fold (success_url req). fold (cancel_url req).
    fold (session_metadata uid plan count addon).
    destruct (on_session_create _ _ _ _ _ _) as [session|e];
      cbn [ret fst snd]; unfold record; rewrite <- !app_assoc; reflexivity.
  - intros Ha. rewrite Ha. unfold bind at 1. cbn [ret].
    unfold bind, session_create.
    fold (success_url req). fold (cancel_url req).
    fold (session_metadata uid plan count addon).
    destruct (on_session_create _ _ _ _ _ _) as [session|e];
      cbn [ret fst snd]; unfold record; reflexivity.
Qed.

End LineItems.

Section LineItemsClaim.

Import Py Eff Db Http Premium Spec.

Context {L : Library} {W : World}.

Lemma cents_exact_upto_spec k :
  cents_exact_upto k = true ->
  forall n, 1 <= n <= Z.of_nat k -> cents_of_count n = Ok (500 * n).
Proof.
  unfold cents_exact_upto. rewrite forallb_forall. intros H n Hn.
  specialize (H (Z.to_nat n)).
  rewrite Z2Nat.id in H by lia.
  assert (Hin : In (Z.to_nat n) (seq 1 k)) by (apply in_seq; lia).
  specialize (H Hin).
  destruct (cents_of_count n) as [c|e]; [|discriminate].
  apply Z.eqb_eq in H. subst c. reflexivity.
Qed.

(** For the counts from 1 to 1000 the conversion to cents is exact. *)
Lemma cents_of_count_exact n :
  1 <= n <= 1000 -> cents_of_count n = Ok (500 * n).
Proof.
  intros Hn.
  apply (cents_exact_upto_spec (Z.to_nat 1000)).
  - vm_compute. reflexivity.
  - rewrite Z2Nat.id; lia.
Qed.

(** C8.  For a request that gets as far as the line items: with the plan
    ["pay_as_you_go"] and a count [n >= 1], the first price created has
    the amount [int(total * 100)] for [total = n * 5.00] (which is
    [500 * n] for the counts up to 1000); with the plan ["unlimited"]
    the amount is 14500; with ["pay_as_you_go"] and no count or a count
    below 1 the response is 400 and no price is created; and when the
    add-on flag is set, one more price of 5000 is created and its item is
    appended to the line items of the session. *)
Theorem checkout_line_item_amounts
    req uid plan count addon customer t t' :
  checkout_request req uid plan count addon customer t t' ->
  (forall n total cents,
      plan = VStr "pay_as_you_go" -> count = VInt n -> 1 <= n ->
      times_five (VInt n) = Ok total ->
      to_cents total = Ok cents ->
      (n <= 1000 -> cents = 500 * n)
      /\ exists rest,
          calls (create_checkout_session req) t
          = (t' ++ PriceCreate cents "usd" "month"
                     ("Pay-as-you-go Plan (" ++ str_int n ++ " products)")
                     ("Track up to " ++ str_int n ++ " products")
                :: rest)%list)
  /\ (plan = VStr "unlimited" ->
      exists rest,
        calls (create_checkout_session req) t
        = (t' ++ PriceCreate 14500 "usd" "month" "Unlimited Access Plan"
                   "Track unlimited products"
              :: rest)%list)
  /\ (plan = VStr "pay_as_you_go" ->
      count = VNone \/ (exists n, count = VInt n /\ n < 1) ->
      run (create_checkout_session req) t
      = Ok (reply 400
              (VDict [("error",
                       VStr "Product count is required for pay-as-you-go plan")]))
      /\ calls (create_checkout_session req) t = t')
  /\ (forall items,
         run (plan_line_items plan count) t' = Ok (inr items) ->
         (truthy addon = true ->
          forall ai_price,
            on_price_create (calls (plan_line_items plan count) t') 5000
              "usd" "month" "AI Enhancement Add-on"
              "Advanced AI-powered tracking with multiple failsafe layers"
            = Ok ai_price ->
            calls (create_checkout_session req) t
            = (calls (plan_line_items plan count) t'
               ++ [PriceCreate 5000 "usd" "month" "AI Enhancement Add-on"
                     "Advanced AI-powered tracking with multiple failsafe layers";
                   SessionCreate customer (items ++ [(ai_price, 1)])
                     (success_url req) (cancel_url req)
                     (session_metadata uid plan count addon)])%list)
         /\ (truthy addon = false ->
             calls (create_checkout_session req) t
             = (calls (plan_line_items plan count) t'
                ++ [SessionCreate customer items
                      (success_url req) (cancel_url req)
                      (session_metadata uid plan count addon)])%list)).
Proof.
  intros Hreq.
  pose proof (checkout_reached _ _ _ _ _ _ _ _ Hreq) as E.
  assert (Ec : calls (create_checkout_session req) t
               = calls (checkout req uid customer plan count addon) t').
  { unfold calls at 1. rewrite E. apply checkout_handler_calls. }
  split; [|split; [|split]].
  - intros n total cents -> -> Hn Ht Hc. split.
    + intros Hle.
      pose proof (cents_of_count_exact n (conj Hn Hle)) as Hx.
      unfold cents_of_count in Hx. rewrite Ht in Hx. cbn [rbind] in Hx.
      congruence.
    + rewrite Ec. apply checkout_price_first.
      apply (plan_line_items_pay_as_you_go n total cents t' Hn Ht Hc).
  - intros ->. rewrite Ec. apply checkout_price_first.
    apply plan_line_items_unlimited.
  - intros -> Hcount.
    unfold run, calls. rewrite E. unfold try_except, checkout, bind.
    rewrite (plan_line_items_rejected _ _ Hcount). split; reflexivity.
  - intros items Hrun. rewrite Ec.
    apply (checkout_addon req uid customer plan count addon items t' Hrun).
Qed.

End LineItemsClaim.

Section LineItemsScenario.

Import Py Eff Db Http Premium Spec Scenario.

Lemma checkout_line_item_amounts_witness :
  @calls _ (@create_checkout_session plain (table (accounts (VInt 1)))
              (checkout_for (VStr "pay_as_you_go") (VInt 3) (VBool true)))
         []
  = (customer_ready
     ++ [PriceCreate 1500 "usd" "month" "Pay-as-you-go Plan (3 products)"
           "Track up to 3 products";
         PriceCreate 5000 "usd" "month" "AI Enhancement Add-on"
           "Advanced AI-powered tracking with multiple failsafe layers";
         SessionCreate "cus_1" [("price_1500", 1); ("price_5000", 1)]
           "http://localhost:5000/dashboard/premium?session_id={CHECKOUT_SESSION_ID}"
           "http://localhost:5000/dashboard/premium"
           [("user_id", "42"); ("plan_type", "pay_as_you_go");
            ("custom_product_count", "3");
            ("include_ai_enhancement", "True")]])%list.
Proof.
  destruct (@checkout_line_item_amounts plain (table (accounts (VInt 1)))
              (checkout_for (VStr "pay_as_you_go") (VInt 3) (VBool true))
              42 (VStr "pay_as_you_go") (VInt 3) (VBool true) "cus_1"
              [] customer_ready)
    as (_ & _ & _ & Haddon).
  - split; [discriminate|].
    split; [exists (VStr "42"), [("email", VStr "alice@example.com");
                                 ("full_name", VStr "Alice Doe");
                                 ("email_verified", VBool true)];
            split; reflexivity|].
    split; [eexists; repeat (split; [reflexivity|]); reflexivity|].
    split; [reflexivity|].
    exists [[VStr "success"; VStr "User found"; VStr "alice@example.com";
             VStr "Alice Doe"; VInt 1]], (VStr "alice@example.com").
    repeat split.
  - destruct (Haddon [("price_1500", 1)] eq_refl) as [Hset _].
    rewrite (Hset eq_refl "price_5000" eq_refl). reflexivity.
Defined.

End LineItemsScenario.

(* ===================================================================== *)
(** * Exceptions at the boundary of the handlers *)
(* ===================================================================== *)

Section Guarded.

Import Py Eff Db Http Boundary.

(** A guarded body that raises is answered by the clauses of the
    handler. *)
Lemma guarded_raise r (body : M response) t e :
  run body t = Raise e -> run (guarded r body) t = Ok (on_exception r e).
Proof.
  unfold run, guarded, try_except, ret.
  destruct (body t) as [[a|e'] t']; cbn; [discriminate|].
  intros H. injection H as ->. reflexivity.
Qed.

(** The handlers that are modelled in full are guarded in this sense. *)
Lemma register_guarded `{World} req :
  Auth.register req
  = if String.eqb (method req) "OPTIONS" then ret Auth.handle_preflight
    else guarded AuthRegister (Auth.register_body req).
Proof. reflexivity. Qed.

Lemma login_guarded `{Library} `{World} req :
  Auth.login req
  = if String.eqb (method req) "OPTIONS" then ret Auth.handle_preflight
    else guarded AuthLogin (Auth.login_body req).
Proof. reflexivity. Qed.

Lemma verify_token_guarded `{World} req identity claims :
  Auth.verify_token_view req identity claims
  = if String.eqb (method req) "OPTIONS" then ret Auth.handle_preflight
    else guarded AuthVerifyToken (Auth.verify_token_body identity).
Proof. reflexivity. Qed.

Lemma forgot_password_guarded `{Library} `{World} req :
  Password.forgot_password req
  = if String.eqb (method req) "OPTIONS" then ret Password.handle_preflight
    else guarded ForgotPassword (Password.forgot_password_body req).
Proof. reflexivity. Qed.

Lemma get_user_products_guarded `{Library} `{World} req identity claims :
  Dashboard.get_user_products_view req identity claims
  = if String.eqb (method req) "OPTIONS" then ret Dashboard.handle_preflight
    else guarded ProductsGet (Dashboard.get_user_products_body identity).
Proof. reflexivity. Qed.

Lemma add_product_guarded `{Library} `{World} req identity claims :
  Dashboard.add_product_view req identity claims
  = if String.eqb (method req) "OPTIONS" then ret Dashboard.handle_preflight
    else guarded ProductsAdd (Dashboard.add_product_body req identity).
Proof. reflexivity. Qed.

Lemma create_checkout_session_guarded `{Library} `{World}
      req identity claims t :
  Premium.create_checkout_session_view req identity claims t
  = (if String.eqb (method req) "OPTIONS" then ret Premium.handle_preflight
     else guarded CreateCheckoutSession
            (Premium.create_checkout_session_body req identity)) t.
Proof.
  unfold Premium.create_checkout_session_view, guarded, try_except.
  destruct (String.eqb (method req) "OPTIONS"); [reflexivity|].
  destruct (Premium.create_checkout_session_body req identity t)
    as [[a|e] t']; [reflexivity|].
  cbn [on_exception]. destruct (is_stripe_error e); reflexivity.
Qed.

(** The fixed answers. *)
Lemma fixed_message_route r :
  In r fixed_message_routes ->
  exists message headers,
    forall e, on_exception r e
              = mk_response 500 (VDict [("error", VStr message)]) headers.
Proof.
  unfold fixed_message_routes. cbn [In].
  intros H.
  repeat (destruct H as [<-|H]; [eexists _, _; intros e; reflexivity|]).
  destruct H.
Qed.

Lemma payment_route r :
  In r payment_routes ->
  exists message headers,
    forall e,
      (is_stripe_error e = false ->
       on_exception r e
       = mk_response 500 (VDict [("error", VStr message)]) headers)
      /\ (is_stripe_error e = true ->
          status (on_exception r e) = 400
          /\ carries_text_of (on_exception r e) e).
Proof.
  unfold payment_routes. cbn [In].
  intros [<-|[<-|[]]]; eexists _, _; intros e; cbn [on_exception];
    (split; intros ->; [reflexivity|]);
    (split; [reflexivity|]); exists "error"; eexists; reflexivity.
Qed.

Lemma exception_text_route r e :
  In r exception_text_routes ->
  is_signature_error e = false ->
  carries_text_of (on_exception r e) e.
Proof.
  unfold exception_text_routes. cbn [In].
  intros H Hs.
  destruct H as [<-|[<-|[<-|[<-|[<-|[<-|[<-|[]]]]]]]];
    cbn [on_exception]; rewrite ?Hs;
    try destruct (is_value_error e);
    try (exists "error", ""; reflexivity);
    try (exists "debug", ""; reflexivity);
    try (exists "error"; eexists; reflexivity).
Qed.

(** The clauses, handler by handler.  For register, login, refresh,
    verify-token, logout, the handlers that add, update and delete a
    product, the dashboard overview, the two settings handlers, the
    subscription, check-limit, plans, cancel and update handlers,
    forgot-password, verify-token and reset-password of the password
    routes: whatever exception the [try] block raises, the response has
    status 500 and a body that is a fixed error message, the same for
    every exception.  For create-checkout-session and process-success
    this holds for the exceptions that are not errors of the payment
    processor; for those the status is 400 and the message ends with the
    text of the exception.  For debug-procedures, the listing of products,
    and the donation and stripe routes, the body carries the text of the
    exception (of every exception but a failed signature check). *)
Lemma exceptions_at_the_boundary :
  (forall r,
      In r fixed_message_routes ->
      exists message headers,
        forall (body : M response) t e,
          run body t = Raise e ->
          run (guarded r body) t
          = Ok (mk_response 500 (VDict [("error", VStr message)]) headers))
  /\ (forall r,
         In r payment_routes ->
         exists message headers,
           forall (body : M response) t e,
             run body t = Raise e ->
             (is_stripe_error e = false ->
              run (guarded r body) t
              = Ok (mk_response 500 (VDict [("error", VStr message)])
                      headers))
             /\ (is_stripe_error e = true ->
                 exists resp,
                   run (guarded r body) t = Ok resp
                   /\ status resp = 400 /\ carries_text_of resp e))
  /\ (forall r,
         In r exception_text_routes ->
         forall (body : M response) t e,
           run body t = Raise e ->
           is_signature_error e = false ->
           exists resp,
             run (guarded r body) t = Ok resp /\ carries_text_of resp e).
Proof.
  split; [|split].
  - intros r Hr. destruct (fixed_message_route r Hr) as (message & hs & H).
    exists message, hs. intros body t e Hraise.
    rewrite (guarded_raise r body t e Hraise). rewrite H. reflexivity.
  - intros r Hr. destruct (payment_route r Hr) as (message & hs & H).
    exists message, hs. intros body t e Hraise.
    rewrite (guarded_raise r body t e Hraise).
    destruct (H e) as [Hgen Hpay]. split.
    + intros Hs. rewrite (Hgen Hs). reflexivity.
    + intros Hs. eexists. split; [reflexivity|]. apply Hpay, Hs.
  - intros r Hr body t e Hraise Hs.
    rewrite (guarded_raise r body t e Hraise).
    eexists. split; [reflexivity|].
    apply exception_text_route; assumption.
Qed.

End Guarded.

Section BoundaryScenarios.

Import Py Eff Db Http Dashboard Boundary Spec Scenario.

(** C3.  An exception raised inside a handler is to be answered with a
    fixed generic message, as the handlers that add, update and delete a
    product do.  [get_user_products] does not: when a timestamp column
    arrives as text, its [try] block raises an [AttributeError], and the
    response of status 500 carries the text of the exception under
    ["debug"] and the traceback under ["traceback"]. *)
Theorem get_user_products_exposes_exception :
  exists e,
    @run _ (@get_user_products_body plain (table text_timestamps)
              (VStr "42")) [] = Raise e
    /\ exn_text e = "'str' object has no attribute 'isoformat'"
    /\ @run _ (@get_user_products plain (table text_timestamps)
                 (get_as alice_token)) []
       = Ok (Dashboard.reply 500
               (VDict [("error", VStr "Failed to load products");
                       ("debug",
                        VStr "'str' object has no attribute 'isoformat'");
                       ("traceback", VStr (format_exc e))])).
Proof.
  eexists. split; [vm_compute; reflexivity|].
  split; [reflexivity|]. vm_compute. reflexivity.
Qed.

(** A login while the database is down. *)
Example login_while_database_is_down :
  @run _ (@Auth.login plain
            (table (fun _ _ => Raise (no_such_procedure "verify_user_login")))
            alice_login) []
  = Ok (Auth.reply 500
          (VDict [("error", VStr "Internal server error during login")])).
Proof.
  destruct exceptions_at_the_boundary as (Hfixed & _ & _).
  destruct (Hfixed AuthLogin (or_intror (or_introl eq_refl)))
    as (message & hs & H).
  rewrite login_guarded.
  cbn [method alice_login post String.eqb Ascii.eqb Bool.eqb].
  rewrite (H _ [] (no_such_procedure "verify_user_login")) by reflexivity.
  specialize (H (raise (no_such_procedure "verify_user_login")) []
                (no_such_procedure "verify_user_login") eq_refl).
  cbn in H. injection H as <- <-. reflexivity.
Defined.

End BoundaryScenarios.

(* ===================================================================== *)
(** * Steps shared by the handlers *)
(* ===================================================================== *)

Section Steps.

Import Py Eff Db Http.

Lemma run_calls {A} (m : M A) t : m t = (run m t, calls m t).
Proof. unfold run, calls. destruct (m t); reflexivity. Qed.

(** A request that is not a preflight and presents a token of the kind
    the route asks for reaches the view with the identity of the token. *)
Lemma jwt_required_presented refresh view req identity claims :
  method req <> "OPTIONS" ->
  auth req = Presented refresh identity claims ->
  jwt_required refresh view req = view req identity claims.
Proof.
  intros Hm Ha. unfold jwt_required.
  destruct (String.eqb_spec (method req) "OPTIONS"); [contradiction|].
  rewrite Ha, Bool.eqb_reflx. reflexivity.
Qed.

(** A token of the other kind is turned away before the view runs. *)
Lemma jwt_required_other_kind refresh view req identity claims t :
  method req <> "OPTIONS" ->
  auth req = Presented (negb refresh) identity claims ->
  jwt_required refresh view req t = (Ok invalid_token_callback, t).
Proof.
  intros Hm Ha. unfold jwt_required.
  destruct (String.eqb_spec (method req) "OPTIONS"); [contradiction|].
  rewrite Ha. destruct refresh; reflexivity.
Qed.

Lemma not_options req :
  method req <> "OPTIONS" -> String.eqb (method req) "OPTIONS" = false.
Proof. intros H. apply String.eqb_neq. exact H. Qed.

(** What [try ... except Exception] around a body amounts to. *)
Lemma try_except_ok {A} (m : M A) h t a t' :
  m t = (Ok a, t') -> try_except m h t = (Ok a, t').
Proof. unfold try_except. intros ->. reflexivity. Qed.

Lemma try_except_raise {A} (m : M A) h t e t' :
  m t = (Raise e, t') -> try_except m h t = h e t'.
Proof. unfold try_except. intros ->. reflexivity. Qed.

Lemma bind_step {A B} (m : M A) (k : A -> M B) t a t' :
  m t = (Ok a, t') -> bind m k t = k a t'.
Proof. unfold bind. intros ->. reflexivity. Qed.

Lemma bind_stop {A B} (m : M A) (k : A -> M B) t e t' :
  m t = (Raise e, t') -> bind m k t = (Raise e, t').
Proof. unfold bind. intros ->. reflexivity. Qed.

End Steps.

(* ===================================================================== *)
(** * The statement text and the reset tokens *)
(* ===================================================================== *)

Section Statement.

Import Py Eff Db Http.

Lemma placeholders_of_keys (ps : params) :
  map (fun kv => ":" ++ fst kv) ps
  = map (fun k => ":" ++ k) (map fst ps).
Proof. rewrite map_map. reflexivity. Qed.

(** X3.  The text of the statement [call_procedure] builds depends on the
    name of the procedure and on the names of the parameters only: the
    values never enter the text, they travel as bound parameters. *)
Theorem query_text_ignores_values proc_name (ps ps' : params) :
  map fst ps = map fst ps' ->
  query_text proc_name ps = query_text proc_name ps'.
Proof.
  intros H. unfold query_text.
  rewrite !placeholders_of_keys, H.
  destruct ps as [|kv ps0], ps' as [|kv' ps0']; try discriminate H;
    reflexivity.
Qed.

End Statement.

Section StatementScenario.

Import Py Eff Db Http.

Lemma query_text_ignores_values_witness :
  query_text "verify_user_login" [("p_email", VStr "alice@example.com")]
  = query_text "verify_user_login"
      [("p_email", VStr "x'); DROP TABLE users; --")].
Proof.
  apply (query_text_ignores_values "verify_user_login"
           [("p_email", VStr "alice@example.com")]
           [("p_email", VStr "x'); DROP TABLE users; --")]).
  reflexivity.
Defined.

End StatementScenario.

Section ResetToken.

Import Py Eff Db Http Password.

Context {L : Library} {W : World}.

(** X4.  [generate_secure_token(length)] never fails: it makes [length]
    draws from the 62 letters and digits and nothing else, the token has
    [length] characters, and every one of them is an answer of
    [secrets.choice] on that alphabet. *)
Theorem generate_secure_token_draws n t :
  exists token,
    generate_secure_token n t
    = (Ok token, (t ++ repeat (SecretsChoice alphabet) n)%list)
    /\ String.length token = n
    /\ String.length alphabet = 62%nat
    /\ forall c, In c (chars token) ->
                 exists t', c = on_secrets_choice t' alphabet.
Proof.
  revert t. induction n as [|n IH]; intros t.
  - exists "". cbn [generate_secure_token ret repeat].
    rewrite app_nil_r. repeat split. intros c [].
  - destruct (IH (record t (SecretsChoice alphabet)))
      as (token & Hgen & Hlen & Halpha & Hin).
    exists (String (on_secrets_choice t alphabet) token).
    cbn [generate_secure_token]. unfold bind at 1, secrets_choice.
    unfold bind at 1. rewrite Hgen. cbn [ret].
    unfold record. rewrite <- app_assoc. cbn [app repeat].
    repeat split.
    + cbn. rewrite Hlen. reflexivity.
    + intros c [<-|Hc]; [eexists; reflexivity | apply Hin, Hc].
Qed.

End ResetToken.

(* ===================================================================== *)
(** * The validators *)
(* ===================================================================== *)

Section Words.

Import Py Re.

Lemma word_cat_inv r1 r2 l :
  word (Cat r1 r2) l ->
  exists l1 l2, l = (l1 ++ l2)%list /\ word r1 l1 /\ word r2 l2.
Proof. intros H. inversion H; subst. eauto. Qed.

Lemma word_class_inv p l :
  word (Class p) l -> exists c, l = [c] /\ p c = true.
Proof. intros H. inversion H; subst. eauto. Qed.

Lemma word_star_class p l :
  word (Star (Class p)) l <-> Forall (fun c => p c = true) l.
Proof.
  split.
  - intros H. remember (Star (Class p)) as r eqn:Er.
    induction H as [| | | | | |r0 s1 s2 H1 _ H2 IH2]; try discriminate.
    + constructor.
    + injection Er as ->. inversion H1; subst. cbn.
      constructor; [assumption | apply IH2; reflexivity].
  - intros H. induction H as [|c l Hc _ IH]; [constructor|].
    change (c :: l) with ([c] ++ l)%list.
    constructor; [constructor; assumption | assumption].
Qed.

Lemma word_plus_class p l :
  word (Plus (Class p)) l <-> l <> [] /\ Forall (fun c => p c = true) l.
Proof.
  unfold Plus. split.
  - intros H. apply word_cat_inv in H.
    destruct H as (l1 & l2 & -> & H1 & H2).
    apply word_class_inv in H1. destruct H1 as (c & -> & Hc).
    apply word_star_class in H2. cbn.
    split; [discriminate | constructor; assumption].
  - intros [Hne H]. destruct H as [|c l Hc Hl]; [contradiction|].
    change (c :: l) with ([c] ++ l)%list.
    constructor; [constructor; assumption | apply word_star_class, Hl].
Qed.

End Words.

Section Validators.

Import Py Re Eff Db Http Spec.

Lemma address_char_class c :
  Auth.not_space_or_at c = true <-> address_char c.
Proof.
  unfold Auth.not_space_or_at, address_char.
  rewrite negb_true_iff, orb_false_iff. split.
  - intros [Hs Ha]. split; [assumption|].
    intros ->. discriminate Ha.
  - intros [Hs Ha]. split; [assumption|].
    apply Nat.eqb_neq. intros E. apply Ha.
    unfold code in E. rewrite <- (ascii_nat_embedding c), E. reflexivity.
Qed.

Lemma address_part_word l :
  word (Plus (Class Auth.not_space_or_at)) l <-> address_part l.
Proof.
  rewrite word_plus_class. unfold address_part.
  split; intros [Hne H]; (split; [assumption|]);
    (eapply Forall_impl; [|exact H]); intros c; apply address_char_class.
Qed.

Lemma code_is c n :
  (n < 256)%nat -> Nat.eqb (code c) n = true <-> c = ascii_of_nat n.
Proof.
  intros Hn. unfold code. rewrite Nat.eqb_eq. split.
  - intros E. rewrite <- (ascii_nat_embedding c), E. reflexivity.
  - intros ->. apply nat_ascii_embedding. assumption.
Qed.

(** X1.  [validate_email] accepts exactly the texts of the form
    [local@domain.tld], where each of the three parts has at least one
    character and holds neither white space nor [@], with at most one line
    feed after them; the copy of the function in the password routes
    decides the same. *)
Theorem validate_email_shape s :
  (Auth.validate_email s = true <->
   exists local domain tld tail,
     address_part local /\ address_part domain /\ address_part tld
     /\ (tail = [] \/ tail = [LF])
     /\ chars s
        = (local ++ "@"%char :: domain ++ "."%char :: tld ++ tail)%list)
  /\ Password.validate_email s = Auth.validate_email s.
Proof.
  split; [|reflexivity].
  unfold Auth.validate_email, match_anchored.
  rewrite fullmatch_word. unfold Auth.email_pattern. split.
  - intros H.
    apply word_cat_inv in H. destruct H as (l0 & tail & E0 & H & Htail).
    apply word_cat_inv in H. destruct H as (local & l1 & E1 & Hlocal & H).
    apply word_cat_inv in H. destruct H as (at_ & l2 & E2 & Hat & H).
    apply word_cat_inv in H. destruct H as (domain & l3 & E3 & Hdomain & H).
    apply word_cat_inv in H. destruct H as (dot & tld & E4 & Hdot & Htld).
    apply word_class_inv in Hat. destruct Hat as (a & -> & Ha).
    apply word_class_inv in Hdot. destruct Hdot as (d & -> & Hd).
    apply (code_is a 64) in Ha; [|lia]. apply (code_is d 46) in Hd; [|lia].
    subst. exists local, domain, tld, tail.
    repeat split; try (apply address_part_word; assumption).
    + inversion Htail as [| | |? ? ? He|? ? ? Hn| |]; subst.
      * inversion He. left. reflexivity.
      * apply word_class_inv in Hn. destruct Hn as (c & -> & Hc).
        apply (code_is c 10) in Hc; [|lia]. subst. right. reflexivity.
    + rewrite E0. cbn. repeat (rewrite <- app_assoc; cbn). reflexivity.
  - intros (local & domain & tld & tail & Hl & Hd & Ht & Htail & E).
    rewrite E.
    replace (local ++ "@"%char :: domain ++ "."%char :: tld ++ tail)%list
      with ((local ++ ["@"%char] ++ domain ++ ["."%char] ++ tld) ++ tail)%list
      by (repeat (rewrite <- app_assoc; cbn); reflexivity).
    constructor.
    + constructor; [apply address_part_word, Hl|].
      constructor; [constructor; reflexivity|].
      constructor; [apply address_part_word, Hd|].
      constructor; [constructor; reflexivity|].
      apply address_part_word, Ht.
    + destruct Htail as [-> | ->].
      * apply w_alt_l. constructor.
      * apply w_alt_r. constructor. reflexivity.
Qed.


End Validators.

(* ===================================================================== *)
(** * Refresh, logout and the debug route *)
(* ===================================================================== *)

Section Sessions.

Import Py Eff Db Http Auth Spec.

Context {L : Library} {W : World}.

Lemma identity_as_int_text uid t :
  identity_as_int (VStr (str_int uid)) t = (Ok (Some uid), t).
Proof.
  unfold identity_as_int, try_except_only, try_except, bind, lift, ret.
  cbn [py_int]. rewrite int_of_str_str_int. reflexivity.
Qed.

Lemma identity_as_int_rejected identity e t :
  py_int identity = Raise e ->
  is_value_type e = true ->
  identity_as_int identity t = (Ok None, t).
Proof.
  intros Hi He.
  unfold identity_as_int, try_except_only, try_except, bind, lift, ret.
  rewrite Hi, He. reflexivity.
Qed.

(** X5.  A refresh request that presents the refresh token of the user
    [uid], when [get_user_by_id] reports success, is answered with status
    200 and a new access token: its identity is the identity of the
    refresh token, its claims are the address, the name and the
    verification flag of the row just fetched.  That access token opens
    [verify-token] for the same user, while the refresh token itself is
    turned away there with status 401. *)
Theorem refresh_issues_access_token
    uid rreq t message email full_name email_verified rest more :
  method rreq <> "OPTIONS" ->
  auth rreq = present (create_refresh_token (str_int uid)) ->
  run (call_procedure "get_user_by_id" [("p_user_id", VInt uid)]) t
  = Ok ((VStr "success" :: message :: email :: full_name :: email_verified
           :: rest) :: more) ->
  let token :=
    create_access_token (str_int uid)
      [("email", email); ("full_name", full_name);
       ("email_verified", py_bool email_verified)] in
  run (refresh rreq) t = Ok (reply 200 (VDict [("access_token", token)]))
  /\ (forall vreq,
         method vreq <> "OPTIONS" ->
         auth vreq = present token ->
         run (verify_token vreq) t
         = Ok (reply 200
                 (VDict [("valid", VBool true);
                         ("user",
                          VDict [("id", VInt uid);
                                 ("email", email);
                                 ("full_name", full_name);
                                 ("email_verified", py_bool email_verified);
                                 ("name", full_name)])])))
  /\ (forall vreq t',
         method vreq <> "OPTIONS" ->
         auth vreq = present (create_refresh_token (str_int uid)) ->
         verify_token vreq t' = (Ok invalid_token_callback, t')).
Proof.
  intros Hm Ha Hdb token. split; [|split].
  - unfold run, refresh.
    rewrite (jwt_required_presented true _ rreq (VStr (str_int uid)) [] Hm Ha).
    unfold refresh_view. rewrite (not_options _ Hm).
    unfold try_except, refresh_body.
    rewrite (bind_step _ _ _ _ _ (identity_as_int_text uid t)).
    rewrite (bind_ok _ _ _ _ Hdb). reflexivity.
  - intros vreq Hvm Hva.
    apply (verify_token_refetches uid _ vreq t message email full_name
             email_verified rest more Hvm Hva Hdb).
  - intros vreq t' Hvm Hva. unfold verify_token.
    apply (jwt_required_other_kind false _ vreq (VStr (str_int uid)) []);
      assumption.
Qed.

(** X6.  A token whose identity [int()] rejects with a [ValueError] or a
    [TypeError]: [verify-token] answers 401 with ["Invalid user ID
    format"], [refresh] answers 401 with ["Invalid user ID"], and [logout],
    which converts the identity without a guard of its own, answers 500
    with ["Logout failed"].  None of the three calls the database. *)
Theorem identity_that_is_no_number identity claims e req rreq t :
  method req <> "OPTIONS" ->
  method rreq <> "OPTIONS" ->
  auth req = Presented false identity claims ->
  auth rreq = Presented true identity claims ->
  is_none identity = false ->
  py_int identity = Raise e ->
  is_value_type e = true ->
  verify_token req t
  = (Ok (reply 401 (VDict [("error", VStr "Invalid user ID format")])), t)
  /\ refresh rreq t
     = (Ok (reply 401 (VDict [("error", VStr "Invalid user ID")])), t)
  /\ logout req t
     = (Ok (reply 500 (VDict [("error", VStr "Logout failed")])), t).
Proof.
  intros Hm Hrm Ha Hra Hn Hi He. split; [|split].
  - unfold verify_token.
    rewrite (jwt_required_presented false _ req identity claims Hm Ha).
    unfold verify_token_view. rewrite (not_options _ Hm).
    unfold try_except, verify_token_body. rewrite Hn.
    rewrite (bind_step _ _ _ _ _ (identity_as_int_rejected _ _ t Hi He)).
    reflexivity.
  - unfold refresh.
    rewrite (jwt_required_presented true _ rreq identity claims Hrm Hra).
    unfold refresh_view. rewrite (not_options _ Hrm).
    unfold try_except, refresh_body.
    rewrite (bind_step _ _ _ _ _ (identity_as_int_rejected _ _ t Hi He)).
    reflexivity.
  - unfold logout.
    rewrite (jwt_required_presented false _ req identity claims Hm Ha).
    unfold logout_view. rewrite (not_options _ Hm).
    unfold try_except, logout_body. rewrite Hi. reflexivity.
Qed.

(** X7.  [logout] answers 200 with ["Logout successful"] whether or not
    [get_user_by_id] knows the user, and whatever rows
    [update_user_activity] returns: an error row of that procedure is not
    looked at.  The activity is recorded for the identifier of the
    token. *)
Theorem logout_reports_success
    uid identity claims req t rows activity_rows :
  method req <> "OPTIONS" ->
  auth req = Presented false identity claims ->
  py_int identity = Ok uid ->
  run (call_procedure "get_user_by_id" [("p_user_id", VInt uid)]) t
  = Ok rows ->
  rows = []
  \/ (exists status rest more,
         rows = (status :: rest) :: more /\ eq_str status "success" = false)
  \/ (exists message email full_name rest more,
         rows = (VStr "success" :: message :: email :: full_name :: rest)
                :: more) ->
  let t1 := calls (call_procedure "get_user_by_id"
                     [("p_user_id", VInt uid)]) t in
  run (call_procedure "update_user_activity"
         [("p_user_id", VInt uid); ("p_activity_type", VStr "logout")]) t1
  = Ok activity_rows ->
  run (logout req) t
  = Ok (reply 200 (VDict [("message", VStr "Logout successful")]))
  /\ calls (logout req) t
     = calls (call_procedure "update_user_activity"
                [("p_user_id", VInt uid);
                 ("p_activity_type", VStr "logout")]) t1.
Proof.
  intros Hm Ha Hi Hdb Hrows t1 Hact.
  assert (Hlogged : exists user, logged_user rows = Ok user).
  { destruct Hrows as [-> | [(status & rest & more & -> & Hs)
                            | (message & email & full_name & rest & more
                               & ->)]].
    - eexists. reflexivity.
    - cbn. rewrite Hs. eexists. reflexivity.
    - eexists. reflexivity. }
  destruct Hlogged as [user Huser].
  unfold run, calls, logout.
  rewrite (jwt_required_presented false _ req identity claims Hm Ha).
  unfold logout_view. rewrite (not_options _ Hm).
  unfold try_except, logout_body. rewrite Hi, bind_lift_ok.
  rewrite (bind_ok _ _ _ _ Hdb). fold t1. rewrite Huser, bind_lift_ok.
  rewrite (bind_ok _ _ _ _ Hact). split; reflexivity.
Qed.

(** X8.  The debug route answers every request, with or without a token:
    the status is 200 in every case and no header is added.  When
    [get_user_by_id] returns rows for the user 4, the body carries them as
    they are; when the call raises, the body carries the text of the
    exception and the traceback. *)
Theorem debug_procedures_answers_anyone req t :
  exists resp,
    run (debug_procedures req) t = Ok resp
    /\ status resp = 200
    /\ headers resp = []
    /\ (forall rows,
           run (call_procedure "get_user_by_id" [("p_user_id", VInt 4)]) t
           = Ok rows ->
           field "get_user_by_id_result" (body resp)
           = Some (VList (map VList rows)))
    /\ (forall e,
           run (call_procedure "get_user_by_id" [("p_user_id", VInt 4)]) t
           = Raise e ->
           body resp = VDict [("error", VStr (str_exn e));
                              ("traceback", VStr (format_exc e))]).
Proof.
  unfold run, debug_procedures, try_except, debug_procedures_body, bind.
  destruct (call_procedure "get_user_by_id" [("p_user_id", VInt 4)] t)
    as [[rows|e] t'] eqn:Hcall; cbn [ret fst].
  - eexists. split; [reflexivity|]. repeat split.
    + intros rows' E. injection E as <-. reflexivity.
    + intros e E. discriminate E.
  - eexists. split; [reflexivity|]. repeat split.
    + intros rows E. discriminate E.
    + intros e' E. injection E as <-. reflexivity.
Qed.

End Sessions.

Section SessionScenarios.

Import Py Eff Db Http Auth Spec Scenario.

Lemma refresh_issues_access_token_witness :
  @run _ (@refresh (table (accounts (VInt 1)))
            (post_as [] (create_refresh_token "42"))) []
  = Ok (reply 200 (VDict [("access_token", alice_token)])).
Proof.
  apply (@refresh_issues_access_token (table (accounts (VInt 1)))
           42 (post_as [] (create_refresh_token "42")) []
           (VStr "User found") (VStr "alice@example.com") (VStr "Alice Doe")
           (VInt 1) [] []).
  - discriminate.
  - reflexivity.
  - reflexivity.
Defined.

Lemma identity_that_is_no_number_witness :
  @logout (table (accounts (VInt 1)))
    (post_as [] (VToken false (VStr "forty-two") [])) []
  = (Ok (reply 500 (VDict [("error", VStr "Logout failed")])), []).
Proof.
  apply (@identity_that_is_no_number (table (accounts (VInt 1)))
           (VStr "forty-two") []
           (mk_exn ValueError
              "invalid literal for int() with base 10: 'forty-two'")
           (post_as [] (VToken false (VStr "forty-two") []))
           (post_as [] (VToken true (VStr "forty-two") [])) []).
  - discriminate.
  - discriminate.
  - reflexivity.
  - reflexivity.
  - reflexivity.
  - reflexivity.
  - reflexivity.
Defined.

Lemma logout_reports_success_witness :
  @run _ (@logout (table (fun q ps =>
                             if String.prefix "CALL update_user_activity(" q
                             then Ok [[VStr "error"; VStr "No such user"]]
                             else accounts (VInt 1) q ps))
            (post_as [] (VToken false (VStr "7") []))) []
  = Ok (reply 200 (VDict [("message", VStr "Logout successful")])).
Proof.
  apply (@logout_reports_success
           (table (fun q ps =>
                     if String.prefix "CALL update_user_activity(" q
                     then Ok [[VStr "error"; VStr "No such user"]]
                     else accounts (VInt 1) q ps))
           7 (VStr "7") [] (post_as [] (VToken false (VStr "7") [])) []
           [[VStr "error"; VStr "User not found"]]
           [[VStr "error"; VStr "No such user"]]).
  - discriminate.
  - reflexivity.
  - reflexivity.
  - reflexivity.
  - right. left. do 3 eexists. split; reflexivity.
  - reflexivity.
Defined.

End SessionScenarios.

(* ===================================================================== *)
(** * Setting a new password *)
(* ===================================================================== *)

Section Reset.

Import Py Re Eff Db Http Password Spec.

Context {L : Library} {W : World}.

(** A well-formed request gets as far as the checks on its fields. *)
Lemma reset_password_reaches_checks req token password t :
  reset_request token password req ->
  reset_password req t
  = try_except
      (if String.eqb (strip token) "" then
         ret (reply 400 (error_body "Reset token is required"))
       else
         bind (lift (validate_password password)) (fun pv =>
         let '(password_valid, password_message) := pv in
         if negb password_valid then
           ret (reply 400 (error_body password_message))
         else
           bind (call_procedure "verify_password_reset_token"
                   (verify_reset_params (strip token)))
                (reset_password_verdict (strip token) password)))
      (fun e => ret (reply 500 (error_body "Internal server error"))) t.
Proof.
  intros (d & (Hm & Hj) & Ht & Hp).
  unfold reset_password. rewrite (not_options _ Hm).
  unfold try_except, reset_password_body. rewrite Hj, bind_lift_ok.
  rewrite (assoc_some_truthy _ _ _ Ht). cbn [negb].
  unfold dict_get. rewrite Ht, Hp. cbn [rbind v_strip].
  rewrite !bind_lift_ok. reflexivity.
Qed.

(** X9.  [reset_password] turns a request away before anything leaves the
    process when the token is blank, and otherwise when the new password
    has fewer than eight characters, no letter or no digit: the answer is
    status 400, the token is checked first, and neither the procedure
    that verifies the token nor the hash function is called. *)
Theorem reset_password_rejects_before_database req token password t :
  reset_request token (VStr password) req ->
  strip token = ""
  \/ (len password < 8)%nat
  \/ (forall c, In c (chars password) -> is_ascii_letter c = false)
  \/ (forall c, In c (chars password) -> is_digit c = false) ->
  exists message,
    reset_password req t
    = (Ok (reply 400 (VDict [("error", VStr message)])), t)
    /\ (strip token = "" -> message = "Reset token is required")
    /\ (strip token <> "" -> (len password < 8)%nat ->
        message = "Password must be at least 8 characters long").
Proof.
  intros Hreq Hbad.
  rewrite (reset_password_reaches_checks _ _ _ _ Hreq).
  unfold try_except.
  destruct (String.eqb_spec (strip token) "") as [Hblank|Hgiven].
  - eexists. split; [reflexivity|]. split; [reflexivity | contradiction].
  - destruct Hbad as [Hb|Hweak]; [contradiction|].
    change (validate_password (VStr password))
      with (Auth.validate_password (VStr password)).
    rewrite validate_password_str, bind_lift_ok.
    rewrite <- !existsb_false_iff in Hweak.
    destruct (Nat.ltb_spec (len password) 8) as [Hshort|Hlong].
    + eexists. split; [reflexivity|].
      split; [contradiction | reflexivity].
    + destruct (existsb is_ascii_letter (chars password)) eqn:El;
        cbn [negb].
      * destruct (existsb is_digit (chars password)) eqn:Ed; cbn [negb].
        -- exfalso. destruct Hweak as [H|[H|H]]; [lia | congruence ..].
        -- eexists. split; [reflexivity|].
           split; [contradiction | lia].
      * eexists. split; [reflexivity|]. split; [contradiction | lia].
Qed.

(** X10.  No password is changed without a token the database accepts:
    when [verify_password_reset_token] returns no row, or a row whose
    status is not ["success"], [reset_password] answers 400 with
    ["Invalid or expired reset token"], whatever the message of the row,
    and the calls it has made are those of that one procedure: the
    password is not hashed and [reset_user_password] is not called. *)
Theorem reset_password_needs_valid_token
    req token password accepted t rows :
  reset_request token password req ->
  strip token <> "" ->
  validate_password password = Ok (true, accepted) ->
  run (call_procedure "verify_password_reset_token"
         (verify_reset_params (strip token))) t = Ok rows ->
  reports_failure rows ->
  run (reset_password req) t
  = Ok (reply 400 (VDict [("error", VStr "Invalid or expired reset token")]))
  /\ calls (reset_password req) t
     = calls (call_procedure "verify_password_reset_token"
                (verify_reset_params (strip token))) t.
Proof.
  intros Hreq Hgiven Hvalid Hdb Hfail.
  unfold run, calls.
  rewrite (reset_password_reaches_checks _ _ _ _ Hreq).
  unfold try_except.
  destruct (String.eqb_spec (strip token) ""); [contradiction|].
  rewrite Hvalid, bind_lift_ok. cbn [negb].
  rewrite (bind_ok _ _ _ _ Hdb).
  unfold reset_password_verdict.
  rewrite (reports_failure_not_success _ Hfail), bind_lift_ok.
  split; reflexivity.
Qed.

(** X11.  With a token the database accepts, the new password reaches the
    database only as the hash [generate_password_hash] returned for it:
    after the verification the handler hashes the password, then calls
    [reset_user_password] with the token, the user of the verified row and
    that hash, and makes no other call; when the procedure reports
    success the answer is 200 with ["Password reset successfully"]. *)
Theorem reset_password_stores_hash
    req token password accepted t message user_id rest more hash
    message' rest' more' :
  reset_request token password req ->
  strip token <> "" ->
  validate_password password = Ok (true, accepted) ->
  run (call_procedure "verify_password_reset_token"
         (verify_reset_params (strip token))) t
  = Ok ((VStr "success" :: message :: user_id :: rest) :: more) ->
  let t1 := calls (call_procedure "verify_password_reset_token"
                     (verify_reset_params (strip token))) t in
  on_generate_password_hash t1 password = Ok hash ->
  let t2 := record t1 (GeneratePasswordHash password) in
  run (call_procedure "reset_user_password"
         (reset_params (strip token) user_id hash)) t2
  = Ok ((VStr "success" :: message' :: rest') :: more') ->
  run (reset_password req) t
  = Ok (reply 200 (VDict [("message", VStr "Password reset successfully")]))
  /\ calls (reset_password req) t
     = calls (call_procedure "reset_user_password"
                (reset_params (strip token) user_id hash)) t2.
Proof.
  intros Hreq Hgiven Hvalid Hdb t1 Hhash t2 Hreset.
  unfold run, calls.
  rewrite (reset_password_reaches_checks _ _ _ _ Hreq).
  unfold try_except.
  destruct (String.eqb_spec (strip token) ""); [contradiction|].
  rewrite Hvalid, bind_lift_ok. cbn [negb].
  rewrite (bind_ok _ _ _ _ Hdb). fold t1.
  unfold reset_password_verdict.
  cbn [not_success index nth_error rbind eq_str String.eqb Ascii.eqb
       Bool.eqb negb first_row_at].
  rewrite !bind_lift_ok.
  assert (Hg : generate_password_hash password t1 = (Ok hash, t2))
    by (unfold generate_password_hash; rewrite Hhash; reflexivity).
  rewrite (bind_step _ _ _ _ _ Hg).
  fold (reset_params (strip token) user_id hash).
  rewrite (bind_ok _ _ _ _ Hreset). split; reflexivity.
Qed.

End Reset.

Section ResetScenarios.

Import Py Re Eff Db Http Password Spec Scenario.

Lemma reset_password_rejects_before_database_witness :
  @reset_password (table (reset_db (VInt 1) []))
    (post [("token", VStr "   "); ("password", VStr "short")]) []
  = (Ok (reply 400 (VDict [("error", VStr "Reset token is required")])), []).
Proof.
  destruct (@reset_password_rejects_before_database
              (table (reset_db (VInt 1) []))
              (post [("token", VStr "   "); ("password", VStr "short")])
              "   " "short" [])
    as (message & Hrun & Hblank & _).
  - eexists. split; [split; [discriminate | reflexivity] |].
    split; reflexivity.
  - left. reflexivity.
  - rewrite Hrun, (Hblank eq_refl). reflexivity.
Defined.

Lemma reset_password_needs_valid_token_witness :
  @run _ (@reset_password (table (reset_db (VInt 1) []))
            (post [("token", VStr "abc"); ("password", VStr "correct1horse")]))
    []
  = Ok (reply 400 (VDict [("error", VStr "Invalid or expired reset token")])).
Proof.
  apply (@reset_password_needs_valid_token (table (reset_db (VInt 1) []))
           (post [("token", VStr "abc"); ("password", VStr "correct1horse")])
           "abc" (VStr "correct1horse") "Password is valid" [] []).
  - eexists. split; [split; [discriminate | reflexivity] |].
    split; reflexivity.
  - discriminate.
  - reflexivity.
  - reflexivity.
  - left. reflexivity.
Defined.

Lemma reset_password_stores_hash_witness :
  @calls _ (@reset_password (table token_db) new_password_request) []
  = [Execute "CALL verify_password_reset_token(:p_token)"
       [("p_token", VStr "abc")];
     Commit; Close;
     GeneratePasswordHash (VStr "correct1horse");
     Execute ("CALL reset_user_password(:p_token, :p_user_id, "
              ++ ":p_new_password_hash)")
       [("p_token", VStr "abc"); ("p_user_id", VInt 42);
        ("p_new_password_hash", VStr (plain_hash "correct1horse"))];
     Commit; Close].
Proof.
  destruct (@reset_password_stores_hash (table token_db)
              new_password_request " abc " (VStr "correct1horse")
              "Password is valid" []
              (VStr "Token is valid") (VInt 42)
              [VStr "alice@example.com"; VStr "Alice Doe"] []
              (plain_hash "correct1horse")
              (VStr "Password updated") [] [])
    as [_ Hcalls].
  - eexists. split; [split; [discriminate | reflexivity] |].
    split; reflexivity.
  - discriminate.
  - reflexivity.
  - reflexivity.
  - reflexivity.
  - reflexivity.
  - rewrite Hcalls. reflexivity.
Defined.

End ResetScenarios.

(* ===================================================================== *)
(** * Product updates and settings *)
(* ===================================================================== *)

Section ProductUpdates.

Import Py Eff Db Http Dashboard Spec.

Context {L : Library} {W : World}.

(** The answer built from the rows makes no call. *)
Lemma relay_message_pure failure rows t :
  relay_message failure rows t = (run (relay_message failure rows) [], t).
Proof.
  unfold run, relay_message. destruct rows as [|row rest]; [reflexivity|].
  unfold bind, lift, ret.
  destruct (index row 0) as [status|]; [|reflexivity].
  destruct (index row 1) as [message|]; [|reflexivity].
  destruct (negb (eq_str status "success")); reflexivity.
Qed.

Lemma nonempty_truthy (d : list (string * value)) :
  d <> [] -> truthy (VDict d) = true.
Proof. destruct d; [contradiction | reflexivity]. Qed.

Lemma signed_in_view req identity uid view :
  signed_in req identity uid ->
  exists claims, jwt_required false view req = view req identity claims.
Proof.
  intros (Hm & (claims & Ha) & _). exists claims.
  apply jwt_required_presented; assumption.
Qed.

(** A signed-in request with a JSON object gets as far as the conversion
    of the two prices. *)
Lemma update_product_reaches_prices product_id req identity uid d webhook t :
  signed_in req identity uid ->
  get_json req = Ok (VDict d) ->
  d <> [] ->
  dict_get (VDict d) "discord_webhook_url" (VStr "") = Ok (VStr webhook) ->
  update_product product_id req t
  = try_except
      (bind (lift (float_if_given (sent d "min_price_alert"))) (fun min =>
       bind (lift (float_if_given (sent d "max_price_alert"))) (fun max =>
       bind (store_update uid product_id min max (strip webhook)
               (sent d "sms_notifications_enabled"))
            (relay_message "Failed to update product"))))
      (fun e => ret (reply 500 (error_body "Failed to update product"))) t.
Proof.
  intros Hs Hj Hd Hw.
  destruct (signed_in_view _ _ _ (update_product_view product_id) Hs)
    as [claims Hv].
  destruct Hs as (Hm & _ & Hi).
  unfold update_product. rewrite Hv.
  unfold update_product_view. rewrite (not_options _ Hm).
  unfold try_except, update_product_body.
  rewrite Hi, bind_lift_ok, Hj, bind_lift_ok, (nonempty_truthy _ Hd).
  cbn [negb]. rewrite Hw. cbn [rbind v_strip dict_get].
  rewrite !bind_lift_ok. reflexivity.
Qed.

(** X12.  [update_product] with a price alert that [float()] does not
    accept: the answer is status 500 with ["Failed to update product"],
    as for a failure of the database, and no procedure is called. *)
Theorem update_product_bad_price
    product_id req identity uid d webhook e t :
  signed_in req identity uid ->
  get_json req = Ok (VDict d) ->
  d <> [] ->
  dict_get (VDict d) "discord_webhook_url" (VStr "") = Ok (VStr webhook) ->
  float_if_given (sent d "min_price_alert") = Raise e
  \/ ((exists min, float_if_given (sent d "min_price_alert") = Ok min)
      /\ float_if_given (sent d "max_price_alert") = Raise e) ->
  update_product product_id req t
  = (Ok (reply 500 (VDict [("error", VStr "Failed to update product")])), t).
Proof.
  intros Hs Hj Hd Hw Hbad.
  rewrite (update_product_reaches_prices _ _ _ _ _ _ _ Hs Hj Hd Hw).
  unfold try_except.
  destruct Hbad as [Hmin | [[min Hmin] Hmax]].
  - rewrite Hmin. reflexivity.
  - rewrite Hmin, bind_lift_ok, Hmax. reflexivity.
Qed.

(** The [except] clause of a view makes no call of its own. *)
Lemma guarded_calls (m : M response) (resp : response) t :
  snd (try_except m (fun e => ret resp) t) = snd (m t).
Proof.
  unfold try_except. destruct (m t) as [[a|e] t']; reflexivity.
Qed.

Lemma store_update_first_call uid product_id min max discord sms t :
  exists rest,
    calls (store_update uid product_id min max discord sms) t
    = (t ++ Execute (query_text "update_user_product_with_webhook"
                       (enhanced_update_params uid product_id min max
                          discord sms))
              (enhanced_update_params uid product_id min max discord sms)
            :: rest)%list.
Proof.
  unfold store_update.
  fold (enhanced_update_params uid product_id min max discord sms).
  fold (old_update_params uid product_id min max).
  destruct (call_procedure_executes "update_user_product_with_webhook"
              (enhanced_update_params uid product_id min max discord sms) t)
    as [rest Hrest].
  unfold calls, try_except in *.
  destruct (call_procedure "update_user_product_with_webhook" _ t)
    as [[rows|e] t1]; cbn [snd] in *.
  - exists rest. exact Hrest.
  - destruct (call_procedure_executes "update_user_product"
                (old_update_params uid product_id min max) t1)
      as [rest' Hrest'].
    unfold calls in Hrest'. rewrite Hrest', Hrest.
    rewrite <- app_assoc. cbn [app]. eexists. reflexivity.
Qed.

Lemma bind_pure_calls {A} (m : M A) (k : A -> M response) t :
  (forall a t', k a t' = (run (k a) [], t')) ->
  snd (bind m k t) = snd (m t).
Proof.
  intros Hk. unfold bind. destruct (m t) as [[a|e] t']; [|reflexivity].
  rewrite Hk. reflexivity.
Qed.

(** X13.  The same request body, with a webhook address that is not
    blank and does not start with one of the two Discord prefixes:
    [update_user_settings] answers 400 with ["Invalid Discord webhook URL
    format"] and calls nothing, while [update_product] applies no such
    check and hands the stripped address to
    [update_user_product_with_webhook]. *)
Theorem webhook_checked_for_settings_only
    product_id req identity uid d webhook min max t :
  signed_in req identity uid ->
  get_json req = Ok (VDict d) ->
  d <> [] ->
  dict_get (VDict d) "discord_webhook_url" (VStr "") = Ok (VStr webhook) ->
  strip webhook <> "" ->
  is_discord_webhook (strip webhook) = false ->
  float_if_given (sent d "min_price_alert") = Ok min ->
  float_if_given (sent d "max_price_alert") = Ok max ->
  update_user_settings req t
  = (Ok (reply 400
           (VDict [("error", VStr "Invalid Discord webhook URL format")])),
     t)
  /\ exists rest,
       calls (update_product product_id req) t
       = (t ++ Execute
                 ("CALL update_user_product_with_webhook(:p_user_id, "
                  ++ ":p_product_id, :p_min_price_alert, "
                  ++ ":p_max_price_alert, :p_discord_webhook_url, "
                  ++ ":p_sms_notifications_enabled)")
                 [("p_user_id", VInt uid);
                  ("p_product_id", VInt product_id);
                  ("p_min_price_alert", min);
                  ("p_max_price_alert", max);
                  ("p_discord_webhook_url", VStr (strip webhook));
                  ("p_sms_notifications_enabled",
                   sent d "sms_notifications_enabled")]
               :: rest)%list.
Proof.
  intros Hs Hj Hd Hw Hne Hnd Hmin Hmax. split.
  - destruct (signed_in_view _ _ _ update_user_settings_view Hs)
      as [claims Hv].
    destruct Hs as (Hm & _ & Hi).
    unfold update_user_settings. rewrite Hv.
    unfold update_user_settings_view. rewrite (not_options _ Hm).
    unfold try_except, update_user_settings_body.
    rewrite Hi, bind_lift_ok, Hj, bind_lift_ok, (nonempty_truthy _ Hd).
    cbn [negb]. rewrite Hw. cbn [rbind v_strip]. rewrite bind_lift_ok.
    destruct (String.eqb_spec (strip webhook) ""); [contradiction|].
    rewrite Hnd. reflexivity.
  - unfold calls.
    rewrite (update_product_reaches_prices _ _ _ _ _ _ _ Hs Hj Hd Hw).
    rewrite guarded_calls.
    rewrite Hmin, bind_lift_ok, Hmax, bind_lift_ok.
    rewrite bind_pure_calls by (intros; apply relay_message_pure).
    destruct (store_update_first_call uid product_id min max (strip webhook)
                (sent d "sms_notifications_enabled") t) as [rest Hrest].
    unfold calls in Hrest.
    exists rest. rewrite Hrest. unfold enhanced_update_params.
    destruct (String.eqb_spec (strip webhook) ""); [contradiction|].
    reflexivity.
Qed.



End ProductUpdates.

Section ProductUpdateScenarios.

Import Py Eff Db Http Dashboard Spec Scenario.

Lemma update_product_bad_price_witness :
  @update_product plain (table enhanced_schema) 9 cheap_request []
  = (Ok (reply 500 (VDict [("error", VStr "Failed to update product")])), []).
Proof.
  apply (@update_product_bad_price plain (table enhanced_schema) 9
           cheap_request (VStr "42") 42
           [("min_price_alert", VStr "cheap")] ""
           (mk_exn ValueError "could not convert string to float: 'cheap'")
           []).
  - split; [discriminate|]. split; [eexists; reflexivity | reflexivity].
  - reflexivity.
  - discriminate.
  - reflexivity.
  - left. reflexivity.
Defined.

Lemma webhook_checked_for_settings_only_witness :
  @update_user_settings (table enhanced_schema) foreign_webhook_request []
  = (Ok (reply 400
           (VDict [("error", VStr "Invalid Discord webhook URL format")])),
     []).
Proof.
  apply (@webhook_checked_for_settings_only plain (table enhanced_schema) 9
           foreign_webhook_request (VStr "42") 42
           [("discord_webhook_url", VStr " https://example.org/hook ");
            ("min_price_alert", VInt 10)]
           " https://example.org/hook "
           (VFloat (float_of_Z 10)) VNone []).
  - split; [discriminate|]. split; [eexists; reflexivity | reflexivity].
  - reflexivity.
  - discriminate.
  - reflexivity.
  - discriminate.
  - reflexivity.
  - reflexivity.
  - reflexivity.
Defined.


End ProductUpdateScenarios.

(* ===================================================================== *)
(** * Settings and the overview *)
(* ===================================================================== *)

Section Rows.

Import Py Eff Db Http Dashboard Spec.

Lemma index_nth (r : row) i :
  (i < List.length r)%nat -> index r i = Ok (nth i r VNone).
Proof.
  intros H. unfold index.
  destruct (nth_error r i) as [v|] eqn:E.
  - rewrite (nth_error_nth _ _ VNone E). reflexivity.
  - apply nth_error_None in E. lia.
Qed.



End Rows.

Section Settings.

Import Py Eff Db Http Dashboard Spec.

Context {L : Library} {W : World}.






End Settings.

Section Overview.

Import Py Eff Db Http Dashboard Spec.

Context {L : Library} {W : World} {D : Decimals}.

Lemma overview_rows_raise uid t e1 e2 :
  run (call_procedure "get_user_products_with_data"
         [("p_user_id", VInt uid)]) t = Raise e1 ->
  run (call_procedure "get_user_products" [("p_user_id", VInt uid)])
      (calls (call_procedure "get_user_products_with_data"
                [("p_user_id", VInt uid)]) t) = Raise e2 ->
  run (overview_rows uid) t = Raise e2.
Proof.
  unfold run, calls, overview_rows, try_except.
  destruct (call_procedure "get_user_products_with_data" _ t) as [r t1].
  cbn [fst snd]. intros -> H2. exact H2.
Qed.

(** X16.  When [get_user_products_with_data] and [get_user_products]
    both raise, the two handlers that read them part ways:
    [get_user_products] catches the second exception as well and answers
    200 with an empty list of products, [dashboard_overview] does not and
    answers 500 with ["Failed to load dashboard data"]. *)
Theorem overview_fails_where_products_are_empty
    req identity uid t e1 e2 :
  signed_in req identity uid ->
  run (call_procedure "get_user_products_with_data"
         [("p_user_id", VInt uid)]) t = Raise e1 ->
  run (call_procedure "get_user_products" [("p_user_id", VInt uid)])
      (calls (call_procedure "get_user_products_with_data"
                [("p_user_id", VInt uid)]) t) = Raise e2 ->
  run (get_user_products req) t
  = Ok (reply 200 (VDict [("products", VList []);
                          ("debug", VStr "No results found")]))
  /\ run (dashboard_overview req) t
     = Ok (reply 500 (VDict [("error",
                              VStr "Failed to load dashboard data")])).
Proof.
  intros Hs H1 H2.
  destruct (signed_in_view _ _ _ get_user_products_view Hs) as [claims Hv].
  destruct (signed_in_view _ _ _ dashboard_overview_view Hs) as [claims' Hv'].
  destruct Hs as (Hm & _ & Hi).
  split.
  - destruct (fetch_products_falls_back uid t e1 H1) as [_ Hnone].
    rewrite H2 in Hnone.
    unfold run at 1, get_user_products. rewrite Hv.
    unfold get_user_products_view. rewrite (not_options _ Hm).
    unfold try_except, get_user_products_body.
    rewrite Hi, bind_lift_ok, (bind_ok _ _ _ _ Hnone). reflexivity.
  - pose proof (overview_rows_raise uid t e1 e2 H1 H2) as Hraise.
    unfold run at 1, dashboard_overview. rewrite Hv'.
    unfold dashboard_overview_view. rewrite (not_options _ Hm).
    unfold try_except, dashboard_overview_body.
    rewrite Hi, bind_lift_ok, (bind_raise _ _ _ _ Hraise). reflexivity.
Qed.

Lemma in_stock_count_le products :
  (in_stock_count products <= List.length products)%nat.
Proof. unfold in_stock_count. apply filter_length_le. Qed.

Lemma recent_activity_length products :
  List.length (map activity (firstn 5 products))
  = Nat.min 5 (List.length products).
Proof. rewrite length_map, length_firstn. reflexivity. Qed.

(** X17.  Every answer of [dashboard_overview] with status 200 to a
    request that is not a preflight carries a product count, a number of
    restocks that does not exceed it, and a list of recent activity with
    as many entries as there are products, but never more than five. *)
Theorem dashboard_overview_counts req t resp :
  method req <> "OPTIONS" ->
  run (dashboard_overview req) t = Ok resp ->
  status resp = 200 ->
  exists total restocks recent,
    field "total_products" (body resp) = Some (VInt (Z.of_nat total))
    /\ field "restocks_found" (body resp) = Some (VInt (Z.of_nat restocks))
    /\ field "recent_activity" (body resp) = Some (VList recent)
    /\ (restocks <= total)%nat
    /\ List.length recent = Nat.min 5 total.
Proof.
  intros Hm Hrun Hst. revert Hrun Hst.
  unfold run, dashboard_overview, jwt_required.
  rewrite (not_options _ Hm).
  destruct (auth req) as [| | |refresh identity claims];
    try (intros Hrun; injection Hrun as <-; intros Hst; discriminate Hst).
  destruct refresh; cbn [Bool.eqb];
    [intros Hrun; injection Hrun as <-; intros Hst; discriminate Hst|].
  unfold dashboard_overview_view. rewrite (not_options _ Hm).
  unfold try_except, dashboard_overview_body, bind, lift, ret.
  destruct (py_int identity) as [uid|e];
    [|intros Hrun; injection Hrun as <-; intros Hst; discriminate Hst].
  destruct (overview_rows uid t) as [[rows|e] t1];
    [|intros Hrun; injection Hrun as <-; intros Hst; discriminate Hst].
  destruct rows as [|first rest].
  - intros Hrun _. injection Hrun as <-. exists O, O, [].
    repeat split; reflexivity.
  - destruct (overview_products (first :: rest)) as [products|e];
      [|intros Hrun; injection Hrun as <-; intros Hst; discriminate Hst].
    destruct (sum_alerts (NInt 0) products) as [total_alerts|e];
      [|intros Hrun; injection Hrun as <-; intros Hst; discriminate Hst].
    destruct (call_procedure "get_user_by_id" _ t1) as [[user_result|e] t2];
      [|intros Hrun; injection Hrun as <-; intros Hst; discriminate Hst].
    destruct (overview_user_name user_result) as [user_name|e];
      [|intros Hrun; injection Hrun as <-; intros Hst; discriminate Hst].
    intros Hrun _. injection Hrun as <-.
    exists (List.length products), (in_stock_count products),
      (map activity (firstn 5 products)).
    split; [reflexivity|]. split; [reflexivity|]. split; [reflexivity|].
    split; [apply in_stock_count_le | apply recent_activity_length].
Qed.

End Overview.

Section Decoders.

Import Py Eff Db Http Dashboard Spec.

Context {L : Library}.

Lemma rbind_ok_inv {A B} (r : result A) (k : A -> result B) b :
  rbind r k = Ok b -> exists a, r = Ok a /\ k a = Ok b.
Proof. destruct r as [a|e]; [eauto | discriminate]. Qed.

Lemma rcatch_some_inv {A} sel (r : result (option A)) a :
  rcatch sel r (Ok None) = Ok (Some a) -> r = Ok (Some a).
Proof.
  destruct r as [x|e]; cbn; [auto|]. destruct (sel e); discriminate.
Qed.

Ltac invert_binds :=
  repeat match goal with
         | H : rbind _ _ = Ok _ |- _ =>
             apply rbind_ok_inv in H; destruct H as (? & ? & H)
         | H : Ok _ = Ok _ |- _ => injection H as H
         end.

Ltac use_columns r :=
  repeat match goal with
         | H : index r ?i = Ok _ |- context [index r ?i] => rewrite H
         end.

Ltac same_fields :=
  let key := fresh "key" in
  let Hkey := fresh "Hkey" in
  intros key Hkey; cbn in Hkey;
  repeat (destruct Hkey as [<-|Hkey]; [reflexivity|]); destruct Hkey.

(** X18.  The overview and the product list read the same rows with two
    decoders.  A row from which [get_user_products] builds a product, and
    which has at most fifteen values or starts with ["success"], is
    counted by [dashboard_overview] too, and the identifier, the title,
    the status, the number of alerts and the creation time it shows are
    those of the product in the list. *)
Theorem overview_counts_listed_products r product :
  decode_row r = Ok (Some product) ->
  (List.length r <= 15)%nat \/ eq_str (nth 0 r VNone) "success" = true ->
  exists summary,
    overview_row r = Ok (Some summary)
    /\ forall key, In key overview_keys ->
                   field key summary = field key product.
Proof.
  intros Hdec Hshape. unfold decode_row in Hdec. unfold overview_row.
  destruct (is_status_row r); [discriminate|].
  destruct (Nat.ltb_spec 15 (List.length r)) as [Hlong|Hshort].
  - destruct Hshape as [Hle|Hfirst]; [lia|].
    destruct (Nat.ltb_spec 10 (List.length r)); [|lia].
    apply rcatch_some_inv in Hdec.
    rewrite (index_nth r 0) in Hdec |- * by lia.
    cbn [rbind] in Hdec |- *. rewrite Hfirst in Hdec |- *.
    cbn [andb] in Hdec |- *.
    unfold product_enhanced in Hdec. invert_binds. subst.
    unfold overview_enhanced. use_columns r. cbn [rbind].
    match goal with H : iso_or_none _ = Ok _ |- _ => rewrite H end.
    cbn [rbind rcatch]. eexists. split; [reflexivity|]. same_fields.
  - destruct (Nat.ltb_spec 10 (List.length r)); [|discriminate].
    apply rcatch_some_inv in Hdec.
    rewrite (index_nth r 0) by lia. cbn [rbind].
    rewrite andb_false_r.
    unfold product_old in Hdec. invert_binds. subst.
    unfold overview_old. use_columns r. cbn [rbind].
    match goal with H : iso_or_none _ = Ok _ |- _ => rewrite H end.
    cbn [rbind rcatch]. eexists. split; [reflexivity|]. same_fields.
Qed.

End Decoders.

Section OverviewScenarios.

Import Py Eff Db Http Dashboard Spec Scenario.


Lemma overview_fails_where_products_are_empty_witness :
  @run _ (@dashboard_overview plain (table no_product_procedures)
            exact_decimals (get_as bare_token)) []
  = Ok (reply 500 (VDict [("error", VStr "Failed to load dashboard data")])).
Proof.
  apply (@overview_fails_where_products_are_empty plain
           (table no_product_procedures) exact_decimals
           (get_as bare_token) (VStr "42") 42 []
           (no_such_procedure "get_user_products_with_data")
           (no_such_procedure "get_user_products")).
  - split; [discriminate|]. split; [eexists; reflexivity | reflexivity].
  - reflexivity.
  - reflexivity.
Defined.

Lemma dashboard_overview_counts_witness :
  exists resp recent,
    @run _ (@dashboard_overview plain (table six_products) exact_decimals
              (get_as bare_token)) [] = Ok resp
    /\ field "total_products" (body resp) = Some (VInt 6)
    /\ field "recent_activity" (body resp) = Some (VList recent)
    /\ List.length recent = 5%nat.
Proof.
  eexists.
  destruct (@dashboard_overview_counts plain (table six_products)
              exact_decimals (get_as bare_token) [] _
              ltac:(discriminate) eq_refl eq_refl)
    as (total & restocks & recent & Htotal & _ & Hrecent & _ & Hlen).
  exists recent. split; [reflexivity|].
  split; [reflexivity|]. split; [exact Hrecent|].
  rewrite Hlen. cbn in Htotal. injection Htotal as Htotal.
  assert (E : total = 6%nat) by lia. rewrite E. reflexivity.
Defined.

Lemma overview_counts_listed_products_witness :
  exists summary,
    @overview_row row_of_18 = Ok (Some summary)
    /\ field "status" summary = Some (VStr "in_stock").
Proof.
  destruct decode_row_of_18 as (product & Hproduct & Hstatus & _).
  destruct (@overview_counts_listed_products plain row_of_18 product)
    as (summary & Hrow & Hkeys).
  - exact Hproduct.
  - right. reflexivity.
  - exists summary. split; [exact Hrow|].
    rewrite (Hkeys "status") by (cbn; tauto). exact Hstatus.
Defined.

End OverviewScenarios.

(* ===================================================================== *)
(** * Subscriptions, limits and plans *)
(* ===================================================================== *)

Section Subscriptions.

Import Py Eff Db Http Premium Spec.

Context {L : Library} {W : World}.



(** X20.  [check_product_limit] fails closed: from a success row that
    carries the status and the message only, the answer is that no
    product can be added, with a count of 0, a limit of 2 and the plan
    ["free"]; each further value of the row replaces one of these
    defaults, in that order. *)
Theorem check_product_limit_defaults
    req identity uid t message columns more :
  signed_in req identity uid ->
  run (call_procedure "check_product_limit" [("p_user_id", VInt uid)]) t
  = Ok ((VStr "success" :: message :: columns) :: more) ->
  run (check_product_limit req) t
  = Ok (reply 200
          (VDict [("can_add_product",
                   match nth_error columns 0 with
                   | Some v => py_bool v
                   | None => VBool false
                   end);
                  ("current_count", nth 1 columns (VInt 0));
                  ("max_allowed", nth 2 columns (VInt 2));
                  ("plan_type", nth 3 columns (VStr "free"))]))
  /\ (columns = [] ->
      run (check_product_limit req) t
      = Ok (reply 200 (VDict [("can_add_product", VBool false);
                              ("current_count", VInt 0);
                              ("max_allowed", VInt 2);
                              ("plan_type", VStr "free")]))).
Proof.
  intros Hs Hdb.
  assert (Hrun :
    run (check_product_limit req) t
    = Ok (reply 200
            (VDict [("can_add_product",
                     match nth_error columns 0 with
                     | Some v => py_bool v
                     | None => VBool false
                     end);
                    ("current_count", nth 1 columns (VInt 0));
                    ("max_allowed", nth 2 columns (VInt 2));
                    ("plan_type", nth 3 columns (VStr "free"))]))).
  { destruct (signed_in_view _ _ _ check_product_limit_view Hs)
      as [claims Hv].
    destruct Hs as (Hm & _ & Hi).
    unfold run, check_product_limit. rewrite Hv.
    unfold check_product_limit_view. rewrite (not_options _ Hm).
    unfold try_except, check_product_limit_body.
    rewrite Hi, bind_lift_ok, (bind_ok _ _ _ _ Hdb).
    unfold limit_verdict, flag_if_longer, column_or.
    destruct columns as [|c2 [|c3 [|c4 [|c5 rest]]]]; reflexivity. }
  split; [exact Hrun|].
  intros ->. exact Hrun.
Qed.

End Subscriptions.

Section Plans.

Import Py Eff Db Http Premium Spec.

Context {L : Library}.

Lemma read_as_plan reading r :
  read_as reading r = AsPlan ->
  (8 <= List.length r)%nat /\ reading = false.
Proof.
  unfold read_as.
  destruct (Nat.leb_spec 2 (List.length r)); [|discriminate].
  destruct (eq_str (nth 0 r VNone) "success"
            && Nat.eqb (List.length r) 2)%bool; [discriminate|].
  destruct (Nat.leb_spec 8 (List.length r)); cbn [andb].
  - destruct reading; cbn [negb]; [|auto].
    destruct (Nat.leb 6 (List.length r)); discriminate.
  - destruct (Nat.leb 6 (List.length r)); discriminate.
Qed.

Lemma read_as_addon reading r :
  read_as reading r = AsAddon ->
  (6 <= List.length r)%nat
  /\ ((List.length r < 8)%nat \/ reading = true).
Proof.
  unfold read_as.
  destruct (Nat.leb_spec 2 (List.length r)); [|discriminate].
  destruct (eq_str (nth 0 r VNone) "success"
            && Nat.eqb (List.length r) 2)%bool; [discriminate|].
  destruct (Nat.leb_spec 8 (List.length r)); cbn [andb].
  - destruct reading; cbn [negb]; [|discriminate].
    destruct (Nat.leb_spec 6 (List.length r)); [auto | discriminate].
  - destruct (Nat.leb_spec 6 (List.length r)); [auto | discriminate].
Qed.

Lemma read_as_passed reading r :
  read_as reading r = Passed -> (List.length r < 6)%nat.
Proof.
  unfold read_as.
  destruct (Nat.leb_spec 2 (List.length r)); [|lia].
  destruct (eq_str (nth 0 r VNone) "success"
            && Nat.eqb (List.length r) 2)%bool eqn:Es.
  - apply andb_true_iff in Es. destruct Es as [_ Es].
    apply Nat.eqb_eq in Es. lia.
  - destruct (Nat.leb_spec 8 (List.length r)); cbn [andb].
    + destruct reading; cbn [negb]; [|discriminate].
      destruct (Nat.leb_spec 6 (List.length r)); [discriminate | lia].
    + destruct (Nat.leb_spec 6 (List.length r)); [discriminate | lia].
Qed.

Lemma rows_of_at_least_cons n r rows :
  rows_of_at_least n (r :: rows)
  = ((if Nat.leb n (List.length r) then 1 else 0)
     + rows_of_at_least n rows)%nat.
Proof.
  unfold rows_of_at_least. cbn [filter].
  destruct (Nat.leb n (List.length r)); reflexivity.
Qed.

(** Every row of six values or more lands in one of the two lists, and
    once the flag is set no row becomes a plan. *)
Lemma read_plans_counts rows :
  forall reading plans addons,
    read_plans reading rows = Ok (plans, addons) ->
    (List.length plans + List.length addons = rows_of_at_least 6 rows)%nat
    /\ (reading = true -> plans = []).
Proof.
  induction rows as [|r rows IH]; intros reading plans addons H.
  - cbn in H. injection H as <- <-. split; reflexivity.
  - cbn [read_plans] in H. rewrite rows_of_at_least_cons.
    destruct (read_as reading r) eqn:Er.
    + apply read_as_passed in Er.
      destruct (Nat.leb_spec 6 (List.length r)); [lia|].
      apply IH in H. exact H.
    + apply read_as_plan in Er. destruct Er as [Hlen ->].
      destruct (plan_of r) as [plan|e]; [|discriminate].
      cbn [rbind] in H.
      destruct (read_plans false rows) as [[plans' addons']|e] eqn:Hrest;
        [|discriminate].
      cbn [rbind fst snd] in H. injection H as <- <-.
      destruct (IH _ _ _ Hrest) as [Hcount _].
      destruct (Nat.leb_spec 6 (List.length r)); [|lia].
      split; [cbn [List.length]; lia | discriminate].
    + apply read_as_addon in Er. destruct Er as [Hlen _].
      destruct (addon_of r) as [addon|e]; [|discriminate].
      cbn [rbind] in H.
      destruct (read_plans true rows) as [[plans' addons']|e] eqn:Hrest;
        [|discriminate].
      cbn [rbind fst snd] in H. injection H as <- <-.
      destruct (IH _ _ _ Hrest) as [Hcount Hnone].
      destruct (Nat.leb_spec 6 (List.length r)); [|lia].
      split; [cbn [List.length]; lia | intros _; apply Hnone; reflexivity].
Qed.

(** Before the first add-on, rows of eight values or more are plans. *)
Lemma read_plans_before before rest :
  Forall (fun r => (List.length r < 6)%nat \/ (8 <= List.length r)%nat)
         before ->
  forall plans addons,
    read_plans false (before ++ rest) = Ok (plans, addons) ->
    exists plans1 plans2,
      plans = (plans1 ++ plans2)%list
      /\ List.length plans1 = rows_of_at_least 8 before
      /\ read_plans false rest = Ok (plans2, addons).
Proof.
  intros Hb. induction Hb as [|r before Hr _ IH]; intros plans addons H.
  - exists [], plans. repeat split. exact H.
  - cbn [app read_plans] in H. rewrite rows_of_at_least_cons.
    destruct (read_as false r) eqn:Er.
    + apply read_as_passed in Er.
      destruct (Nat.leb_spec 8 (List.length r)); [lia|].
      apply IH in H. exact H.
    + apply read_as_plan in Er. destruct Er as [Hlen _].
      destruct (plan_of r) as [plan|e]; [|discriminate].
      cbn [rbind] in H.
      destruct (read_plans false (before ++ rest))
        as [[plans' addons']|e] eqn:Hrest; [|discriminate].
      cbn [rbind fst snd] in H. injection H as <- <-.
      destruct (IH _ _ eq_refl) as (plans1 & plans2 & -> & Hlen1 & Hr2).
      exists (plan :: plans1), plans2.
      destruct (Nat.leb_spec 8 (List.length r)); [|lia].
      repeat split; [cbn [List.length]; lia | exact Hr2].
    + apply read_as_addon in Er. destruct Er as [Hlen [Hlt|Hf]];
        [lia | discriminate].
Qed.

(** X21.  In the answer of [get_subscription_plans] every row of six
    values or more is listed once, as a plan or as an add-on, and the
    other rows are passed over.  The first row of six or seven values
    ends the plans: the rows of eight values or more before it are the
    plans, and every row of six values or more after it is listed as an
    add-on, a row in the format of a plan included. *)
Theorem plans_end_at_first_addon before r after plans addons :
  read_plans false (before ++ r :: after) = Ok (plans, addons) ->
  Forall (fun b => (List.length b < 6)%nat \/ (8 <= List.length b)%nat)
         before ->
  (6 <= List.length r < 8)%nat ->
  List.length plans = rows_of_at_least 8 before
  /\ List.length addons = S (rows_of_at_least 6 after)
  /\ (List.length plans + List.length addons
      = rows_of_at_least 6 (before ++ r :: after))%nat.
Proof.
  intros H Hb Hr.
  destruct (read_plans_counts _ _ _ _ H) as [Hall _].
  destruct (read_plans_before _ _ Hb _ _ H)
    as (plans1 & plans2 & -> & Hlen1 & Hrest).
  cbn [read_plans] in Hrest.
  destruct (read_as false r) eqn:Er.
  - apply read_as_passed in Er. lia.
  - apply read_as_plan in Er. lia.
  - destruct (addon_of r) as [addon|e]; [|discriminate].
    cbn [rbind] in Hrest.
    destruct (read_plans true after) as [[plans' addons']|e] eqn:Hafter;
      [|discriminate].
    cbn [rbind fst snd] in Hrest. injection Hrest as <- <-.
    destruct (read_plans_counts _ _ _ _ Hafter) as [Hcount Hnone].
    rewrite (Hnone eq_refl) in *. rewrite app_nil_r in *.
    cbn [List.length] in *.
    split; [exact Hlen1|]. split; [lia | exact Hall].
Qed.

End Plans.

Section PlanScenarios.

Import Py Eff Db Http Premium Spec Scenario.


Lemma check_product_limit_defaults_witness :
  @run _ (@check_product_limit (table no_subscription) (get_as bare_token)) []
  = Ok (reply 200 (VDict [("can_add_product", VBool false);
                          ("current_count", VInt 0);
                          ("max_allowed", VInt 2);
                          ("plan_type", VStr "free")])).
Proof.
  apply (@check_product_limit_defaults (table no_subscription)
           (get_as bare_token) (VStr "42") 42 [] (VStr "Limit checked") [] []).
  - split; [discriminate|]. split; [eexists; reflexivity | reflexivity].
  - reflexivity.
  - reflexivity.
Defined.

Lemma plans_end_at_first_addon_witness :
  exists plans addons,
    @read_plans plain false plan_rows = Ok (plans, addons)
    /\ List.length plans = 2%nat /\ List.length addons = 2%nat.
Proof.
  eexists _, _. split; [reflexivity|].
  destruct (@plans_end_at_first_addon plain
              [[VStr "success"; VStr "Plans retrieved"];
               plan_row 1 "Pay as you go"; plan_row 2 "Unlimited"]
              addon_row [plan_row 3 "Late plan"] _ _ eq_refl)
    as (Hplans & Haddons & _).
  - repeat constructor; cbn; lia.
  - cbn. lia.
  - split; [exact Hplans | exact Haddons].
Defined.

End PlanScenarios.

(* ===================================================================== *)
(** * Checkout: the customer, and the metadata read back *)
(* ===================================================================== *)

Section Customer.

Import Py Eff Db Http Premium Spec.

Context {L : Library} {W : World}.

(** Whatever the payment processor answers, the creation of the customer
    is the first thing asked of it. *)
Lemma obtain_customer_first user_email uid t :
  exists after,
    calls (obtain_customer user_email uid) t
    = (t ++ CustomerCreate user_email [("user_id", str_int uid)]
         :: after)%list.
Proof.
  unfold calls, obtain_customer, try_except_only, try_except, bind,
    customer_create, customer_list, ret, raise, record.
  destruct (on_customer_create t user_email _) as [customer|e];
    cbn [fst snd].
  - exists []. reflexivity.
  - destruct (is_stripe_error e); cbn [snd]; [|exists []; reflexivity].
    destruct (on_customer_list _ user_email 1) as [[|c cs]|e'];
      cbn [snd]; rewrite <- app_assoc; eexists; reflexivity.
Qed.

(** X22.  [create_checkout_session] looks at the plan only after it has
    asked the payment processor to create the customer: a request with a
    plan type other than ["pay_as_you_go"] and ["unlimited"] is answered
    400 with ["Invalid plan type"], and a pay-as-you-go request without a
    count, or with a count below one, 400 with ["Product count is
    required for pay-as-you-go plan"], in both cases with the customer
    creation among the calls made and no price or session created after
    it. *)
Theorem plan_checked_after_customer_creation
    req uid plan count addon customer t t' :
  checkout_request req uid plan count addon customer t t' ->
  (eq_str plan "pay_as_you_go" = false /\ eq_str plan "unlimited" = false)
  \/ (plan = VStr "pay_as_you_go"
      /\ (count = VNone \/ exists n, count = VInt n /\ n < 1)) ->
  exists message email before after,
    create_checkout_session req t
    = (Ok (reply 400 (VDict [("error", VStr message)])), t')
    /\ t' = (before ++ CustomerCreate email [("user_id", str_int uid)]
               :: after)%list
    /\ (eq_str plan "pay_as_you_go" = false ->
        message = "Invalid plan type")
    /\ (plan = VStr "pay_as_you_go" ->
        message = "Product count is required for pay-as-you-go plan").
Proof.
  intros Hreq Hbad.
  pose proof (checkout_reached _ _ _ _ _ _ _ _ Hreq) as Hreach.
  destruct Hreq as (_ & _ & _ & _ & user_rows & user_email & _ & _ & Hcust).
  destruct (obtain_customer_first user_email uid
              (calls (call_procedure "get_user_by_id"
                        [("p_user_id", VInt uid)]) t)) as [after Hafter].
  unfold calls at 1 in Hafter. rewrite Hcust in Hafter. cbn [snd] in Hafter.
  destruct Hbad as [[Hp Hu] | [-> Hcount]].
  - exists "Invalid plan type", user_email,
      (calls (call_procedure "get_user_by_id" [("p_user_id", VInt uid)]) t),
      after.
    split; [|split; [exact Hafter | split; [reflexivity|]]].
    + rewrite Hreach. unfold try_except, checkout, bind, plan_line_items.
      rewrite Hp, Hu. reflexivity.
    + intros ->. discriminate Hp.
  - exists "Product count is required for pay-as-you-go plan", user_email,
      (calls (call_procedure "get_user_by_id" [("p_user_id", VInt uid)]) t),
      after.
    split; [|split; [exact Hafter | split; [|reflexivity]]].
    + rewrite Hreach. unfold try_except, checkout, bind at 1.
      rewrite (plan_line_items_rejected _ _ Hcount). reflexivity.
    + intros H. discriminate H.
Qed.

End Customer.

Section Metadata.

Import Py Eff Db Http Premium Spec.

Context {L : Library} {W : World}.

Lemma session_metadatas_app (a b : trace) :
  session_metadatas (a ++ b)%list
  = (session_metadatas a ++ session_metadatas b)%list.
Proof.
  induction a as [|c a IH]; [reflexivity|].
  destruct c; cbn [app session_metadatas]; rewrite IH; reflexivity.
Qed.

(** The plan part asks for prices only. *)
Lemma plan_line_items_new plan count t :
  exists new,
    calls (plan_line_items plan count) t = (t ++ new)%list
    /\ session_metadatas new = [].
Proof.
  unfold calls, plan_line_items.
  destruct (eq_str plan "pay_as_you_go").
  - unfold bind at 1.
    destruct ((if negb (truthy count) then ret true
               else lift (less_than_one count)) t)
      as [[too_few|e] t0] eqn:E.
    + assert (t0 = t) as ->.
      { revert E. unfold ret, lift.
        destruct (negb (truthy count)); intros E; injection E as _ <-;
          reflexivity. }
      destruct too_few.
      * exists []. rewrite app_nil_r. split; reflexivity.
      * unfold bind, lift, price_create, ret, record.
        destruct (times_five count) as [total|e];
          [|exists []; rewrite app_nil_r; split; reflexivity].
        destruct (to_cents total) as [cents|e];
          [|exists []; rewrite app_nil_r; split; reflexivity].
        destruct (on_price_create t cents _ _ _ _) as [price|e];
          eexists [_]; split; reflexivity.
    + assert (t0 = t) as ->.
      { revert E. unfold ret, lift.
        destruct (negb (truthy count)); intros E; injection E as _ <-;
          reflexivity. }
      exists []. rewrite app_nil_r. split; reflexivity.
  - destruct (eq_str plan "unlimited").
    + unfold bind, price_create, ret, record.
      destruct (on_price_create t 14500 _ _ _ _) as [price|e];
        eexists [_]; split; reflexivity.
    + exists []. rewrite app_nil_r. split; reflexivity.
Qed.

Lemma with_ai_enhancement_new addon items t :
  exists new,
    calls (with_ai_enhancement addon items) t = (t ++ new)%list
    /\ session_metadatas new = [].
Proof.
  unfold calls, with_ai_enhancement.
  destruct (truthy addon).
  - unfold bind, price_create, ret, record.
    destruct (on_price_create t 5000 _ _ _ _) as [price|e];
      eexists [_]; split; reflexivity.
  - exists []. rewrite app_nil_r. split; reflexivity.
Qed.

(** Every checkout session [checkout] creates carries the metadata built
    from the user, the plan, the count and the add-on flag. *)
Lemma checkout_sessions req uid customer plan count addon t :
  exists new,
    calls (checkout req uid customer plan count addon) t = (t ++ new)%list
    /\ forall metadata,
         In metadata (session_metadatas new) ->
         metadata = session_metadata uid plan count addon.
Proof.
  destruct (plan_line_items_new plan count t) as (new1 & Hc1 & Hn1).
  unfold calls in *. unfold checkout, bind at 1.
  destruct (plan_line_items plan count t) as [[[rejected|items]|e] t1];
    cbn [snd] in Hc1; subst t1.
  - exists new1. split; [reflexivity|]. rewrite Hn1. intros m [].
  - destruct (with_ai_enhancement_new addon items (t ++ new1)%list)
      as (new2 & Hc2 & Hn2).
    unfold calls in Hc2. unfold bind at 1.
    destruct (with_ai_enhancement addon items (t ++ new1)%list)
      as [[line_items|e] t2]; cbn [snd] in Hc2; subst t2.
    + unfold bind, session_create, ret, record.
      fold (session_metadata uid plan count addon).
      exists (new1 ++ new2
              ++ [SessionCreate customer line_items
                    (host_url req
                     ++ "dashboard/premium?session_id={CHECKOUT_SESSION_ID}")
                    (host_url req ++ "dashboard/premium")
                    (session_metadata uid plan count addon)])%list.
      split.
      * destruct (on_session_create _ _ _ _ _ _) as [session|e];
          cbn [snd]; rewrite <- !app_assoc; reflexivity.
      * rewrite !session_metadatas_app, Hn1, Hn2. cbn.
        intros m [<-|[]]. reflexivity.
    + exists (new1 ++ new2)%list. split.
      * rewrite <- app_assoc. reflexivity.
      * rewrite session_metadatas_app, Hn1, Hn2. intros m [].
  - exists new1. split; [reflexivity|]. rewrite Hn1. intros m [].
Qed.

Lemma digits_digit_like d :
  forallb is_digit_like (chars (NilEmpty.string_of_uint d)) = true.
Proof. induction d; cbn; try reflexivity; assumption. Qed.

Lemma isdigit_str_int n : 0 < n -> isdigit (str_int n) = true.
Proof.
  intros Hn. destruct n as [|p|p]; try lia.
  unfold isdigit, str_int. cbn [Z.to_int NilZero.string_of_int].
  rewrite (string_of_uint_nonnil _ (Unsigned.to_uint_nonnil p)).
  rewrite digits_digit_like, andb_true_r.
  pose proof (Unsigned.to_uint_nonnil p) as Hnil.
  destruct (Pos.to_uint p); [contradiction | reflexivity ..].
Qed.

Lemma isdigit_nonempty s : isdigit s = true -> String.eqb s "" = false.
Proof. destruct s; [discriminate | reflexivity]. Qed.

(** X23.  What [create_checkout_session] writes into the metadata of a
    checkout session, [process_checkout_success] reads back: for a plan
    given as text, a whole number of products of at least one and a
    Boolean add-on flag, every session [checkout] creates carries
    metadata from which the plan, the count and the flag are
    recovered. *)
Theorem checkout_metadata_reads_back
    req uid customer plan n flag t :
  1 <= n ->
  exists new,
    calls (checkout req uid customer (VStr plan) (VInt n) (VBool flag)) t
    = (t ++ new)%list
    /\ forall metadata,
         In metadata (session_metadatas new) ->
         read_metadata metadata = Ok (Some plan, Some n, flag).
Proof.
  intros Hn.
  destruct (checkout_sessions req uid customer (VStr plan) (VInt n)
              (VBool flag) t) as (new & Hcalls & Hmeta).
  exists new. split; [exact Hcalls|].
  intros metadata Hin. rewrite (Hmeta _ Hin).
  unfold read_metadata, session_metadata.
  cbn [assoc String.eqb Ascii.eqb Bool.eqb truthy py_str].
  destruct (Z.eqb_spec n 0); [lia|]. cbn [negb].
  rewrite (isdigit_str_int n) by lia.
  rewrite (isdigit_nonempty _ (isdigit_str_int n ltac:(lia))).
  cbn [negb andb]. rewrite int_of_str_str_int. cbn [rbind].
  destruct flag; reflexivity.
Qed.

Lemma str_int_not_true k : String.eqb (str_int k) "True" = false.
Proof.
  unfold str_int. destruct k as [|p|p]; [reflexivity | |];
    cbn [Z.to_int NilZero.string_of_int];
    [|reflexivity].
  rewrite (string_of_uint_nonnil _ (Unsigned.to_uint_nonnil p)).
  destruct (Pos.to_uint p); reflexivity.
Qed.

Lemma read_metadata_flag metadata read :
  read_metadata metadata = Ok read ->
  snd read
  = match assoc "include_ai_enhancement" metadata with
    | Some s => String.eqb s "True"
    | None => false
    end.
Proof.
  unfold read_metadata. intros H.
  destruct (match assoc "custom_product_count" metadata with
            | Some c => _
            | None => _
            end) as [c|e]; [|discriminate].
  injection H as <-. reflexivity.
Qed.

(** X24.  The add-on is charged for by truth value and read back by
    text: for a flag sent as a number other than zero,
    [create_checkout_session] asks for the price of the AI enhancement
    and adds the item, while the metadata it writes holds the text of the
    number, from which [process_checkout_success] reads that the add-on
    was not asked for. *)
Theorem addon_charged_but_not_read_back
    uid plan count k items t :
  k <> 0 ->
  (exists rest,
      calls (with_ai_enhancement (VInt k) items) t
      = (t ++ addon_price_call :: rest)%list)
  /\ (forall ai_price,
         on_price_create t 5000 "usd" "month" "AI Enhancement Add-on"
           "Advanced AI-powered tracking with multiple failsafe layers"
         = Ok ai_price ->
         run (with_ai_enhancement (VInt k) items) t
         = Ok (items ++ [(ai_price, 1)])%list)
  /\ forall read,
       read_metadata (session_metadata uid plan count (VInt k)) = Ok read ->
       snd read = false.
Proof.
  intros Hk. split; [|split].
  - unfold calls, with_ai_enhancement. cbn [truthy].
    destruct (Z.eqb_spec k 0); [contradiction|]. cbn [negb].
    unfold bind, price_create, ret, record, addon_price_call.
    destruct (on_price_create t 5000 _ _ _ _) as [price|e];
      exists []; reflexivity.
  - intros ai_price Hp. unfold run, with_ai_enhancement. cbn [truthy].
    destruct (Z.eqb_spec k 0); [contradiction|]. cbn [negb].
    unfold bind, price_create, ret. rewrite Hp. reflexivity.
  - intros read Hread. rewrite (read_metadata_flag _ _ Hread).
    change (assoc "include_ai_enhancement"
              (session_metadata uid plan count (VInt k)))
      with (Some (str_int k)).
    apply str_int_not_true.
Qed.

End Metadata.

Section CheckoutScenarios.

Import Py Eff Db Http Premium Spec Scenario.

Lemma plan_checked_after_customer_creation_witness :
  @create_checkout_session plain (table (accounts (VInt 1)))
    (checkout_for (VStr "lifetime") VNone (VBool false)) []
  = (Ok (reply 400 (VDict [("error", VStr "Invalid plan type")])),
     customer_ready).
Proof.
  destruct (@plan_checked_after_customer_creation plain
              (table (accounts (VInt 1)))
              (checkout_for (VStr "lifetime") VNone (VBool false)) 42
              (VStr "lifetime") VNone (VBool false) "cus_1" []
              customer_ready)
    as (message & email & before & after & Hrun & _ & Hmessage & _).
  - split; [discriminate|].
    split; [eexists _, _; split; reflexivity|].
    split; [eexists; repeat split; reflexivity|].
    split; [reflexivity|].
    eexists _, _. repeat split; reflexivity.
  - left. split; reflexivity.
  - rewrite Hrun, (Hmessage eq_refl). reflexivity.
Defined.

Lemma checkout_metadata_reads_back_witness :
  @read_metadata [("user_id", "42"); ("plan_type", "pay_as_you_go");
                  ("custom_product_count", "12");
                  ("include_ai_enhancement", "True")]
  = Ok (Some "pay_as_you_go", Some 12, true).
Proof.
  destruct (@checkout_metadata_reads_back plain (table (accounts (VInt 1)))
              (checkout_for (VStr "pay_as_you_go") (VInt 12) (VBool true))
              42 "cus_1" "pay_as_you_go" 12 true customer_ready
              ltac:(lia))
    as (new & Hcalls & Hread).
  apply Hread.
  vm_compute in Hcalls. injection Hcalls as <-. cbn. tauto.
Defined.

Lemma addon_charged_but_not_read_back_witness :
  @run _ (@with_ai_enhancement (table (accounts (VInt 1))) (VInt 1)
            [("price_6000", 1)]) customer_ready
  = Ok [("price_6000", 1); ("price_5000", 1)].
Proof.
  destruct (@addon_charged_but_not_read_back plain
              (table (accounts (VInt 1))) 42 (VStr "pay_as_you_go")
              (VInt 12) 1 [("price_6000", 1)] customer_ready
              ltac:(discriminate))
    as (_ & Hitems & _).
  apply (Hitems "price_5000"). reflexivity.
Defined.

End CheckoutScenarios.

(* ===================================================================== *)
(** * No exception leaves a view *)
(* ===================================================================== *)

Section Views.

Import Py Eff Db Http Spec.

Context {L : Library} {W : World} {D : Dashboard.Decimals}.

Lemma guarded_answers (body : M response) (h : exn -> response) t :
  exists resp, run (try_except body (fun e => ret (h e))) t = Ok resp.
Proof. apply try_except_total. Qed.

Lemma preflight_or_guarded (pre : response) (body : request -> M response)
      (h : exn -> response) :
  answers (fun req =>
             if String.eqb (method req) "OPTIONS" then ret pre
             else try_except (body req) (fun e => ret (h e))).
Proof.
  intros req t. destruct (String.eqb (method req) "OPTIONS").
  - eexists. reflexivity.
  - apply guarded_answers.
Qed.

Lemma jwt_required_answers refresh view :
  (forall identity claims, answers (fun req => view req identity claims)) ->
  answers (jwt_required refresh view).
Proof.
  intros Hview req t. unfold jwt_required.
  destruct (String.eqb (method req) "OPTIONS"); [apply Hview|].
  destruct (auth req) as [| | |r identity claims];
    try (eexists; reflexivity).
  destruct (Bool.eqb r refresh); [apply Hview | eexists; reflexivity].
Qed.

Lemma protected_answers refresh pre
      (body : request -> value -> M response) (h : exn -> response) :
  answers (jwt_required refresh
             (fun req identity claims =>
                if String.eqb (method req) "OPTIONS" then ret pre
                else try_except (body req identity) (fun e => ret (h e)))).
Proof.
  apply jwt_required_answers. intros identity claims.
  apply (preflight_or_guarded pre (fun req => body req identity) h).
Qed.

Lemma checkout_answers : answers Premium.create_checkout_session.
Proof.
  apply jwt_required_answers. intros identity claims req t.
  unfold Premium.create_checkout_session_view.
  destruct (String.eqb (method req) "OPTIONS"); [eexists; reflexivity|].
  unfold run, try_except.
  destruct (Premium.create_checkout_session_body req identity t)
    as [[resp|e] t']; [eexists; reflexivity|].
  destruct (is_stripe_error e); eexists; reflexivity.
Qed.

(** X25.  Every view of the authentication, password, dashboard and
    premium routes that is modelled here answers every request: whatever
    the request holds and whatever the database, the hash function or
    the payment processor raise, the view returns a response and lets no
    exception through to the handler of the application. *)
Theorem views_never_raise :
  Forall answers
    [Auth.register; Auth.login; Auth.refresh; Auth.verify_token;
     Auth.logout; Auth.debug_procedures;
     Password.forgot_password; Password.verify_reset_token;
     Password.reset_password; Password.resend_reset_email;
     Dashboard.get_user_products; Dashboard.add_product;
     Dashboard.dashboard_overview; Dashboard.get_user_settings;
     Dashboard.update_user_settings;
     Premium.get_user_subscription; Premium.check_product_limit;
     Premium.get_subscription_plans; Premium.create_checkout_session;
     Premium.update_subscription]
  /\ forall product_id,
       answers (Dashboard.update_product product_id)
       /\ answers (Dashboard.delete_product product_id).
Proof.
  split.
  - repeat constructor.
    + apply (preflight_or_guarded _ Auth.register_body).
    + apply (preflight_or_guarded _ Auth.login_body).
    + apply (protected_answers true _ (fun _ => Auth.refresh_body)).
    + apply (protected_answers false _ (fun _ => Auth.verify_token_body)).
    + apply (protected_answers false _ (fun _ => Auth.logout_body)).
    + intros req t. apply guarded_answers.
    + apply (preflight_or_guarded _ Password.forgot_password_body).
    + apply (preflight_or_guarded _ Password.verify_reset_token_body).
    + apply (preflight_or_guarded _ Password.reset_password_body).
    + intros req t. unfold Password.resend_reset_email.
      destruct (String.eqb (method req) "OPTIONS"); [eexists; reflexivity|].
      apply (preflight_or_guarded _ Password.forgot_password_body).
    + apply (protected_answers false _
               (fun _ => Dashboard.get_user_products_body)).
    + apply (protected_answers false _ Dashboard.add_product_body).
    + apply (protected_answers false _
               (fun _ => Dashboard.dashboard_overview_body)).
    + apply (protected_answers false _
               (fun _ => Dashboard.get_user_settings_body)).
    + apply (protected_answers false _ Dashboard.update_user_settings_body).
    + apply (protected_answers false _
               (fun _ => Premium.get_user_subscription_body)).
    + apply (protected_answers false _
               (fun _ => Premium.check_product_limit_body)).
    + apply (preflight_or_guarded _
               (fun _ => Premium.get_subscription_plans_body)).
    + apply checkout_answers.
    + apply (protected_answers false _ Premium.update_subscription_body).
  - intros product_id. split.
    + apply (protected_answers false _
               (Dashboard.update_product_body product_id)).
    + apply (protected_answers false _
               (fun _ => Dashboard.delete_product_body product_id)).
Qed.

End Views.

(* ===================================================================== *)
(** * Tokens at the door, and the rest of login and registration *)
(* ===================================================================== *)

Section Door.

Import Py Eff Db Http Spec.

Context {L : Library} {W : World} {D : Dashboard.Decimals}.

Lemma jwt_required_requires refresh view :
  requires_token refresh (jwt_required refresh view).
Proof.
  intros req t Hm. unfold jwt_required. rewrite (not_options _ Hm).
  repeat split.
  - intros ->. reflexivity.
  - intros ->. reflexivity.
  - intros ->. reflexivity.
  - intros identity claims ->. destruct refresh; reflexivity.
Qed.

(** X26.  The views behind [jwt_required] do nothing for a caller
    without a proper token: a request that is not a preflight and comes
    with no token, a malformed token, an expired token or a token of the
    wrong kind (a refresh token where an access token is asked for, and
    the reverse on [refresh]) is answered with status 401 by the loaders
    of the application, and no call is made.  The plans and the debug
    route are not among these views. *)
Theorem protected_views_require_token :
  Forall (requires_token false)
    [Auth.verify_token; Auth.logout;
     Dashboard.get_user_products; Dashboard.add_product;
     Dashboard.dashboard_overview; Dashboard.get_user_settings;
     Dashboard.update_user_settings;
     Premium.get_user_subscription; Premium.check_product_limit;
     Premium.create_checkout_session; Premium.update_subscription]
  /\ requires_token true Auth.refresh
  /\ (forall product_id,
         requires_token false (Dashboard.update_product product_id)
         /\ requires_token false (Dashboard.delete_product product_id))
  /\ unauthorized "Authorization token is required" = missing_token_callback
  /\ unauthorized "Invalid token" = invalid_token_callback
  /\ unauthorized "Token has expired" = expired_token_callback.
Proof.
  split; [|split; [|split]].
  - repeat (apply Forall_cons; [apply jwt_required_requires|]).
    apply Forall_nil.
  - apply jwt_required_requires.
  - intros product_id. split; apply jwt_required_requires.
  - repeat split.
Qed.

End Door.

Section LoginRest.

Import Py Re Eff Db Http Auth Spec.

Context {L : Library} {W : World}.

(** X27.  A login with the right password for an active account still
    fails when the last-login timestamp cannot be recorded: if
    [update_user_last_login] raises, the answer is status 500 with
    ["Internal server error during login"], and no token reaches the
    client. *)
Theorem login_fails_when_last_login_is_not_recorded
    req email password t message user_id stored_hash full_name
    email_verified is_active more e :
  login_request email password req ->
  normalised email <> "" ->
  truthy password = true ->
  run (call_procedure "verify_user_login"
         [("p_email", VStr (normalised email))]) t
  = Ok (user_row message user_id stored_hash full_name email_verified
          is_active :: more) ->
  check_password_hash stored_hash password = Ok true ->
  truthy is_active = true ->
  run (call_procedure "update_user_last_login" [("p_user_id", user_id)])
      (calls (call_procedure "verify_user_login"
                [("p_email", VStr (normalised email))]) t)
  = Raise e ->
  run (login req) t
  = Ok (reply 500
          (VDict [("error", VStr "Internal server error during login")])).
Proof.
  intros R N P Hdb Hc Ha Hu.
  assert (M : method req <> "OPTIONS")
    by (destruct R as (? & [? ?] & ?); assumption).
  unfold run at 1. rewrite login_not_options by assumption.
  unfold try_except.
  rewrite (login_reaches_verdict _ _ _ _ _ R N P Hdb).
  unfold login_verdict, user_row. cbn [index nth_error].
  rewrite !bind_lift_ok. cbn [eq_str String.eqb Ascii.eqb Bool.eqb negb].
  rewrite !bind_lift_ok. rewrite Hc, bind_lift_ok. cbn [negb].
  rewrite Ha. cbn [negb]. rewrite (bind_raise _ _ _ _ Hu). reflexivity.
Qed.

(** X28.  A registration that passes the checks hashes the password and
    calls [create_user_account] with the stripped name, the address
    stripped and in lower case, the hash and the newsletter flag, and
    makes no other call: the password itself is not among the
    parameters.  When the procedure reports success the answer is status
    201 and shows the name and the address as they were stored. *)
Theorem register_stores_hash_and_normalised_address
    req d full_name email password newsletter accepted t hash
    message rest more :
  posts d req ->
  assoc "fullName" d = Some (VStr full_name) ->
  assoc "email" d = Some (VStr email) ->
  assoc "password" d = Some password ->
  dict_get (VDict d) "newsletter" (VBool false) = Ok newsletter ->
  (2 <= len (strip full_name))%nat ->
  validate_email (normalised email) = true ->
  validate_password password = Ok (true, accepted) ->
  on_generate_password_hash t password = Ok hash ->
  let ps := account_params (strip full_name) (normalised email) hash
              newsletter in
  let t1 := record t (GeneratePasswordHash password) in
  run (call_procedure "create_user_account" ps) t1
  = Ok ((VStr "success" :: message :: rest) :: more) ->
  run (register req) t
  = Ok (reply 201
          (VDict [("message", VStr "Account created successfully");
                  ("user",
                   VDict [("email", VStr (normalised email));
                          ("full_name", VStr (strip full_name))])]))
  /\ calls (register req) t = calls (call_procedure "create_user_account" ps) t1.
Proof.
  intros [Hm Hj] Hn He Hp Hnews Hlen Hmail Hvalid Hhash ps t1 Hdb.
  assert (Hg : generate_password_hash password t = (Ok hash, t1))
    by (unfold generate_password_hash; rewrite Hhash; reflexivity).
  unfold run, calls, register. rewrite (not_options _ Hm).
  unfold try_except, register_body. rewrite Hj, bind_lift_ok.
  rewrite (assoc_some_truthy _ _ _ He). cbn [negb].
  rewrite Hnews. unfold get_stripped, dict_get. rewrite Hn, He, Hp.
  cbn [rbind v_strip]. rewrite !bind_lift_ok.
  fold (normalised email).
  rewrite (len_pos_nonempty (strip full_name)) by lia.
  destruct (Nat.ltb_spec (len (strip full_name)) 2); [lia|].
  cbn [orb]. rewrite (validate_email_nonempty _ Hmail), Hmail.
  cbn [orb negb]. rewrite Hvalid, bind_lift_ok. cbn [negb].
  rewrite (bind_step _ _ _ _ _ Hg).
  fold (account_params (strip full_name) (normalised email) hash newsletter).
  fold ps. rewrite (bind_ok _ _ _ _ Hdb). split; reflexivity.
Qed.

End LoginRest.

Section AddProduct.

Import Py Eff Db Http Dashboard Spec.

Context {L : Library} {W : World}.

(** X29.  [add_product] checks its input before anything is stored: a
    missing or blank URL, a URL without scheme or host, and a webhook
    address that is given but does not start with one of the two Discord
    prefixes are each answered with status 400, in that order of
    precedence, and no procedure is called. *)
Theorem add_product_validates_before_database
    req identity uid d url title webhook t :
  signed_in req identity uid ->
  get_json req = Ok (VDict d) ->
  d <> [] ->
  dict_get (VDict d) "url" (VStr "") = Ok (VStr url) ->
  dict_get (VDict d) "title" (VStr "") = Ok (VStr title) ->
  dict_get (VDict d) "discord_webhook_url" (VStr "") = Ok (VStr webhook) ->
  strip url = ""
  \/ validate_url (strip url) = false
  \/ (strip webhook <> "" /\ is_discord_webhook (strip webhook) = false) ->
  exists message,
    add_product req t
    = (Ok (reply 400 (VDict [("error", VStr message)])), t)
    /\ (strip url = "" -> message = "Product URL is required")
    /\ (strip url <> "" -> validate_url (strip url) = false ->
        message = "Invalid URL format")
    /\ (strip url <> "" -> validate_url (strip url) = true ->
        message = "Invalid Discord webhook URL format").
Proof.
  intros Hs Hj Hd Hu Ht Hw Hbad.
  destruct (signed_in_view _ _ _ add_product_view Hs) as [claims Hv].
  destruct Hs as (Hm & _ & Hi).
  unfold add_product. rewrite Hv.
  unfold add_product_view. rewrite (not_options _ Hm).
  unfold try_except, add_product_body.
  rewrite Hi, bind_lift_ok, Hj, bind_lift_ok, (nonempty_truthy _ Hd).
  cbn [negb]. rewrite Hu, Ht, Hw. cbn [rbind v_strip].
  rewrite !bind_lift_ok.
  destruct (dict_get (VDict d) "sms_notifications_enabled" (VBool false))
    as [sms|e] eqn:Esms; [|discriminate Esms].
  rewrite bind_lift_ok.
  destruct (String.eqb_spec (strip url) "") as [Hblank|Hgiven].
  - eexists. split; [reflexivity|].
    repeat split; intros; try reflexivity; contradiction.
  - destruct (validate_url (strip url)) eqn:Hvalid; cbn [negb].
    + destruct Hbad as [H|[H|[Hne Hnd]]]; [contradiction | discriminate |].
      destruct (String.eqb_spec (strip webhook) ""); [contradiction|].
      rewrite Hnd. cbn [negb andb].
      eexists. split; [reflexivity|].
      repeat split; intros; try reflexivity; try contradiction;
        discriminate.
    + eexists. split; [reflexivity|].
      repeat split; intros; try reflexivity; try contradiction;
        discriminate.
Qed.

End AddProduct.

Section MoreScenarios.

Import Py Re Eff Db Http Spec Scenario.

Lemma login_fails_when_last_login_is_not_recorded_witness :
  @run _ (@Auth.login plain (table no_last_login) alice_login) []
  = Ok (Auth.reply 500
          (VDict [("error", VStr "Internal server error during login")])).
Proof.
  apply (@login_fails_when_last_login_is_not_recorded plain
           (table no_last_login) alice_login "alice@example.com"
           (VStr "correct1horse") []
           (VStr "User found") (VInt 42) (VStr (plain_hash "correct1horse"))
           (VStr "Alice Doe") (VInt 1) (VInt 1) []
           (no_such_procedure "update_user_last_login")).
  - eexists. split; [split; [discriminate | reflexivity] |].
    split; reflexivity.
  - discriminate.
  - reflexivity.
  - reflexivity.
  - reflexivity.
  - reflexivity.
  - reflexivity.
Defined.

Lemma register_stores_hash_and_normalised_address_witness :
  @calls _ (@Auth.register (table (accounts (VInt 1))) carol_request) []
  = [GeneratePasswordHash (VStr "correct1horse");
     Execute ("CALL create_user_account(:p_full_name, :p_email, "
              ++ ":p_password_hash, :p_newsletter_opt_in)")
       [("p_full_name", VStr "Carol Roe");
        ("p_email", VStr "carol@example.com");
        ("p_password_hash", VStr (plain_hash "correct1horse"));
        ("p_newsletter_opt_in", VBool false)];
     Commit; Close].
Proof.
  destruct (@register_stores_hash_and_normalised_address
              (table (accounts (VInt 1))) carol_request
              [("fullName", VStr " Carol Roe ");
               ("email", VStr " Carol@Example.COM");
               ("password", VStr "correct1horse")]
              " Carol Roe " " Carol@Example.COM" (VStr "correct1horse")
              (VBool false) "Password is valid" []
              (plain_hash "correct1horse") (VStr "OK") [] [])
    as [_ Hcalls].
  - split; [discriminate | reflexivity].
  - reflexivity.
  - reflexivity.
  - reflexivity.
  - reflexivity.
  - vm_compute. lia.
  - reflexivity.
  - reflexivity.
  - reflexivity.
  - reflexivity.
  - rewrite Hcalls. reflexivity.
Defined.

Lemma add_product_validates_before_database_witness :
  @Dashboard.add_product plain (table enhanced_schema)
    (post_as [("url", VStr "amazon.com/dp/B000")] bare_token) []
  = (Ok (Dashboard.reply 400 (VDict [("error", VStr "Invalid URL format")])),
     []).
Proof.
  destruct (@add_product_validates_before_database plain
              (table enhanced_schema)
              (post_as [("url", VStr "amazon.com/dp/B000")] bare_token)
              (VStr "42") 42 [("url", VStr "amazon.com/dp/B000")]
              "amazon.com/dp/B000" "" "" [])
    as (message & Hrun & _ & Hinvalid & _).
  - split; [discriminate|]. split; [eexists; reflexivity | reflexivity].
  - reflexivity.
  - discriminate.
  - reflexivity.
  - reflexivity.
  - reflexivity.
  - right. left. reflexivity.
  - rewrite Hrun, (Hinvalid ltac:(discriminate) eq_refl). reflexivity.
Defined.

End MoreScenarios.

(* ===================================================================== *)
(** * The configuration at start-up *)
(* ===================================================================== *)

Section Startup.

Import Py Db Config.

Lemma unset_iff env var :
  unset env var = true <-> env var = None \/ env var = Some "".
Proof.
  unfold unset. destruct (env var) as [v|].
  - destruct (String.eqb_spec v "") as [->|Hv].
    + split; [right; reflexivity | reflexivity].
    + split; [discriminate|]. intros [H|H]; [discriminate|].
      injection H as ->. contradiction.
  - split; [left; reflexivity | reflexivity].
Qed.

Lemma missing_vars_iff env var :
  In var (missing_vars env)
  <-> In var required_vars /\ (env var = None \/ env var = Some "").
Proof.
  unfold missing_vars. rewrite filter_In, unset_iff. reflexivity.
Qed.

Lemma get_config_production env :
  get_config env = ProductionConfig
  <-> exists v, env "FLASK_ENV" = Some v /\ lower v = "production".
Proof.
  unfold get_config, get. destruct (env "FLASK_ENV") as [v|].
  - destruct (String.eqb_spec (lower v) "production") as [E|N].
    + split; [exists v; split; [reflexivity | assumption] | reflexivity].
    + split.
      * destruct (String.eqb (lower v) "testing"); discriminate.
      * intros (v' & Hv & Hl). injection Hv as <-. contradiction.
  - split; [discriminate|]. intros (v & Hv & _). discriminate.
Qed.

(** X30.  Start-up refuses an incomplete production environment and
    nothing else: [init_app] of the class chosen by [get_config] raises
    exactly when FLASK_ENV reads production (in any letter case) and one
    of DB_HOST, DB_USERNAME, DB_PASSWORD, SECRET_KEY, JWT_SECRET_KEY is
    unset or empty; the RuntimeError then names exactly those variables.
    In every other environment start-up goes on, and an unset or empty
    JWT_SECRET_KEY is replaced by the fixed text of the source. *)
Theorem startup_checks_production_only (env : environ) :
  (forall e,
      init_app (get_config env) env = Raise e <->
      (exists v, env "FLASK_ENV" = Some v /\ lower v = "production")
      /\ missing_vars env <> []
      /\ e = RuntimeError ("Missing required environment variables: "
                           ++ join ", " (missing_vars env)))
  /\ (forall var,
         In var (missing_vars env)
         <-> In var required_vars
             /\ (env var = None \/ env var = Some ""))
  /\ (init_app (get_config env) env = Ok tt ->
      env "JWT_SECRET_KEY" = None \/ env "JWT_SECRET_KEY" = Some "" ->
      get_config env <> ProductionConfig
      /\ JWT_SECRET_KEY env = "jwt-secret-key-change-in-production").
Proof.
  split; [|split].
  - intros e. rewrite <- get_config_production. split.
    + destruct (get_config env); try discriminate.
      unfold init_app. destruct (missing_vars env) as [|v rest] eqn:E;
        [discriminate|].
      intros H. injection H as <-.
      split; [reflexivity | split; [discriminate | reflexivity]].
    + intros (-> & Hne & ->). unfold init_app.
      destruct (missing_vars env); [contradiction | reflexivity].
  - apply missing_vars_iff.
  - intros Hok Hjwt. split.
    + intros Hp. rewrite Hp in Hok. unfold init_app in Hok.
      assert (Hin : In "JWT_SECRET_KEY" (missing_vars env)).
      { apply missing_vars_iff. split; [|assumption].
        unfold required_vars. cbn. tauto. }
      destruct (missing_vars env); [contradiction | discriminate].
    + unfold JWT_SECRET_KEY, get_or.
      destruct Hjwt as [-> | ->]; reflexivity.
Qed.

End Startup.

Section StartupScenario.

Import Py Db Config Scenario.

Lemma startup_checks_production_only_witness :
  init_app (get_config no_secrets) no_secrets
  = Raise (RuntimeError
             ("Missing required environment variables: "
              ++ "SECRET_KEY, JWT_SECRET_KEY")).
Proof.
  destruct (startup_checks_production_only no_secrets) as [Hraise _].
  apply Hraise. split; [|split].
  - exists "Production". split; reflexivity.
  - discriminate.
  - reflexivity.
Defined.

End StartupScenario.
